(** * DashNew1: normalization, cascading filters and derived metrics

    A shallow embedding of the data layer of the reporting dashboard: the
    ingestion worker of the application shell, the dashboard's date
    resolver and metrics, and the filter, option-list and summary code of
    the Fleet Management, Job Card, Internal Fleets, Driver & Operator and
    External Fleets views.  Rows are JavaScript objects read through string
    keys; their cells are JavaScript values, numbers being IEEE-754
    doubles. *)

From Stdlib Require Import ZArith List Bool Lia Floats.
From Stdlib Require Import Strings.String Strings.Ascii Numbers.DecimalString.
From Stdlib Require Import Sorting.Permutation.
From Stdlib Require Uint63.
Import ListNotations.

Local Open Scope string_scope.
Local Open Scope Z_scope.

(** ** The JavaScript values the code handles *)

Module JS.

(** A [Date] is its time value, kept here as the UTC calendar fields the
    code reads ([getUTCFullYear], [getUTCMonth], the day of the month and
    the milliseconds into that day); [InvalidDate] is the date whose time
    value is [NaN]. *)
Inductive date : Type :=
| InvalidDate
| ValidDate (utcFullYear : Z) (utcMonth : nat) (utcDate : Z) (msOfDay : Z).

(** A cell of a parsed row. *)
Inductive value : Type :=
| VUndef
| VNull
| VBool (b : bool)
| VNum (x : float)
| VStr (s : string)
| VDate (d : date).

(** What the host decides and the code only calls: the decimal rendering
    of a double, the rendering of a date, locale collation, and the
    calendar day of a date in the local time zone. *)
Class Host : Type := {
  numberToString : float -> string;
  dateToString : date -> string;
  localeCompare : string -> string -> Z;
  localCalendar : date -> Z * nat * Z
}.

(** *** Strings

    A string is its sequence of code units, each below 256.  White space
    is what [trim] and [parseInt] strip among these: the code units 9 to
    13, 32 and 160.  Case mapping is that of the 7-bit range, other code
    units being left as they are: it is the one of JavaScript on the
    strings of that range ([Text.sevenBit] below). *)

Definition isLower (c : ascii) : bool :=
  let n := nat_of_ascii c in (Nat.leb 97 n && Nat.leb n 122)%bool.

Definition isUpper (c : ascii) : bool :=
  let n := nat_of_ascii c in (Nat.leb 65 n && Nat.leb n 90)%bool.

Definition upperChar (c : ascii) : ascii :=
  if isLower c then ascii_of_nat (nat_of_ascii c - 32) else c.

Definition lowerChar (c : ascii) : ascii :=
  if isUpper c then ascii_of_nat (nat_of_ascii c + 32) else c.

Fixpoint mapString (f : ascii -> ascii) (s : string) : string :=
  match s with
  | EmptyString => EmptyString
  | String c s' => String (f c) (mapString f s')
  end.

Definition toUpperCase : string -> string := mapString upperChar.
Definition toLowerCase : string -> string := mapString lowerChar.

Definition isWhiteSpace (c : ascii) : bool :=
  let n := nat_of_ascii c in
  (Nat.eqb n 32 || (Nat.leb 9 n && Nat.leb n 13) || Nat.eqb n 160)%bool.

Fixpoint trimStart (s : string) : string :=
  match s with
  | String c s' => if isWhiteSpace c then trimStart s' else s
  | EmptyString => EmptyString
  end.

Fixpoint trimEnd (s : string) : string :=
  match s with
  | EmptyString => EmptyString
  | String c s' =>
      match trimEnd s' with
      | EmptyString => if isWhiteSpace c then EmptyString else String c EmptyString
      | t => String c t
      end
  end.

Definition trim (s : string) : string := trimEnd (trimStart s).

Definition isEmpty (s : string) : bool :=
  match s with EmptyString => true | _ => false end.

(** [s.includes(sub)] *)
Fixpoint includes (s sub : string) : bool :=
  (prefix sub s ||
   match s with
   | EmptyString => false
   | String _ s' => includes s' sub
   end)%bool.

(** [xs.indexOf(s)], [None] for -1. *)
Fixpoint indexOf (xs : list string) (s : string) : option nat :=
  match xs with
  | [] => None
  | x :: xs' =>
      if String.eqb x s then Some O
      else option_map S (indexOf xs' s)
  end.

(** [xs.includes(s)] on an array of strings. *)
Definition arrayIncludes (xs : list string) (s : string) : bool :=
  existsb (String.eqb s) xs.

(** *** Numbers *)

Definition isDigit (c : ascii) : bool :=
  let n := nat_of_ascii c in (Nat.leb 48 n && Nat.leb n 57)%bool.

Fixpoint digitsValue (acc : option Z) (s : string) : option Z :=
  match s with
  | String c s' =>
      if isDigit c then
        let d := Z.of_nat (nat_of_ascii c - 48) in
        digitsValue (Some (match acc with Some a => 10 * a + d | None => d end)) s'
      else acc
  | EmptyString => acc
  end.

(** [parseInt(s, 10)]: leading white space, an optional sign, then the
    longest run of decimal digits; [None] is [NaN]. *)
Definition parseInt (s : string) : option Z :=
  match trimStart s with
  | String "-" s' => option_map Z.opp (digitsValue None s')
  | String "+" s' => digitsValue None s'
  | s' => digitsValue None s'
  end.

(** The decimal rendering of an integral number. *)
Definition intToString (z : Z) : string :=
  NilZero.string_of_int (Z.to_int z).

(** An array length as a number. *)
Definition ofNat (n : nat) : float :=
  PrimFloat.of_uint63 (Uint63.of_Z (Z.of_nat n)).

(** [v ? _ : _], [!v]: the truthiness of a number. *)
Definition truthyNum (x : float) : bool :=
  negb (PrimFloat.is_zero x || PrimFloat.is_nan x).

(** *** Values *)

Definition toBoolean (v : value) : bool :=
  match v with
  | VUndef | VNull => false
  | VBool b => b
  | VNum x => truthyNum x
  | VStr s => negb (isEmpty s)
  | VDate _ => true
  end.

Definition isNullish (v : value) : bool :=
  match v with VUndef | VNull => true | _ => false end.

(** [a ?? b] *)
Definition coalesce (a b : value) : value := if isNullish a then b else a.

(** [a || b] *)
Definition orElse (a b : value) : value := if toBoolean a then a else b.

(** [v === s] against a string. *)
Definition strictEqStr (v : value) (s : string) : bool :=
  match v with VStr t => String.eqb t s | _ => false end.

(** [String(v)] *)
Definition toString `{Host} (v : value) : string :=
  match v with
  | VUndef => "undefined"
  | VNull => "null"
  | VBool true => "true"
  | VBool false => "false"
  | VNum x => numberToString x
  | VStr s => s
  | VDate d => dateToString d
  end.

(** A cell of a column that the sheet interfaces of [types.ts] declare as
    [number]: such a cell holds a number or is absent.  A cell of another
    type, which those interfaces exclude, would make the sum that reads it
    a string, no longer a number; it is read as [NaN]. *)
Definition asNumber (v : value) : float :=
  match v with VNum x => x | _ => PrimFloat.nan end.

(** [v ?? 0] and [v || 0] on a numeric column. *)
Definition coalesce0 (v : value) : float :=
  if isNullish v then 0%float else asNumber v.

Definition or0 (v : value) : float :=
  if toBoolean v then asNumber v else 0%float.

(** *** Rows

    A row is an object: its own string keys, in the order [for ... in]
    visits them, each with its cell.  A key is held once. *)

Definition row : Type := list (string * value).

(** [item[key]] *)
Fixpoint get (item : row) (key : string) : value :=
  match item with
  | [] => VUndef
  | (k, v) :: item' => if String.eqb k key then v else get item' key
  end.

(** [item[key] = v]: the cell of a key the row has is replaced where it
    is, and a new key comes after the keys the row has.  That is where an
    object lists it unless the key is an array index (["0"], ["1"], ...),
    which an object lists before its other keys; the properties below
    read the cells and the keys of an assigned row, not their order. *)
Fixpoint assign (item : row) (key : string) (v : value) : row :=
  match item with
  | [] => [(key, v)]
  | (k, w) :: item' =>
      if String.eqb k key then (k, v) :: item'
      else (k, w) :: assign item' key v
  end.

(** *** Dates *)

(** [v instanceof Date && !isNaN(v.getTime())] *)
Definition isValidDate (v : value) : bool :=
  match v with VDate (ValidDate _ _ _ _) => true | _ => false end.

(** [d.getUTCMonth()] and [d.getUTCFullYear()]; [None] is [NaN]. *)
Definition getUTCMonth (d : date) : option nat :=
  match d with ValidDate _ m _ _ => Some m | InvalidDate => None end.

Definition getUTCFullYear (d : date) : option Z :=
  match d with ValidDate y _ _ _ => Some y | InvalidDate => None end.

(** [String(n)] of a year read from a date. *)
Definition yearToString (y : option Z) : string :=
  match y with Some z => intToString z | None => "NaN" end.

(** Days from 1970-01-01 to the given day of the proleptic Gregorian
    calendar, [month] counted from 0. *)
Definition daysFromCivil (year : Z) (month : nat) (day : Z) : Z :=
  let m := Z.of_nat month + 1 in
  let y := if m <=? 2 then year - 1 else year in
  let era := y / 400 in
  let yoe := y - era * 400 in
  let mp := (m + 9) mod 12 in
  let doy := (153 * mp + 2) / 5 + day - 1 in
  let doe := yoe * 365 + yoe / 4 - yoe / 100 + doy in
  era * 146097 + doe - 719468.

(** [new Date(Date.UTC(year, month, day))] for a month index below 12 and
    a day that exists in that month, which is how the code calls it: a
    year from 0 to 99 counts from 1900, and a day more than 100,000,000
    days from the epoch has no time value. *)
Definition DateUTC (year : Z) (month : nat) (day : Z) : date :=
  let y := if ((0 <=? year) && (year <=? 99))%bool then 1900 + year else year in
  if Z.abs (daysFromCivil y month day) <=? 100000000
  then ValidDate y month day 0
  else InvalidDate.

(** *** Sets and sorting *)

(** [Array.from(new Set(xs))] on strings: first occurrences, in order. *)
Fixpoint dedupe (seen xs : list string) : list string :=
  match xs with
  | [] => []
  | x :: xs' =>
      if arrayIncludes seen x then dedupe seen xs'
      else x :: dedupe (x :: seen) xs'
  end.

(** [xs.sort(cmp)]: the stable sort of [xs] by a comparator. *)
Fixpoint insertBy {A : Type} (cmp : A -> A -> Z) (x : A) (xs : list A) : list A :=
  match xs with
  | [] => [x]
  | y :: xs' => if cmp x y <=? 0 then x :: xs else y :: insertBy cmp x xs'
  end.

Definition sortBy {A : Type} (cmp : A -> A -> Z) (xs : list A) : list A :=
  fold_right (insertBy cmp) [] xs.

(** The default comparator of [sort()]: strings by code units. *)
Definition compareCodeUnits (a b : string) : Z :=
  match String.compare a b with Lt => -1 | Eq => 0 | Gt => 1 end.

Definition sortStrings : list string -> list string := sortBy compareCodeUnits.

(** The SameValueZero comparison of a [Set] of cells.  Two dates are two
    objects: cells of different rows never hold the same one. *)
Definition sameValueZero (a b : value) : bool :=
  match a, b with
  | VUndef, VUndef => true
  | VNull, VNull => true
  | VBool x, VBool y => Bool.eqb x y
  | VNum x, VNum y => (PrimFloat.eqb x y || (PrimFloat.is_nan x && PrimFloat.is_nan y))%bool
  | VStr s, VStr t => String.eqb s t
  | _, _ => false
  end.

(** [new Set(xs).size] *)
Fixpoint setSize (seen xs : list value) : nat :=
  match xs with
  | [] => O
  | x :: xs' =>
      if existsb (sameValueZero x) seen then setSize seen xs'
      else S (setSize (x :: seen) xs')
  end.

(** [xs.reduce((acc, item) => acc + f(item), 0)] *)
Definition sumOf {A : Type} (f : A -> float) (xs : list A) : float :=
  fold_left (fun acc item => (acc + f item)%float) xs 0%float.

End JS.

(** ** The application shell: shared filters, the workbook, the worker *)

Module App.
Import JS.

(** [SharedFilterState] *)
Record SharedFilterState : Type := {
  month : string;
  year : string;
  businessUnit : string;
  internalType : string;
  designation : string
}.

(** [ExcelData], the sheets the views read. *)
Record ExcelData : Type := {
  driverOperator : list row;
  fleetManagement : list row;
  jobCard : list row;
  internalFleets : list row;
  externalFleets : list row
}.

(** The test every reset effect makes:
    [selection !== 'All' && !options.includes(selection)]. *)
Definition stale (options : list string) (selection : string) : bool :=
  (negb (String.eqb selection "All") && negb (arrayIncludes options selection))%bool.

Section Worker.
Context `{Host}.

(** The filter the worker applies to the raw rows of the Internal
    Fleets sheet. *)
Definition hasRegNo (r : row) : bool :=
  (toBoolean (get r "Reg No:")
   && negb (isEmpty (trim (toString (get r "Reg No:")))))%bool.

(** A valid date is rebuilt at midnight UTC from its local calendar
    day; any other cell is kept. *)
Definition cleanValue (v : value) : value :=
  if isValidDate v then
    match v with
    | VDate d =>
        let '(y, m, dd) := localCalendar d in VDate (DateUTC y m dd)
    | _ => v
    end
  else v.

(** The body of [rawJson.map]: the own keys of the row in order, each
    trimmed, a later key replacing an equal earlier one. *)
Definition cleanRow (r : row) : row :=
  fold_left (fun cleanedRow kv => assign cleanedRow (trim (fst kv)) (cleanValue (snd kv)))
            r [].

(** The entries of a raw row whose key the cleaning turns into [key]. *)
Definition columnsCleanedTo (key : string) (r : row) : list (string * value) :=
  filter (fun kv => String.eqb (trim (fst kv)) key) r.

(** What the worker stores for a sheet that was found, [internal]
    telling the Internal Fleets sheet from the others. *)
Definition parseSheet (internal : bool) (rawJson : list row) : list row :=
  let rawJson := if internal then filter hasRegNo rawJson else rawJson in
  map cleanRow rawJson.
End Worker.

End App.

(** ** Dashboard.tsx *)

Module Dashboard.
Import JS App.

Definition MONTH_NAMES_ABBR : list string :=
  ["JAN"; "FEB"; "MAR"; "APR"; "MAY"; "JUN"; "JUL"; "AUG"; "SEP"; "OCT"; "NOV"; "DEC"].

Definition getBusinessUnit (item : row) : value :=
  coalesce (coalesce (coalesce (coalesce
    (get item "BUSINESS UNITS")
    (get item "Business Units"))
    (get item "BUSINESS UNIT"))
    (get item "Business Unit"))
    (get item "Client Company Name").

(** The date a cell holds when it is a valid [Date]. *)
Definition validDate (v : value) : option date :=
  match v with
  | VDate (ValidDate y m d t) => Some (ValidDate y m d t)
  | _ => None
  end.

(** [xs[i]] with [i] the month of a date: [None] is [undefined]. *)
Definition monthNameAt (xs : list string) (i : option nat) : option string :=
  match i with Some n => nth_error xs n | None => None end.

(** [name === s] for a name that may be [undefined] or [null]. *)
Definition nameEq (name : option string) (s : string) : bool :=
  match name with Some t => String.eqb t s | None => false end.

Section WithHost.
Context `{Host}.

Definition getItemDate (item : row) : option date :=
  match validDate (get item "End Date") with
  | Some d => Some d
  | None =>
  match validDate (get item "Month") with
  | Some d => Some d
  | None =>
  match validDate (get item "DATE") with
  | Some d => Some d
  | None =>
  match validDate (get item "Date:") with
  | Some d => Some d
  | None =>
      let monthStr := coalesce (get item "MONTH") (get item "Month") in
      let yearVal := coalesce (get item "YEAR") (get item "Year") in
      match monthStr with
      | VStr s =>
          if negb (isNullish yearVal) then
            match parseInt (toString yearVal) with
            | Some yearNum =>
                match indexOf MONTH_NAMES_ABBR (substring 0 3 (toUpperCase s)) with
                | Some monthIndex => Some (DateUTC yearNum monthIndex 15)
                | None => None
                end
            | None => None
            end
          else None
      | _ => None
      end
  end end end end.

(** The date test shared by [filterByDate], [filterByBUAndDate] and the
    filter of the percentage's denominator, once a date was found. *)
Definition dateMatches (anyMonth : bool) (filters : SharedFilterState) (itemDate : date) : bool :=
  let itemMonthName := monthNameAt MONTH_NAMES_ABBR (getUTCMonth itemDate) in
  let itemYear := getUTCFullYear itemDate in
  let monthMatch := ((anyMonth && String.eqb (month filters) "All")
                     || nameEq itemMonthName (month filters))%bool in
  let yearMatch := (String.eqb (year filters) "All"
                    || String.eqb (yearToString itemYear) (year filters))%bool in
  (monthMatch && yearMatch)%bool.

Definition filterByDate (filters : SharedFilterState) (item : row) : bool :=
  if (String.eqb (month filters) "All" && String.eqb (year filters) "All")%bool then true
  else
    match getItemDate item with
    | None => false
    | Some itemDate => dateMatches true filters itemDate
    end.

Definition buMatch (filters : SharedFilterState) (item : row) : bool :=
  (String.eqb (businessUnit filters) "All"
   || strictEqStr (getBusinessUnit item) (businessUnit filters))%bool.

Definition filterByBUAndDate (filters : SharedFilterState) (item : row) : bool :=
  if negb (buMatch filters item) then false
  else filterByDate filters item.

Definition filterJobCardByDate (filters : SharedFilterState) (item : row) : bool :=
  if (String.eqb (month filters) "All" && String.eqb (year filters) "All")%bool then true
  else
    let itemMonthName :=
      substring 0 3 (toUpperCase (toString (orElse (get item "Month") (VStr "")))) in
    let itemYear := toString (orElse (get item "Year") (VStr "")) in
    if (isEmpty itemMonthName || isEmpty itemYear)%bool then false
    else
      let monthMatch := (String.eqb (month filters) "All"
                         || String.eqb itemMonthName (month filters))%bool in
      let yearMatch := (String.eqb (year filters) "All"
                        || String.eqb itemYear (year filters))%bool in
      (monthMatch && yearMatch)%bool.

Definition filterJobCardByBUAndDate (filters : SharedFilterState) (item : row) : bool :=
  if negb (buMatch filters item) then false
  else filterJobCardByDate filters item.

(** [filtered] *)
Definition filtered (allData : ExcelData) (filters : SharedFilterState) : ExcelData :=
  {| driverOperator := filter (filterByBUAndDate filters) (driverOperator allData);
     fleetManagement := filter (filterByBUAndDate filters) (fleetManagement allData);
     jobCard := filter (filterJobCardByBUAndDate filters) (jobCard allData);
     internalFleets := filter (filterByBUAndDate filters) (internalFleets allData);
     externalFleets := filter (filterByBUAndDate filters) (externalFleets allData) |}.

(** *** [metrics] *)

Definition jobCardRevenue (allData : ExcelData) (filters : SharedFilterState) : float :=
  sumOf (fun i => or0 (orElse (get i "Total amount with Service Charge")
                              (get i "TOTAL AMOUNT WITH SERVICE CHARGE")))
        (jobCard (filtered allData filters)).

Definition jobCardProfit (allData : ExcelData) (filters : SharedFilterState) : float :=
  sumOf (fun i => or0 (get i "Profit")) (jobCard (filtered allData filters)).

Definition jobCardCost (allData : ExcelData) (filters : SharedFilterState) : float :=
  (jobCardRevenue allData filters - jobCardProfit allData filters)%float.

(** [item[keyUpperCase] ?? item[keyTitleCase] ?? 0] *)
Definition getCaseInsensitiveValue (item : row) (keyTitleCase : string) : float :=
  let keyUpperCase := toUpperCase keyTitleCase in
  coalesce0 (coalesce (get item keyUpperCase) (get item keyTitleCase)).

Definition fleetManagementRevenue (allData : ExcelData) (filters : SharedFilterState) : float :=
  sumOf (fun i => or0 (get i "Splited Amount")) (fleetManagement (filtered allData filters)).

Definition fleetManagementQty (allData : ExcelData) (filters : SharedFilterState) : float :=
  sumOf (fun i => or0 (get i "Fleets Qty")) (fleetManagement (filtered allData filters)).

Definition monthFilteredDataForPercentage
    (allData : ExcelData) (filters : SharedFilterState) : list row :=
  filter (fun item =>
            match getItemDate item with
            | None => false
            | Some itemDate => dateMatches false filters itemDate
            end)
         (fleetManagement allData).

Definition totalMonthAmount (allData : ExcelData) (filters : SharedFilterState) : float :=
  sumOf (fun i => or0 (get i "Splited Amount")) (monthFilteredDataForPercentage allData filters).

Definition fleetManagementPercentage (allData : ExcelData) (filters : SharedFilterState) : float :=
  if (negb (String.eqb (month filters) "All")
      && negb (String.eqb (businessUnit filters) "All"))%bool
  then
    if (0 <? totalMonthAmount allData filters)%float
    then (fleetManagementRevenue allData filters / totalMonthAmount allData filters * 100)%float
    else 0%float
  else 0%float.

(** [revenueCards.driverOperator], [costCards.driverOperator] and
    [profitCards.driverOperator] *)
Definition driverOperatorRevenue (allData : ExcelData) (filters : SharedFilterState) : float :=
  sumOf (fun i => getCaseInsensitiveValue i "Revenue") (driverOperator (filtered allData filters)).

Definition driverOperatorCost (allData : ExcelData) (filters : SharedFilterState) : float :=
  sumOf (fun i => getCaseInsensitiveValue i "Expense") (driverOperator (filtered allData filters)).

Definition driverOperatorProfit (allData : ExcelData) (filters : SharedFilterState) : float :=
  sumOf (fun i => getCaseInsensitiveValue i "Profit") (driverOperator (filtered allData filters)).

(** [counts.externalInvoice] *)
Definition externalInvoice (allData : ExcelData) (filters : SharedFilterState) : nat :=
  setSize [] (map (fun i => get i "Invoice Number:") (externalFleets (filtered allData filters))).

(** [counts.jobCards] *)
Definition jobCards (allData : ExcelData) (filters : SharedFilterState) : nat :=
  List.length (jobCard (filtered allData filters)).
End WithHost.

End Dashboard.

(** ** FleetManagement.tsx *)

Module FleetManagement.
Import JS.

Definition MONTH_NAMES : list string := Dashboard.MONTH_NAMES_ABBR.

(** The view's [filters] state. *)
Record Filters : Type := {
  Month : string;
  Year : string;
  BusinessUnits : string
}.

(** [getMonthName]: [None] is [null]. *)
Definition getMonthName (v : value) : option string :=
  match v with
  | VDate (ValidDate _ m _ _) => nth_error MONTH_NAMES m
  | _ => None
  end.

(** [getYear]: [None] is [null]. *)
Definition getYear (v : value) : option Z :=
  match v with
  | VDate (ValidDate y _ _ _) => Some y
  | _ => None
  end.

(** [String(itemYear)] of a year or [null]. *)
Definition yearOrNullToString (y : option Z) : string :=
  match y with Some z => intToString z | None => "null" end.

Section WithHost.
Context `{Host}.

Definition dateMatch (filters : Filters) (item : row) : bool :=
  let itemMonthName := getMonthName (get item "Month") in
  let itemYear := getYear (get item "Month") in
  let monthMatch := (String.eqb (Month filters) "All"
                     || Dashboard.nameEq itemMonthName (Month filters))%bool in
  let yearMatch := (String.eqb (Year filters) "All"
                    || String.eqb (yearOrNullToString itemYear) (Year filters))%bool in
  (monthMatch && yearMatch)%bool.

(** [dynamicOptions.businessUnits] *)
Definition businessUnitOptions (data : list row) (filters : Filters) : list string :=
  let dateFilteredData := filter (dateMatch filters) data in
  let businessUnits :=
    dedupe [] (map (fun item => toString (get item "Business Units"))
                   (filter (fun item => toBoolean (get item "Business Units")) dateFilteredData)) in
  "All" :: sortStrings businessUnits.

(** The effect that follows [dynamicOptions]: the state it leaves. *)
Definition resetEffect (data : list row) (filters : Filters) : Filters :=
  if App.stale (businessUnitOptions data filters) (BusinessUnits filters)
  then {| Month := Month filters; Year := Year filters; BusinessUnits := "All" |}
  else filters.

Definition filteredData (data : list row) (filters : Filters) : list row :=
  filter (fun item =>
            let businessUnitMatch :=
              (String.eqb (BusinessUnits filters) "All"
               || String.eqb (toString (get item "Business Units")) (BusinessUnits filters))%bool in
            (dateMatch filters item && businessUnitMatch)%bool)
         data.

(** [summaryData.totalAmount] *)
Definition totalAmount (data : list row) (filters : Filters) : float :=
  sumOf (fun item => or0 (get item "Splited Amount")) (filteredData data filters).

Definition monthFilteredData (data : list row) (filters : Filters) : list row :=
  filter (fun item =>
            let itemMonthName := getMonthName (get item "Month") in
            let itemYear := getYear (get item "Month") in
            let monthMatch := Dashboard.nameEq itemMonthName (Month filters) in
            let yearMatch := (String.eqb (Year filters) "All"
                              || String.eqb (yearOrNullToString itemYear) (Year filters))%bool in
            (monthMatch && yearMatch)%bool)
         data.

Definition totalMonthAmount (data : list row) (filters : Filters) : float :=
  sumOf (fun item => or0 (get item "Splited Amount")) (monthFilteredData data filters).

(** [summaryData.percentage] *)
Definition percentage (data : list row) (filters : Filters) : float :=
  if negb (String.eqb (Month filters) "All") then
    if (negb (String.eqb (BusinessUnits filters) "All")
        && (0 <? totalMonthAmount data filters)%float)%bool
    then (totalAmount data filters / totalMonthAmount data filters * 100)%float
    else 0%float
  else 0%float.
End WithHost.

End FleetManagement.

(** ** JobCardView.tsx *)

Module JobCardView.
Import JS.

Record Filters : Type := {
  Month : string;
  Year : string;
  BusinessUnits : string;
  Cluster : string
}.

Section WithHost.
Context `{Host}.

(** The month, year and search tests, written out in [dynamicOptions]
    and again in [filteredData]. *)
Definition baseMatch (searchFilter : string) (filters : Filters) (item : row) : bool :=
  let lowercasedSearchFilter := trim (toLowerCase searchFilter) in
  let itemMonthName :=
    substring 0 3 (toUpperCase (toString (orElse (get item "Month") (VStr "")))) in
  let itemYear := toString (orElse (get item "Year") (VStr "")) in
  let monthMatch := (String.eqb (Month filters) "All"
                     || String.eqb itemMonthName (Month filters))%bool in
  let yearMatch := (String.eqb (Year filters) "All"
                    || String.eqb itemYear (Year filters))%bool in
  let searchKey := coalesce (get item "Reg / Fleet No:") (get item "Plate #") in
  let searchMatch := (isEmpty lowercasedSearchFilter
                      || includes (toLowerCase (toString searchKey)) lowercasedSearchFilter)%bool in
  (monthMatch && yearMatch && searchMatch)%bool.

Definition businessUnitMatch (filters : Filters) (item : row) : bool :=
  (String.eqb (BusinessUnits filters) "All"
   || String.eqb (toString (get item "Business Units")) (BusinessUnits filters))%bool.

Definition clusterMatch (filters : Filters) (item : row) : bool :=
  (String.eqb (Cluster filters) "All"
   || String.eqb (toString (get item "Cluster")) (Cluster filters))%bool.

(** The strings of a column over the rows where it is truthy, as the
    [Set] the code fills holds them. *)
Definition columnSet (key : string) (rows : list row) : list string :=
  dedupe [] (map (fun item => toString (get item key))
                 (filter (fun item => toBoolean (get item key)) rows)).

(** [dynamicOptions.businessUnits] *)
Definition businessUnitOptions (data : list row) (searchFilter : string) (filters : Filters)
  : list string :=
  let baseFilteredData := filter (baseMatch searchFilter filters) data in
  let buData := filter (clusterMatch filters) baseFilteredData in
  "All" :: sortStrings (columnSet "Business Units" buData).

(** [dynamicOptions.clusters] *)
Definition clusterOptions (data : list row) (searchFilter : string) (filters : Filters)
  : list string :=
  let baseFilteredData := filter (baseMatch searchFilter filters) data in
  let clusterData := filter (businessUnitMatch filters) baseFilteredData in
  "All" :: sortStrings (columnSet "Cluster" clusterData).

(** The two effects that follow [dynamicOptions].  Both read the state
    of the render they belong to, and each update keeps the other
    fields of the state it finds. *)
Definition resetEffects (data : list row) (searchFilter : string) (filters : Filters) : Filters :=
  let staleBusinessUnit :=
    App.stale (businessUnitOptions data searchFilter filters) (BusinessUnits filters) in
  let staleCluster :=
    App.stale (clusterOptions data searchFilter filters) (Cluster filters) in
  {| Month := Month filters;
     Year := Year filters;
     BusinessUnits := if staleBusinessUnit then "All" else BusinessUnits filters;
     Cluster := if staleCluster then "All" else Cluster filters |}.

Definition filteredData (data : list row) (searchFilter : string) (filters : Filters)
  : list row :=
  filter (fun item =>
            (baseMatch searchFilter filters item
             && businessUnitMatch filters item
             && clusterMatch filters item)%bool)
         data.

(** [summaryData] *)
Definition totalAmount (filteredData : list row) : float :=
  sumOf (fun item => or0 (orElse (get item "Total amount with Service Charge")
                                 (get item "Total Amount w%")))
        filteredData.

Definition totalProfit (filteredData : list row) : float :=
  sumOf (fun item => or0 (get item "Profit")) filteredData.

Definition recordCount (filteredData : list row) : nat := List.length filteredData.

Definition averageAmount (filteredData : list row) : float :=
  if Nat.ltb 0 (recordCount filteredData)
  then (totalAmount filteredData / ofNat (recordCount filteredData))%float
  else 0%float.
End WithHost.

End JobCardView.

(** ** InternalFleetsView.tsx *)

Module InternalFleetsView.
Import JS.

Record Filters : Type := {
  Month : string;
  Year : string;
  BusinessUnits : string;
  Fleet_Category : string
}.

Section WithHost.
Context `{Host}.

Definition baseMatch (searchFilter : string) (filters : Filters) (item : row) : bool :=
  let lowercasedSearchFilter := trim (toLowerCase searchFilter) in
  let itemMonthName :=
    substring 0 3 (toUpperCase (toString (orElse (get item "MONTH") (VStr "")))) in
  let itemYear := toString (orElse (get item "YEAR") (VStr "")) in
  let monthMatch := (String.eqb (Month filters) "All"
                     || String.eqb itemMonthName (Month filters))%bool in
  let yearMatch := (String.eqb (Year filters) "All"
                    || String.eqb itemYear (Year filters))%bool in
  let searchMatch := (isEmpty lowercasedSearchFilter
                      || includes (toLowerCase (toString (get item "Reg No:")))
                                  lowercasedSearchFilter)%bool in
  (monthMatch && yearMatch && searchMatch)%bool.

Definition businessUnitMatch (filters : Filters) (item : row) : bool :=
  (String.eqb (BusinessUnits filters) "All"
   || String.eqb (toString (get item "Business Units")) (BusinessUnits filters))%bool.

Definition fleetCategoryMatch (filters : Filters) (item : row) : bool :=
  (String.eqb (Fleet_Category filters) "All"
   || String.eqb (toString (get item "Fleet_Category")) (Fleet_Category filters))%bool.

(** [dynamicOptions.businessUnits] *)
Definition businessUnitOptions (data : list row) (searchFilter : string) (filters : Filters)
  : list string :=
  let baseFilteredData := filter (baseMatch searchFilter filters) data in
  let buData := filter (fleetCategoryMatch filters) baseFilteredData in
  "All" :: sortStrings (JobCardView.columnSet "Business Units" buData).

(** [dynamicOptions.fleetCategories] *)
Definition fleetCategoryOptions (data : list row) (searchFilter : string) (filters : Filters)
  : list string :=
  let baseFilteredData := filter (baseMatch searchFilter filters) data in
  let fcData := filter (businessUnitMatch filters) baseFilteredData in
  "All" :: sortStrings (JobCardView.columnSet "Fleet_Category" fcData).

Definition resetEffects (data : list row) (searchFilter : string) (filters : Filters) : Filters :=
  let staleBusinessUnit :=
    App.stale (businessUnitOptions data searchFilter filters) (BusinessUnits filters) in
  let staleFleetCategory :=
    App.stale (fleetCategoryOptions data searchFilter filters) (Fleet_Category filters) in
  {| Month := Month filters;
     Year := Year filters;
     BusinessUnits := if staleBusinessUnit then "All" else BusinessUnits filters;
     Fleet_Category := if staleFleetCategory then "All" else Fleet_Category filters |}.

(** The test on [sharedFilters.internalType]. *)
Definition internalTypeMatch (internalType : string) (item : row) : bool :=
  if String.eqb internalType "Rental" then (0 <? coalesce0 (get item "R-Revenue"))%float
  else if String.eqb internalType "Fuel" then (0 <? coalesce0 (get item "F-Revenue"))%float
  else true.

Definition filteredData (data : list row) (searchFilter internalType : string) (filters : Filters)
  : list row :=
  filter (fun item =>
            (baseMatch searchFilter filters item
             && businessUnitMatch filters item
             && fleetCategoryMatch filters item
             && internalTypeMatch internalType item)%bool)
         data.

(** [summaryData] *)
Definition totalAmount (filteredData : list row) : float :=
  fold_left (fun acc item => (acc + or0 (get item "F-Revenue") + or0 (get item "R-Revenue"))%float)
            filteredData 0%float.

Definition recordCount (filteredData : list row) : nat := List.length filteredData.

Definition averageAmount (filteredData : list row) : float :=
  if Nat.ltb 0 (recordCount filteredData)
  then (totalAmount filteredData / ofNat (recordCount filteredData))%float
  else 0%float.
End WithHost.

End InternalFleetsView.

(** ** DriverOperatorView.tsx *)

Module DriverOperatorView.
Import JS.

Definition MONTH_NAMES : list string := Dashboard.MONTH_NAMES_ABBR.

Record Filters : Type := {
  Month : string;
  Year : string;
  BusinessUnits : string;
  Designation : string
}.

(** [getMonthNameFromDate] and [getYearFromDate]: [None] is [null]. *)
Definition getMonthNameFromDate (v : value) : option string :=
  match v with
  | VDate (ValidDate _ m _ _) => nth_error MONTH_NAMES m
  | _ => None
  end.

Definition getYearFromDate (v : value) : option Z :=
  match v with
  | VDate (ValidDate y _ _ _) => Some y
  | _ => None
  end.

Definition getBusinessUnit (item : row) : value := Dashboard.getBusinessUnit item.

Definition getDesignation (item : row) : value :=
  coalesce (get item "DESIGNATION") (get item "Designation").

(** The comparator of the second sort of an option list. *)
Definition allFirst `{Host} (a b : string) : Z :=
  if String.eqb a "All" then -1
  else if String.eqb b "All" then 1
  else localeCompare a b.

Section WithHost.
Context `{Host}.

(** [itemMonthName]: a string or [null]. *)
Definition itemMonthName (item : row) : option string :=
  if toBoolean (get item "Month")
  then Some (substring 0 3 (toUpperCase (toString (get item "Month"))))
  else getMonthNameFromDate (get item "End Date").

(** [itemYear]: [String(getYearFromDate(...) || '')] when the row has no
    truthy [Year]. *)
Definition itemYear (item : row) : string :=
  if toBoolean (get item "Year")
  then toString (get item "Year")
  else
    match getYearFromDate (get item "End Date") with
    | Some y => if Z.eqb y 0 then "" else intToString y
    | None => ""
    end.

(** [name && name === s] *)
Definition truthyAndEq (name : option string) (s : string) : bool :=
  match name with
  | Some t => (negb (isEmpty t) && String.eqb t s)%bool
  | None => false
  end.

Definition baseMatch (sapFilter : string) (filters : Filters) (item : row) : bool :=
  let lowercasedSapFilter := trim (toLowerCase sapFilter) in
  let monthMatch := (String.eqb (Month filters) "All"
                     || truthyAndEq (itemMonthName item) (Month filters))%bool in
  let yearMatch := (String.eqb (Year filters) "All"
                    || truthyAndEq (Some (itemYear item)) (Year filters))%bool in
  let sapNo := coalesce (get item "SAP NO.") (get item "SAP NO:") in
  let sapMatch := (isEmpty lowercasedSapFilter
                   || includes (toLowerCase (toString sapNo)) lowercasedSapFilter)%bool in
  (monthMatch && yearMatch && sapMatch)%bool.

Definition designationMatch (filters : Filters) (item : row) : bool :=
  (String.eqb (Designation filters) "All"
   || strictEqStr (getDesignation item) (Designation filters))%bool.

Definition businessUnitMatch (filters : Filters) (item : row) : bool :=
  (String.eqb (BusinessUnits filters) "All"
   || String.eqb (toString (getBusinessUnit item)) (BusinessUnits filters))%bool.

(** The strings an accessor yields over the rows where it is truthy. *)
Definition accessorSet (f : row -> value) (rows : list row) : list string :=
  dedupe [] (map (fun item => toString (f item))
                 (filter (fun item => toBoolean (f item)) rows)).

(** An option list with the current selection pushed and the list
    sorted again when the selection is not in it. *)
Definition withSelection (options : list string) (selection : string) : list string :=
  if App.stale options selection
  then sortBy allFirst (options ++ [selection])
  else options.

(** The lists before the selection is pushed. *)
Definition businessUnitsBase (data : list row) (sapFilter : string) (filters : Filters)
  : list string :=
  let baseFilteredData := filter (baseMatch sapFilter filters) data in
  let buData := filter (designationMatch filters) baseFilteredData in
  "All" :: sortStrings (accessorSet getBusinessUnit buData).

Definition designationsBase (data : list row) (sapFilter : string) (filters : Filters)
  : list string :=
  let baseFilteredData := filter (baseMatch sapFilter filters) data in
  let designationData := filter (businessUnitMatch filters) baseFilteredData in
  "All" :: sortStrings (accessorSet getDesignation designationData).

(** [dynamicOptions.businessUnits] and [dynamicOptions.designations] *)
Definition businessUnitOptions (data : list row) (sapFilter : string) (filters : Filters)
  : list string :=
  withSelection (businessUnitsBase data sapFilter filters) (BusinessUnits filters).

Definition designationOptions (data : list row) (sapFilter : string) (filters : Filters)
  : list string :=
  withSelection (designationsBase data sapFilter filters) (Designation filters).

(** The two effects that follow [dynamicOptions]. *)
Definition resetEffects (data : list row) (sapFilter : string) (filters : Filters) : Filters :=
  let staleBusinessUnit :=
    App.stale (businessUnitOptions data sapFilter filters) (BusinessUnits filters) in
  let staleDesignation :=
    App.stale (designationOptions data sapFilter filters) (Designation filters) in
  {| Month := Month filters;
     Year := Year filters;
     BusinessUnits := if staleBusinessUnit then "All" else BusinessUnits filters;
     Designation := if staleDesignation then "All" else Designation filters |}.

Definition filteredData (data : list row) (sapFilter : string) (filters : Filters)
  : list row :=
  filter (fun item =>
            (baseMatch sapFilter filters item
             && businessUnitMatch filters item
             && designationMatch filters item)%bool)
         data.

(** [summaryData] *)
Definition totalRevenue (filteredData : list row) : float :=
  sumOf (fun item => coalesce0 (get item "Revenue")) filteredData.

Definition totalExpense (filteredData : list row) : float :=
  sumOf (fun item => coalesce0 (get item "Expense")) filteredData.

Definition totalProfit (filteredData : list row) : float :=
  sumOf (fun item => coalesce0 (get item "Profit")) filteredData.

Definition recordCount (filteredData : list row) : nat := List.length filteredData.
End WithHost.

End DriverOperatorView.

(** ** DataView.tsx, the External Fleets view *)

Module DataView.
Import JS.

Section WithHost.
Context `{Host}.

(** The invoice numbers [summaryData] adds to its set. *)
Definition hasInvoiceNo (item : row) : bool :=
  let invoiceNo := get item "Invoice Number:" in
  (negb (isNullish invoiceNo) && negb (isEmpty (trim (toString invoiceNo))))%bool.

(** [summaryData.uniqueInvoiceCount] *)
Definition uniqueInvoiceCount (filteredData : list row) : nat :=
  setSize [] (map (fun item => get item "Invoice Number:") (filter hasInvoiceNo filteredData)).
End WithHost.

End DataView.

(** ** The specification's wording of date resolution *)

Module Spec.
Import JS.

(** The resolution order as the specification words it for a sheet with
    one primary date column and a month and a year text column: the
    primary date when valid, else the two text columns, else nothing.
    The result is the month abbreviation and the year. *)
Definition resolveDate `{Host} (primary monthCol yearCol : string) (item : row)
  : option (string * string) :=
  match Dashboard.validDate (get item primary) with
  | Some d =>
      match Dashboard.monthNameAt Dashboard.MONTH_NAMES_ABBR (getUTCMonth d) with
      | Some name => Some (name, yearToString (getUTCFullYear d))
      | None => None
      end
  | None =>
      match get item monthCol with
      | VStr s =>
          if negb (isNullish (get item yearCol)) then
            match parseInt (toString (get item yearCol)),
                  indexOf Dashboard.MONTH_NAMES_ABBR (substring 0 3 (toUpperCase s)) with
            | Some yearNum, Some _ => Some (substring 0 3 (toUpperCase s), intToString yearNum)
            | _, _ => None
            end
          else None
      | _ => None
      end
  end.

(** The percentage as the specification words it: the ratio whenever a
    month and a business unit are selected and the denominator is not
    zero, and 0 in every other case. *)
Definition percentage (monthSelected businessUnitSelected : bool) (revenue monthRevenue : float)
  : float :=
  if (monthSelected && businessUnitSelected && negb (PrimFloat.is_zero monthRevenue))%bool
  then (revenue / monthRevenue * 100)%float
  else 0%float.

(** A key cell (a registration number, an invoice number) that is
    missing, empty or only white space. *)
Definition isBlank (v : value) : bool :=
  match v with
  | VUndef | VNull => true
  | VStr s => isEmpty (trim s)
  | _ => false
  end.

(** The distinct invoice numbers of the rows that have one: the count
    with the missing and the blank ones left out. *)
Definition distinctInvoices (rows : list row) : nat :=
  setSize [] (filter (fun v => negb (isBlank v)) (map (fun i => get i "Invoice Number:") rows)).
End Spec.

(** ** Worked inputs *)

Module Scenario.
Import JS App.

(** The integer a double holds, when it holds one. *)
Definition integralValue (x : float) : option Z :=
  match Prim2SF x with
  | S754_zero _ => Some 0
  | S754_finite s m e =>
      let n := if 0 <=? e then Z.pos m * 2 ^ e else Z.pos m / 2 ^ (- e) in
      if ((0 <=? e) || (Z.pos m mod 2 ^ (- e) =? 0))%bool
      then Some (if s then - n else n)
      else None
  | _ => None
  end.

Definition pad2 (z : Z) : string :=
  if z <? 10 then "0" ++ intToString z else intToString z.

Definition pad4 (z : Z) : string :=
  if z <? 10 then "000" ++ intToString z
  else if z <? 100 then "00" ++ intToString z
  else if z <? 1000 then "0" ++ intToString z
  else intToString z.

(** A host for the worked inputs: the UTC time zone, collation by code
    units, and the decimal rendering of the numbers those inputs hold,
    which are integers below 2^53; it renders no other finite number. *)
Definition utcHost : Host :=
  {| numberToString := fun x =>
       match integralValue x with
       | Some z => intToString z
       | None =>
           if PrimFloat.is_nan x then "NaN"
           else if PrimFloat.eqb x PrimFloat.infinity then "Infinity"
           else if PrimFloat.eqb x PrimFloat.neg_infinity then "-Infinity"
           else ""
       end;
     dateToString := fun d =>
       match d with
       | InvalidDate => "Invalid Date"
       | ValidDate y m dd t =>
           nth (Z.to_nat ((daysFromCivil y m dd + 4) mod 7))
               ["Sun"; "Mon"; "Tue"; "Wed"; "Thu"; "Fri"; "Sat"] ""
           ++ " " ++ nth m ["Jan"; "Feb"; "Mar"; "Apr"; "May"; "Jun";
                            "Jul"; "Aug"; "Sep"; "Oct"; "Nov"; "Dec"] ""
           ++ " " ++ pad2 dd
           ++ " " ++ (if y <? 0 then "-" else "") ++ pad4 (Z.abs y)
           ++ " " ++ pad2 (t / 3600000) ++ ":" ++ pad2 (t / 60000 mod 60)
           ++ ":" ++ pad2 (t / 1000 mod 60)
           ++ " GMT+0000 (Coordinated Universal Time)"
       end;
     localeCompare := compareCodeUnits;
     localCalendar := fun d =>
       match d with
       | ValidDate y m dd _ => (y, m, dd)
       | InvalidDate => (0, O, 0)
       end |}.

Definition allShared : SharedFilterState :=
  {| month := "All"; year := "All"; businessUnit := "All";
     internalType := "All"; designation := "All" |}.

(** Scenario A of the specification. *)
Definition scenarioA : list row :=
  [ [("Month", VStr "JAN"); ("Year", VStr "2024"); ("Revenue", VNum 100); ("Expense", VNum 40)];
    [("Month", VStr "FEB"); ("Year", VStr "2024"); ("Revenue", VNum 50); ("Expense", VNum 10)] ].

Definition scenarioAFilters : DriverOperatorView.Filters :=
  {| DriverOperatorView.Month := "JAN"; DriverOperatorView.Year := "2024";
     DriverOperatorView.BusinessUnits := "All"; DriverOperatorView.Designation := "All" |}.

(** Scenario B: two rows of business unit Alpha. *)
Definition scenarioB : list row :=
  [ [("Business Units", VStr "Alpha"); ("Designation", VStr "DRIVER")];
    [("Business Units", VStr "Alpha"); ("Designation", VStr "OPERATOR")] ].

Definition driverFilters (bu designation : string) : DriverOperatorView.Filters :=
  {| DriverOperatorView.Month := "All"; DriverOperatorView.Year := "All";
     DriverOperatorView.BusinessUnits := bu; DriverOperatorView.Designation := designation |}.

(** A driver whose sheet gives February 2024 in its text columns and an
    end date in January 2024. *)
Definition februaryDriver : row :=
  [("Month", VStr "FEB"); ("Year", VStr "2024");
   ("End Date", VDate (ValidDate 2024 0 15 0))].

(** An Internal Fleets row of January 2024, the month written out and
    the year a number. *)
Definition januaryFleet : row :=
  [("Reg No:", VStr "ABC 123"); ("MONTH", VStr "January"); ("YEAR", VNum 2024)].

(** A fleet-management month whose amounts are credits. *)
Definition creditMonth : list row :=
  [ [("Month", VDate (ValidDate 2024 0 1 0)); ("Business Units", VStr "Alpha");
     ("Splited Amount", VNum (-50))] ].

(** A job card of 0.1 with a profit of 0.7, the nearest doubles. *)
Definition smallJobCard : list row :=
  [ [("Month", VStr "JAN"); ("Year", VStr "2024");
     ("Total amount with Service Charge", VNum 0x1.999999999999ap-4);
     ("Profit", VNum 0x1.6666666666666p-1); ("Expense", VNum 5)] ].

(** Raw rows of the Internal Fleets sheet: a vehicle, a row whose
    registration number is two spaces, and a row that has none. *)
Definition rawFleets : list row :=
  [ [("Reg No:", VStr "ABC 123"); (" Fleet No: ", VStr "F-7")];
    [("Reg No:", VStr "  "); ("Fleet No:", VStr "F-8")];
    [("Fleet No:", VStr "F-9")] ].

(** An Internal Fleets row with a second column whose name differs from
    [Reg No:] by a trailing space and whose cell is a single space. *)
Definition twoRegColumns : list row :=
  [ [("Reg No:", VStr "ABC 123"); ("Reg No: ", VStr " ")] ].

(** External Fleets rows, two of them with no invoice number. *)
Definition externalRows : list row :=
  [ [("Reg No:", VStr "X1"); ("REVENUE", VNum 10)];
    [("Reg No:", VStr "X2"); ("REVENUE", VNum 20)];
    [("Reg No:", VStr "X3"); ("REVENUE", VNum 30); ("Invoice Number:", VStr "INV-1")] ].

(** Scenario D: job cards of Alpha in January and of Beta in February,
    with Beta still selected after the month was set to January. *)
Definition scenarioD : list row :=
  [ [("Month", VStr "JAN"); ("Year", VStr "2024");
     ("Business Units", VStr "Alpha"); ("Cluster", VStr "North")];
    [("Month", VStr "FEB"); ("Year", VStr "2024");
     ("Business Units", VStr "Beta"); ("Cluster", VStr "South")] ].

Definition scenarioDFilters : JobCardView.Filters :=
  {| JobCardView.Month := "JAN"; JobCardView.Year := "2024";
     JobCardView.BusinessUnits := "Beta"; JobCardView.Cluster := "All" |}.

Definition creditFilters : FleetManagement.Filters :=
  {| FleetManagement.Month := "JAN"; FleetManagement.Year := "2024";
     FleetManagement.BusinessUnits := "Alpha" |}.

Definition creditShared : SharedFilterState :=
  {| month := "JAN"; year := "2024"; businessUnit := "Alpha";
     internalType := "All"; designation := "All" |}.

(** A workbook whose job cards have their [Expense] cell set by
    [expense], every other cell and sheet as it was. *)
Definition withExpense (expense : row -> value) (allData : ExcelData) : ExcelData :=
  {| driverOperator := driverOperator allData;
     fleetManagement := fleetManagement allData;
     jobCard := map (fun item => assign item "Expense" (expense item)) (jobCard allData);
     internalFleets := internalFleets allData;
     externalFleets := externalFleets allData |}.

Definition onlyFleetManagement (rows : list row) : ExcelData :=
  {| driverOperator := []; fleetManagement := rows; jobCard := [];
     internalFleets := []; externalFleets := [] |}.

Definition onlyJobCard (rows : list row) : ExcelData :=
  {| driverOperator := []; fleetManagement := []; jobCard := rows;
     internalFleets := []; externalFleets := [] |}.

Definition onlyExternalFleets (rows : list row) : ExcelData :=
  {| driverOperator := []; fleetManagement := []; jobCard := [];
     internalFleets := []; externalFleets := rows |}.

Definition onlyDriverOperator (rows : list row) : ExcelData :=
  {| driverOperator := rows; fleetManagement := []; jobCard := [];
     internalFleets := []; externalFleets := [] |}.
End Scenario.

(** ** Strings of the 7-bit range *)

Module Text.

(** The strings all of whose code units are of the 7-bit range, where the
    case mapping of [toUpperCase] and [toLowerCase] above is the one of
    JavaScript. *)
Fixpoint sevenBit (s : string) : bool :=
  match s with
  | EmptyString => true
  | String c s' => (Nat.ltb (nat_of_ascii c) 128 && sevenBit s')%bool
  end.

End Text.

(** ** The worker: sheet names and the parsed workbook *)

Module Ingest.
Import JS App.

(** The sheets the worker looks for, [Summary] left out. *)
Definition sheetsToParse : list string :=
  ["Dashboard"; "Fleet Management"; "Driver & Operator"; "Job Card";
   "Internal Fleets"; "External Fleets"].

Fixpoint filterString (keep : ascii -> bool) (s : string) : string :=
  match s with
  | EmptyString => EmptyString
  | String c s' => if keep c then String c (filterString keep s') else filterString keep s'
  end.

(** A character of the class [a-z0-9]. *)
Definition isLowerAlnum (c : ascii) : bool := (isLower c || isDigit c)%bool.

(** [name.trim().toLowerCase().replace(/[^a-z0-9]+/g, '')] *)
Definition normalizeSheetName (name : string) : string :=
  filterString isLowerAlnum (toLowerCase (trim name)).

(** A workbook: its sheet names in order, each with the rows
    [sheet_to_json] reads from the sheet. *)
Definition workbook : Type := list (string * list row).

(** [actualSheetNames.find(name => ...)] *)
Definition findSheet (wb : workbook) (expectedSheetName : string) : option string :=
  find (fun name => String.eqb (normalizeSheetName name) (normalizeSheetName expectedSheetName))
       (map fst wb).

(** [sheet_to_json(workbook.Sheets[name])] *)
Definition sheetRows (wb : workbook) (name : string) : list row :=
  match find (fun sheet => String.eqb (fst sheet) name) wb with
  | Some sheet => snd sheet
  | None => []
  end.

Definition doubleQuote : string := String (ascii_of_nat 34) EmptyString.

Definition warningFor (expectedSheetName : string) : string :=
  "Sheet " ++ doubleQuote ++ expectedSheetName ++ doubleQuote
  ++ " was not found. Corresponding views may be empty or show incomplete data.".

Section WithHost.
Context `{Host}.

(** One turn of [sheetsToParse.forEach] on [parsedData] and
    [foundWarnings]. *)
Definition parseExpected (wb : workbook) (state : list (string * list row) * list string)
    (expectedSheetName : string) : list (string * list row) * list string :=
  let '(parsedData, foundWarnings) := state in
  match findSheet wb expectedSheetName with
  | Some actualSheetName =>
      ((parsedData
          ++ [(expectedSheetName,
               parseSheet (String.eqb expectedSheetName "Internal Fleets")
                          (sheetRows wb actualSheetName))])%list,
       foundWarnings)
  | None =>
      ((parsedData ++ [(expectedSheetName, [])])%list,
       (foundWarnings ++ [warningFor expectedSheetName])%list)
  end.

(** The [data] and [warnings] of the worker's success message. *)
Definition parseWorkbook (wb : workbook) : list (string * list row) * list string :=
  fold_left (parseExpected wb) sheetsToParse ([], []).
End WithHost.

End Ingest.

(** ** DataView.tsx: the filters of the External Fleets view *)

Module ExternalFleetsView.
Import JS.

(** The view's [filters] state; the selected types of service are a
    [Set], held as its members in insertion order. *)
Record Filters : Type := {
  Month : string;
  Year : string;
  BusinessUnit : string;
  Supplier : string;
  TypeOfService : list string
}.

(** The three search texts. *)
Record Search : Type := {
  regNoFilter : string;
  transmittalFilter : string;
  invoiceFilter : string
}.

(** [newSet.delete(service)] and [newSet.add(service)] *)
Definition setDelete (set : list string) (service : string) : list string :=
  filter (fun member => negb (String.eqb member service)) set.

Definition setAdd (set : list string) (service : string) : list string :=
  if arrayIncludes set service then set else (set ++ [service])%list.

(** The update [handleTypeOfServiceChange] makes to the state. *)
Definition handleTypeOfServiceChange (service : string) (prev : Filters) : Filters :=
  {| Month := Month prev;
     Year := Year prev;
     BusinessUnit := BusinessUnit prev;
     Supplier := Supplier prev;
     TypeOfService :=
       if arrayIncludes (TypeOfService prev) service
       then setDelete (TypeOfService prev) service
       else setAdd (TypeOfService prev) service |}.

Section WithHost.
Context `{Host}.

(** [!lowercased || String(cell).toLowerCase().includes(lowercased)] *)
Definition searchMatch (text : string) (cell : value) : bool :=
  let lowercased := trim (toLowerCase text) in
  (isEmpty lowercased || includes (toLowerCase (toString cell)) lowercased)%bool.

Definition baseMatch (search : Search) (filters : Filters) (item : row) : bool :=
  let monthMatch := (String.eqb (Month filters) "All"
                     || strictEqStr (get item "Month") (Month filters))%bool in
  let yearMatch := (String.eqb (Year filters) "All"
                    || String.eqb (toString (get item "Year")) (Year filters))%bool in
  let regNoMatch := searchMatch (regNoFilter search) (get item "Reg No:") in
  let transmittalMatch :=
    searchMatch (transmittalFilter search) (coalesce (get item "Transmittal") (VStr "")) in
  let invoiceMatch :=
    searchMatch (invoiceFilter search) (coalesce (get item "Invoice Number:") (VStr "")) in
  (monthMatch && yearMatch && regNoMatch && transmittalMatch && invoiceMatch)%bool.

Definition buMatch (filters : Filters) (item : row) : bool :=
  (String.eqb (BusinessUnit filters) "All"
   || String.eqb (toString (get item "Business Units")) (BusinessUnit filters))%bool.

Definition supplierMatch (filters : Filters) (item : row) : bool :=
  (String.eqb (Supplier filters) "All"
   || String.eqb (toString (get item "Supplier Name")) (Supplier filters))%bool.

Definition serviceMatch (filters : Filters) (item : row) : bool :=
  (Nat.eqb (List.length (TypeOfService filters)) 0
   || arrayIncludes (TypeOfService filters) (toString (get item "Type of Service")))%bool.

(** [dynamicOptions] *)
Definition businessUnitOptions (data : list row) (search : Search) (filters : Filters)
  : list string :=
  let baseFilteredData := filter (baseMatch search filters) data in
  let buData :=
    filter (fun item => (supplierMatch filters item && serviceMatch filters item)%bool)
           baseFilteredData in
  "All" :: sortStrings (JobCardView.columnSet "Business Units" buData).

Definition supplierOptions (data : list row) (search : Search) (filters : Filters)
  : list string :=
  let baseFilteredData := filter (baseMatch search filters) data in
  let supplierData :=
    filter (fun item => (buMatch filters item && serviceMatch filters item)%bool)
           baseFilteredData in
  "All" :: sortStrings (JobCardView.columnSet "Supplier Name" supplierData).

Definition typesOfService (data : list row) (search : Search) (filters : Filters)
  : list string :=
  let baseFilteredData := filter (baseMatch search filters) data in
  let serviceData :=
    filter (fun item => (buMatch filters item && supplierMatch filters item)%bool)
           baseFilteredData in
  sortStrings (JobCardView.columnSet "Type of Service" serviceData).

(** [filteredServices] *)
Definition filteredServices (services : list string) (serviceSearchTerm : string)
  : list string :=
  if isEmpty serviceSearchTerm then services
  else filter (fun service => includes (toLowerCase service) (toLowerCase serviceSearchTerm))
              services.

(** The two effects that follow [dynamicOptions]. *)
Definition resetEffects (data : list row) (search : Search) (filters : Filters) : Filters :=
  let staleBusinessUnit :=
    App.stale (businessUnitOptions data search filters) (BusinessUnit filters) in
  let staleSupplier :=
    App.stale (supplierOptions data search filters) (Supplier filters) in
  {| Month := Month filters;
     Year := Year filters;
     BusinessUnit := if staleBusinessUnit then "All" else BusinessUnit filters;
     Supplier := if staleSupplier then "All" else Supplier filters;
     TypeOfService := TypeOfService filters |}.

Definition filteredData (data : list row) (search : Search) (filters : Filters) : list row :=
  filter (fun item =>
            (baseMatch search filters item
             && buMatch filters item
             && supplierMatch filters item
             && serviceMatch filters item)%bool)
         data.

(** [summaryData] *)
Definition totalRevenue (filteredData : list row) : float :=
  sumOf (fun item => coalesce0 (coalesce (get item "REVENUE") (get item "Revenue"))) filteredData.

Definition recordCount (filteredData : list row) : nat := List.length filteredData.

Definition averageRevenue (filteredData : list row) : float :=
  if Nat.ltb 0 (recordCount filteredData)
  then (totalRevenue filteredData / ofNat (recordCount filteredData))%float
  else 0%float.

Definition ehrcAmount (filteredData : list row) : float :=
  sumOf (fun item => coalesce0 (coalesce (get item "REVENUE") (get item "Revenue")))
        (filter (fun item => strictEqStr (get item "Business Units")
                                         "PMV-ELEGANCIA HUMAN RESOURCES & CONT.")
                filteredData).

Definition revenueMinusEhrc (filteredData : list row) : float :=
  (totalRevenue filteredData - ehrcAmount filteredData)%float.
End WithHost.

End ExternalFleetsView.

(** ** DataTable.tsx: headers and the sort request *)

Module DataTable.
Import JS.

Inductive SortDirection : Type := asc | desc.

(** [sortConfig]; a [direction] of [None] is [null]. *)
Record SortConfig : Type := {
  key : string;
  direction : option SortDirection
}.

Definition initialSortConfig : SortConfig := {| key := ""; direction := None |}.

(** The state [requestSort] sets. *)
Definition requestSort (sortConfig : SortConfig) (k : string) : SortConfig :=
  let sameKey := String.eqb (key sortConfig) k in
  {| key := k;
     direction :=
       match direction sortConfig with
       | Some asc => if sameKey then Some desc else Some asc
       | Some desc => if sameKey then None else Some asc
       | None => Some asc
       end |}.

(** [Object.keys(row).forEach(...)] on the headers collected so far. *)
Definition addKeys (allHeaders : list string) (r : row) : list string :=
  fold_left (fun acc k => if arrayIncludes acc k then acc else (acc ++ [k])%list)
            (map fst r) allHeaders.

(** [headers]: the explicit headers when given, else the keys of the rows
    in order of first appearance. *)
Definition headers (explicitHeaders : option (list string)) (data : list row) : list string :=
  match explicitHeaders with
  | Some given => given
  | None => fold_left addKeys data []
  end.

End DataTable.

(** ** SearchableDropdown.tsx *)

Module SearchableDropdown.
Import JS.

(** [filteredOptions] *)
Definition filteredOptions (options : list string) (searchTerm : string) : list string :=
  if isEmpty searchTerm then options
  else
    let lowercasedSearchTerm := toLowerCase searchTerm in
    filter (fun option => includes (toLowerCase option) lowercasedSearchTerm) options.

End SearchableDropdown.

(** ** DesignationSummary.tsx *)

Module DesignationSummary.
Import JS.

Definition getDesignation (item : row) : value :=
  coalesce (get item "DESIGNATION") (get item "Designation").

(** [getDesignation(item)?.trim().toUpperCase()]: [None] when the call
    throws, the designation being neither a string nor absent;
    [Some None] is [undefined]. *)
Definition standardized (item : row) : option (option string) :=
  match getDesignation item with
  | VUndef | VNull => Some None
  | VStr s => Some (Some (toUpperCase (trim s)))
  | VBool _ | VNum _ | VDate _ => None
  end.

(** [counts.set(designation, (counts.get(designation) || 0) + 1)] on a
    [Map] held as its entries in insertion order. *)
Fixpoint increment (counts : list (string * nat)) (designation : string)
  : list (string * nat) :=
  match counts with
  | [] => [(designation, 1%nat)]
  | (k, n) :: counts' =>
      if String.eqb k designation then (k, S n) :: counts'
      else (k, n) :: increment counts' designation
  end.

(** [counts.get(designation) || 0] *)
Definition countOf (counts : list (string * nat)) (designation : string) : nat :=
  match find (fun entry => String.eqb (fst entry) designation) counts with
  | Some entry => snd entry
  | None => O
  end.

(** The rows that have a designation, and those that have a given one,
    once it is trimmed and in upper case. *)
Definition hasDesignation (item : row) : bool :=
  match standardized item with
  | Some (Some designation) => negb (isEmpty designation)
  | _ => false
  end.

Definition isDesignated (designation : string) (item : row) : bool :=
  match standardized item with
  | Some (Some found) => (negb (isEmpty found) && String.eqb found designation)%bool
  | _ => false
  end.

(** One turn of [data.forEach]; [None] once a row has made it throw. *)
Definition countItem (acc : option (list (string * nat))) (item : row)
  : option (list (string * nat)) :=
  match acc with
  | None => None
  | Some counts =>
      match standardized item with
      | None => None
      | Some None => Some counts
      | Some (Some designation) =>
          if isEmpty designation then Some counts
          else Some (increment counts designation)
      end
  end.

Definition countDesignations (data : list row) : option (list (string * nat)) :=
  fold_left countItem data (Some []).

Definition driverDesignations : list string := ["HEAVY DRIVER"; "LIGHT DRIVER"].

Definition sumCounts (entries : list (string * nat)) : nat :=
  fold_left (fun sum entry => (sum + snd entry)%nat) entries O.

(** What the memo returns. *)
Record Summary : Type := {
  drivers : list (string * nat);
  operators : list (string * nat);
  totalDrivers : nat;
  totalOperators : nat
}.

Definition summarize `{Host} (data : list row) : option Summary :=
  match countDesignations data with
  | None => None
  | Some counts =>
      let driverList := filter (fun entry => arrayIncludes driverDesignations (fst entry)) counts in
      let operatorList :=
        filter (fun entry => negb (arrayIncludes driverDesignations (fst entry))) counts in
      let finalDrivers :=
        map (fun d =>
               match find (fun dr => String.eqb (fst dr) d) driverList with
               | Some found => found
               | None => (d, O)
               end)
            driverDesignations in
      Some {| drivers := finalDrivers;
              operators := sortBy (fun a b => localeCompare (fst a) (fst b)) operatorList;
              totalDrivers := sumCounts finalDrivers;
              totalOperators := sumCounts operatorList |}
  end.

End DesignationSummary.

(** ** CostDetailView.tsx *)

Module CostDetailView.
Import JS.

(** [tableData]: each row cut down to the headers. *)
Definition project (headers : list string) (item : row) : row :=
  fold_left (fun r header => assign r header (get item header)) headers [].

Definition tableData (data : list row) (headers : list string) : list row :=
  map (project headers) data.

(** [rowsPerPage]: 35, or the larger of 30 and the number of rows
    measured to fit a page when the measurement was made. *)
Definition rowsPerPage (calculatedRows : option Z) : nat :=
  match calculatedRows with
  | Some calculated => Z.to_nat (Z.max 30 calculated)
  | None => 35%nat
  end.

(** [Math.ceil(rows.length / rowsPerPage)] *)
Definition numPages {A : Type} (rows : list A) (perPage : nat) : nat :=
  ((List.length rows + perPage - 1) / perPage)%nat.

(** [rows.slice(i * rowsPerPage, (i + 1) * rowsPerPage)] *)
Definition pageRows {A : Type} (rows : list A) (perPage i : nat) : list A :=
  firstn perPage (skipn (i * perPage) rows).

(** The rows of every page of the export, page by page. *)
Definition pages {A : Type} (rows : list A) (perPage : nat) : list (list A) :=
  map (pageRows rows perPage) (seq 0 (numPages rows perPage)).

End CostDetailView.

(** ** Dashboard.tsx: the business units it offers *)

Module DashboardOptions.
Import JS App.

(** [Array.from(new Set(xs))] on cells. *)
Fixpoint dedupeValues (seen xs : list value) : list value :=
  match xs with
  | [] => []
  | x :: xs' =>
      if existsb (sameValueZero x) seen then dedupeValues seen xs'
      else x :: dedupeValues (x :: seen) xs'
  end.

(** The business units a sheet adds to [buSet]. *)
Definition businessUnitsOf (rows : list row) : list value :=
  filter toBoolean (map Dashboard.getBusinessUnit rows).

Section WithHost.
Context `{Host}.

(** The rows of each sheet that pass its date filter, in the order of
    [sheetsToProcess]. *)
Definition dateFiltered (allData : ExcelData) (filters : SharedFilterState) : list row :=
  (filter (Dashboard.filterByDate filters) (driverOperator allData)
   ++ filter (Dashboard.filterByDate filters) (fleetManagement allData)
   ++ filter (Dashboard.filterJobCardByDate filters) (jobCard allData)
   ++ filter (Dashboard.filterByDate filters) (internalFleets allData)
   ++ filter (Dashboard.filterByDate filters) (externalFleets allData))%list.

(** [dynamicBusinessUnits]; the default sort compares the strings of the
    cells. *)
Definition dynamicBusinessUnits (allData : ExcelData) (filters : SharedFilterState)
  : list value :=
  VStr "All"
  :: sortBy (fun a b => compareCodeUnits (toString a) (toString b))
            (dedupeValues [] (businessUnitsOf (dateFiltered allData filters))).

(** [dynamicBusinessUnits.includes(selection)] *)
Definition offers (options : list value) (selection : string) : bool :=
  existsb (sameValueZero (VStr selection)) options.

(** The effect that follows [dynamicBusinessUnits]. *)
Definition resetEffect (allData : ExcelData) (filters : SharedFilterState)
  : SharedFilterState :=
  if (negb (String.eqb (businessUnit filters) "All")
      && negb (offers (dynamicBusinessUnits allData filters) (businessUnit filters)))%bool
  then {| month := month filters; year := year filters; businessUnit := "All";
          internalType := internalType filters; designation := designation filters |}
  else filters.
End WithHost.

End DashboardOptions.

(** ** Further worked inputs *)

Module Cases.
Import JS App.

(** A workbook with two of the six sheets, their names written loosely. *)
Definition looseWorkbook : Ingest.workbook :=
  [ ("Sheet1", [ [("A", VStr "x")] ]);
    (" internal_FLEETS ", Scenario.rawFleets);
    ("Job-Card", Scenario.scenarioD) ].

(** A raw row whose keys carry spaces and whose cells are a string, a
    number, a date that is not valid and a valid date. *)
Definition spacedRow : row :=
  [ (" Reg No: ", VStr " ABC 123 "); ("W Days ", VNum 30);
    ("Date:", VDate InvalidDate); (" Month", VDate (ValidDate 2024 0 31 3600000)) ].

(** January 2024 selected in the Driver & Operator view with the business
    unit Beta, which the rows of scenario D have in February only. *)
Definition staleDriverFilters : DriverOperatorView.Filters :=
  {| DriverOperatorView.Month := "JAN"; DriverOperatorView.Year := "2024";
     DriverOperatorView.BusinessUnits := "Beta"; DriverOperatorView.Designation := "All" |}.



(** A workbook with two sheets whose names both read as Job Card. *)
Definition doubledWorkbook : Ingest.workbook :=
  [ ("Notes", []);
    ("JOB_CARD", [ [("Plate #", VStr "first")] ]);
    ("Job Card", [ [("Plate #", VStr "second")] ]) ].

(** External Fleets rows of two suppliers and two types of service. *)
Definition suppliedRows : list row :=
  [ [("Month", VStr "JAN"); ("Year", VNum 2024); ("Business Units", VStr "Alpha");
     ("Supplier Name", VStr "Acme"); ("Type of Service", VStr "Rental");
     ("Reg No:", VStr "X1"); ("REVENUE", VNum 10)];
    [("Month", VStr "JAN"); ("Year", VNum 2024); ("Business Units", VStr "Beta");
     ("Supplier Name", VStr "Bolt"); ("Type of Service", VStr "Lease");
     ("Reg No:", VStr "X2"); ("REVENUE", VNum 20)] ].

Definition noSearch : ExternalFleetsView.Search :=
  {| ExternalFleetsView.regNoFilter := "";
     ExternalFleetsView.transmittalFilter := "  ";
     ExternalFleetsView.invoiceFilter := "" |}.

(** Drivers and operators: two heavy drivers written in two ways, a crane
    operator, a row whose designation is blank and one that has none. *)
Definition crew : list row :=
  [ [("SAP NO.", VNum 1); ("DESIGNATION", VStr " heavy driver")];
    [("SAP NO.", VNum 2); ("Designation", VStr "Heavy Driver ")];
    [("SAP NO.", VNum 3); ("Designation", VStr "Crane Operator")];
    [("SAP NO.", VNum 4); ("Designation", VStr "  ")];
    [("SAP NO.", VNum 5)] ].

(** Beta selected with the supplier Acme, who serves Alpha only. *)
Definition acmeFilters : ExternalFleetsView.Filters :=
  {| ExternalFleetsView.Month := "JAN"; ExternalFleetsView.Year := "2024";
     ExternalFleetsView.BusinessUnit := "Beta"; ExternalFleetsView.Supplier := "Acme";
     ExternalFleetsView.TypeOfService := ["Tow"] |}.
End Cases.

(** * Properties *)

Import JS App.

(** ** Lists, sets and sorting *)

Section ListFacts.
Context {A : Type}.

Lemma filter_all (f : A -> bool) (l : list A) :
  (forall x, In x l -> f x = true) -> filter f l = l.
Proof.
  induction l as [|a l IH]; intros Hall; simpl; [reflexivity|].
  rewrite (Hall a (or_introl eq_refl)).
  f_equal. apply IH. intros x Hx. apply Hall. now right.
Qed.

Lemma insertBy_perm (cmp : A -> A -> Z) (x : A) (xs : list A) :
  Permutation (insertBy cmp x xs) (x :: xs).
Proof.
  induction xs as [|y xs IH]; simpl; [reflexivity|].
  destruct (cmp x y <=? 0); [reflexivity|].
  rewrite IH. apply perm_swap.
Qed.

Lemma sortBy_perm (cmp : A -> A -> Z) (xs : list A) :
  Permutation (sortBy cmp xs) xs.
Proof.
  induction xs as [|x xs IH]; simpl; [reflexivity|].
  unfold sortBy in *. simpl.
  rewrite insertBy_perm. now constructor.
Qed.

Lemma sortBy_In (cmp : A -> A -> Z) (xs : list A) (x : A) :
  In x (sortBy cmp xs) <-> In x xs.
Proof.
  split; apply Permutation_in;
    [apply sortBy_perm | apply Permutation_sym, sortBy_perm].
Qed.
End ListFacts.

Lemma arrayIncludes_In (xs : list string) (s : string) :
  arrayIncludes xs s = true <-> In s xs.
Proof.
  unfold arrayIncludes. rewrite existsb_exists. split.
  - intros [x [Hin Heq]]. apply String.eqb_eq in Heq. now subst.
  - intros Hin. exists s. split; [assumption | apply String.eqb_refl].
Qed.

Lemma arrayIncludes_false (xs : list string) (s : string) :
  arrayIncludes xs s = false <-> ~ In s xs.
Proof.
  rewrite <- arrayIncludes_In. destruct (arrayIncludes xs s); split; congruence.
Qed.

Lemma dedupe_In (xs seen : list string) (x : string) :
  In x (dedupe seen xs) <-> In x xs /\ ~ In x seen.
Proof.
  revert seen. induction xs as [|y xs IH]; intros seen; simpl.
  - tauto.
  - destruct (arrayIncludes seen y) eqn:Hy.
    + apply arrayIncludes_In in Hy. rewrite IH.
      split; [tauto|]. intros [[->|Hx] Hn]; tauto.
    + apply arrayIncludes_false in Hy. simpl. rewrite IH. simpl.
      destruct (string_dec y x) as [->|Hne]; [tauto|].
      split; [intros [Heq|[Hx Hn]]; [contradiction|tauto] | tauto].
Qed.

Lemma stale_true (options : list string) (selection : string) :
  stale options selection = true <-> selection <> "All" /\ ~ In selection options.
Proof.
  unfold stale. rewrite andb_true_iff, !negb_true_iff, String.eqb_neq, arrayIncludes_false.
  tauto.
Qed.

Lemma stale_false (options : list string) (selection : string) :
  stale options selection = false <-> selection = "All" \/ In selection options.
Proof.
  unfold stale. rewrite andb_false_iff, !negb_false_iff, String.eqb_eq, arrayIncludes_In.
  tauto.
Qed.

(** An option list holds ["All"] and the strings of its set. *)
Lemma options_In (set : list string) (x : string) :
  In x ("All" :: sortStrings set) <-> x = "All" \/ In x set.
Proof.
  simpl. unfold sortStrings. rewrite sortBy_In. intuition.
Qed.

(** ** Filters set to "All" *)

Section AllFilters.
Context `{Host}.

Lemma dashboard_filtered_all (allData : ExcelData) (internalType designation : string) :
  Dashboard.filtered allData
    {| month := "All"; year := "All"; businessUnit := "All";
       internalType := internalType; designation := designation |} = allData.
Proof.
  destruct allData as [d f j i e]. unfold Dashboard.filtered. simpl.
  f_equal; apply filter_all; intros; reflexivity.
Qed.

(** C2. With every dimension at "All" and an empty search text, each
    view's filtered rows are the rows it was given, element for element,
    whatever their dates: the Fleet Management, Job Card, Internal Fleets
    and Driver & Operator views, and the five sheets the dashboard
    filters. *)
Theorem all_filters_keep_every_row (data : list row) (allData : ExcelData) :
  FleetManagement.filteredData data
    {| FleetManagement.Month := "All"; FleetManagement.Year := "All";
       FleetManagement.BusinessUnits := "All" |} = data
  /\ JobCardView.filteredData data ""
    {| JobCardView.Month := "All"; JobCardView.Year := "All";
       JobCardView.BusinessUnits := "All"; JobCardView.Cluster := "All" |} = data
  /\ InternalFleetsView.filteredData data "" "All"
    {| InternalFleetsView.Month := "All"; InternalFleetsView.Year := "All";
       InternalFleetsView.BusinessUnits := "All";
       InternalFleetsView.Fleet_Category := "All" |} = data
  /\ DriverOperatorView.filteredData data ""
    {| DriverOperatorView.Month := "All"; DriverOperatorView.Year := "All";
       DriverOperatorView.BusinessUnits := "All";
       DriverOperatorView.Designation := "All" |} = data
  /\ Dashboard.filtered allData Scenario.allShared = allData.
Proof.
  repeat split.
  - apply filter_all. intros; reflexivity.
  - apply filter_all. intros; reflexivity.
  - apply filter_all. intros; reflexivity.
  - apply filter_all. intros; reflexivity.
  - apply dashboard_filtered_all.
Qed.
End AllFilters.

(** ** Option lists and the dimension's own selection *)

Section OwnSelection.
Context `{Host}.

Lemma withSelection_In (options : list string) (selection x : string) :
  In "All" options ->
  (In x (DriverOperatorView.withSelection options selection)
   <-> In x options \/ x = selection).
Proof.
  intros HAll. unfold DriverOperatorView.withSelection.
  destruct (stale options selection) eqn:Hs.
  - rewrite sortBy_In, in_app_iff. simpl. intuition.
  - apply stale_false in Hs. split; [tauto|].
    intros [Hx| ->]; [assumption|]. destruct Hs as [->|Hs]; assumption.
Qed.

(** C1.  The option list computed for a dimension is the same whatever
    that dimension's own selection is: the business units of the Fleet
    Management view, the business units and clusters of the Job Card view,
    the business units and fleet categories of the Internal Fleets view,
    and the business units and designations the Driver & Operator view
    computes from the rows.  To that computed list the Driver & Operator
    view then appends a selection it does not hold, as the tie-break of
    the specification says: the list it shows is the computed list when
    the selection is not stale, and in every case holds exactly the
    strings of the computed list and the selection itself. *)
Theorem options_ignore_own_selection
    (data : list row) (search m y bu bu' d d' : string) :
  FleetManagement.businessUnitOptions data
      {| FleetManagement.Month := m; FleetManagement.Year := y;
         FleetManagement.BusinessUnits := bu |}
    = FleetManagement.businessUnitOptions data
      {| FleetManagement.Month := m; FleetManagement.Year := y;
         FleetManagement.BusinessUnits := bu' |}
  /\ JobCardView.businessUnitOptions data search
      {| JobCardView.Month := m; JobCardView.Year := y;
         JobCardView.BusinessUnits := bu; JobCardView.Cluster := d |}
    = JobCardView.businessUnitOptions data search
      {| JobCardView.Month := m; JobCardView.Year := y;
         JobCardView.BusinessUnits := bu'; JobCardView.Cluster := d |}
  /\ JobCardView.clusterOptions data search
      {| JobCardView.Month := m; JobCardView.Year := y;
         JobCardView.BusinessUnits := bu; JobCardView.Cluster := d |}
    = JobCardView.clusterOptions data search
      {| JobCardView.Month := m; JobCardView.Year := y;
         JobCardView.BusinessUnits := bu; JobCardView.Cluster := d' |}
  /\ InternalFleetsView.businessUnitOptions data search
      {| InternalFleetsView.Month := m; InternalFleetsView.Year := y;
         InternalFleetsView.BusinessUnits := bu; InternalFleetsView.Fleet_Category := d |}
    = InternalFleetsView.businessUnitOptions data search
      {| InternalFleetsView.Month := m; InternalFleetsView.Year := y;
         InternalFleetsView.BusinessUnits := bu'; InternalFleetsView.Fleet_Category := d |}
  /\ InternalFleetsView.fleetCategoryOptions data search
      {| InternalFleetsView.Month := m; InternalFleetsView.Year := y;
         InternalFleetsView.BusinessUnits := bu; InternalFleetsView.Fleet_Category := d |}
    = InternalFleetsView.fleetCategoryOptions data search
      {| InternalFleetsView.Month := m; InternalFleetsView.Year := y;
         InternalFleetsView.BusinessUnits := bu; InternalFleetsView.Fleet_Category := d' |}
  /\ DriverOperatorView.businessUnitsBase data search
      {| DriverOperatorView.Month := m; DriverOperatorView.Year := y;
         DriverOperatorView.BusinessUnits := bu; DriverOperatorView.Designation := d |}
    = DriverOperatorView.businessUnitsBase data search
      {| DriverOperatorView.Month := m; DriverOperatorView.Year := y;
         DriverOperatorView.BusinessUnits := bu'; DriverOperatorView.Designation := d |}
  /\ DriverOperatorView.designationsBase data search
      {| DriverOperatorView.Month := m; DriverOperatorView.Year := y;
         DriverOperatorView.BusinessUnits := bu; DriverOperatorView.Designation := d |}
    = DriverOperatorView.designationsBase data search
      {| DriverOperatorView.Month := m; DriverOperatorView.Year := y;
         DriverOperatorView.BusinessUnits := bu; DriverOperatorView.Designation := d' |}
  /\ (let f := {| DriverOperatorView.Month := m; DriverOperatorView.Year := y;
                  DriverOperatorView.BusinessUnits := bu;
                  DriverOperatorView.Designation := d |} in
      (stale (DriverOperatorView.businessUnitsBase data search f) bu = false ->
       DriverOperatorView.businessUnitOptions data search f
       = DriverOperatorView.businessUnitsBase data search f)
      /\ (stale (DriverOperatorView.designationsBase data search f) d = false ->
          DriverOperatorView.designationOptions data search f
          = DriverOperatorView.designationsBase data search f)
      /\ (forall x,
             In x (DriverOperatorView.businessUnitOptions data search f)
             <-> In x (DriverOperatorView.businessUnitsBase data search f) \/ x = bu)
      /\ (forall x,
             In x (DriverOperatorView.designationOptions data search f)
             <-> In x (DriverOperatorView.designationsBase data search f) \/ x = d)).
Proof.
  repeat match goal with |- _ /\ _ => split end; try reflexivity.
  cbv zeta. repeat match goal with |- _ /\ _ => split end.
  - intros Hs. unfold DriverOperatorView.businessUnitOptions,
      DriverOperatorView.withSelection.
    cbn [DriverOperatorView.BusinessUnits]. now rewrite Hs.
  - intros Hs. unfold DriverOperatorView.designationOptions,
      DriverOperatorView.withSelection.
    cbn [DriverOperatorView.Designation]. now rewrite Hs.
  - intros x. unfold DriverOperatorView.businessUnitOptions.
    apply withSelection_In. now left.
  - intros x. unfold DriverOperatorView.designationOptions.
    apply withSelection_In. now left.
Qed.
End OwnSelection.

(** The Driver & Operator view never resets a selection: the list its
    effects test always holds the selection. *)
Lemma driver_view_never_resets `{Host}
    (data : list row) (sapFilter : string) (f : DriverOperatorView.Filters) :
  DriverOperatorView.resetEffects data sapFilter f = f.
Proof.
  assert (Hkept : forall options selection,
             In "All" options ->
             stale (DriverOperatorView.withSelection options selection) selection = false).
  { intros options selection HAll. apply stale_false. right.
    apply withSelection_In; [exact HAll | now right]. }
  destruct f as [m y bu d]. unfold DriverOperatorView.resetEffects.
  unfold DriverOperatorView.businessUnitOptions, DriverOperatorView.designationOptions.
  cbn [DriverOperatorView.Month DriverOperatorView.Year DriverOperatorView.BusinessUnits
       DriverOperatorView.Designation].
  rewrite !Hkept by (now left). reflexivity.
Qed.

(** Scenario B: with Alpha selected the business-unit list is the list
    computed from the rows, whatever designation is selected. *)
Lemma options_ignore_own_selection_scenario_B :
  @DriverOperatorView.businessUnitOptions Scenario.utcHost
     Scenario.scenarioB "" (Scenario.driverFilters "Alpha" "DRIVER")
  = ["All"; "Alpha"]
  /\ @DriverOperatorView.designationOptions Scenario.utcHost
       Scenario.scenarioB "" (Scenario.driverFilters "Alpha" "All")
     = ["All"; "DRIVER"; "OPERATOR"].
Proof.
  split.
  - unfold Scenario.driverFilters.
    rewrite (proj1 (proj2 (proj2 (proj2 (proj2 (proj2 (proj2 (proj2
      (@options_ignore_own_selection Scenario.utcHost Scenario.scenarioB ""
         "All" "All" "Alpha" "Alpha" "DRIVER" "DRIVER")))))))))
      by reflexivity.
    reflexivity.
  - reflexivity.
Defined.

(** The append at work: over the two rows of business unit Alpha, with
    every other dimension at "All", selecting the business unit "Beta"
    puts "Beta" into the list the Driver & Operator view shows, after the
    list computed from the rows. *)
Lemma own_selection_changes_driver_options :
  @DriverOperatorView.businessUnitOptions Scenario.utcHost
     Scenario.scenarioB "" (Scenario.driverFilters "Beta" "All")
  = ["All"; "Alpha"; "Beta"]
  /\ @DriverOperatorView.businessUnitOptions Scenario.utcHost
       Scenario.scenarioB "" (Scenario.driverFilters "All" "All")
     = ["All"; "Alpha"]
  /\ @DriverOperatorView.businessUnitOptions Scenario.utcHost
       Scenario.scenarioB "" (Scenario.driverFilters "Beta" "All")
     <> @DriverOperatorView.businessUnitOptions Scenario.utcHost
          Scenario.scenarioB "" (Scenario.driverFilters "All" "All").
Proof.
  repeat split; try reflexivity.
  intros Heq. vm_compute in Heq. discriminate Heq.
Qed.

(** ** The reset effects *)

Section ResetEffects.
Context `{Host}.

Lemma columnSet_In (key : string) (rows : list row) (x : string) :
  In x (JobCardView.columnSet key rows)
  <-> exists item, In item rows /\ toBoolean (get item key) = true
                   /\ toString (get item key) = x.
Proof.
  unfold JobCardView.columnSet. rewrite dedupe_In, in_map_iff. split.
  - intros [[item [Hx Hin]] _]. apply filter_In in Hin. exists item. tauto.
  - intros [item [Hin [Ht Hx]]]. split; [|intros []].
    exists item. split; [assumption|]. apply filter_In. tauto.
Qed.

(** An option list computed over the rows that pass two tests. *)
Lemma cascade_In (key : string) (p q : row -> bool) (data : list row) (x : string) :
  In x ("All" :: sortStrings (JobCardView.columnSet key (filter q (filter p data))))
  <-> x = "All"
      \/ exists item, In item data /\ p item = true /\ q item = true
                      /\ toBoolean (get item key) = true /\ toString (get item key) = x.
Proof.
  rewrite options_In, columnSet_In. split; (intros [HAll|[item Hitem]]; [now left|right]);
    exists item; rewrite !filter_In in *; tauto.
Qed.

(** Setting the sibling dimension to "All" only adds options. *)
Lemma cascade_widen (key : string) (p q q' : row -> bool) (data : list row) (x : string) :
  (forall item, q item = true -> q' item = true) ->
  In x ("All" :: sortStrings (JobCardView.columnSet key (filter q (filter p data)))) ->
  In x ("All" :: sortStrings (JobCardView.columnSet key (filter q' (filter p data)))).
Proof.
  intros Hq. rewrite !cascade_In. intros [HAll|[item Hitem]]; [now left|right].
  exists item. intuition.
Qed.

Lemma fleet_management_settles (data : list row) (f : FleetManagement.Filters) :
  let f' := FleetManagement.resetEffect data f in
  (stale (FleetManagement.businessUnitOptions data f) (FleetManagement.BusinessUnits f) = true ->
   FleetManagement.BusinessUnits f' = "All")
  /\ (stale (FleetManagement.businessUnitOptions data f) (FleetManagement.BusinessUnits f) = false ->
      f' = f)
  /\ stale (FleetManagement.businessUnitOptions data f') (FleetManagement.BusinessUnits f') = false.
Proof.
  unfold FleetManagement.resetEffect.
  destruct (stale (FleetManagement.businessUnitOptions data f) (FleetManagement.BusinessUnits f))
    eqn:Hs; cbv zeta; repeat split; congruence || reflexivity.
Qed.

Lemma job_card_settles (data : list row) (search : string) (f : JobCardView.Filters) :
  let f' := JobCardView.resetEffects data search f in
  (stale (JobCardView.businessUnitOptions data search f) (JobCardView.BusinessUnits f) = true ->
   JobCardView.BusinessUnits f' = "All")
  /\ (stale (JobCardView.clusterOptions data search f) (JobCardView.Cluster f) = true ->
      JobCardView.Cluster f' = "All")
  /\ (stale (JobCardView.businessUnitOptions data search f) (JobCardView.BusinessUnits f) = false ->
      JobCardView.BusinessUnits f' = JobCardView.BusinessUnits f)
  /\ (stale (JobCardView.clusterOptions data search f) (JobCardView.Cluster f) = false ->
      JobCardView.Cluster f' = JobCardView.Cluster f)
  /\ stale (JobCardView.businessUnitOptions data search f') (JobCardView.BusinessUnits f') = false
  /\ stale (JobCardView.clusterOptions data search f') (JobCardView.Cluster f') = false.
Proof.
  destruct f as [m y bu c]. unfold JobCardView.resetEffects.
  cbn [JobCardView.Month JobCardView.Year JobCardView.BusinessUnits JobCardView.Cluster].
  set (sb := stale (JobCardView.businessUnitOptions data search _) bu).
  set (sc := stale (JobCardView.clusterOptions data search _) c).
  cbv zeta.
  cbn [JobCardView.Month JobCardView.Year JobCardView.BusinessUnits JobCardView.Cluster].
  assert (Hb : sb = false -> bu = "All" \/
               In bu (JobCardView.businessUnitOptions data search
                        {| JobCardView.Month := m; JobCardView.Year := y;
                           JobCardView.BusinessUnits := bu; JobCardView.Cluster := c |}))
    by (intros E; apply stale_false; exact E).
  assert (Hc : sc = false -> c = "All" \/
               In c (JobCardView.clusterOptions data search
                       {| JobCardView.Month := m; JobCardView.Year := y;
                          JobCardView.BusinessUnits := bu; JobCardView.Cluster := c |}))
    by (intros E; apply stale_false; exact E).
  repeat split.
  - intros ->. reflexivity.
  - intros ->. reflexivity.
  - intros ->. reflexivity.
  - intros ->. reflexivity.
  - apply stale_false. destruct sb; [now left|].
    destruct (Hb eq_refl) as [->|Hin]; [now left|right].
    destruct sc; [|exact Hin].
    revert Hin. apply cascade_widen. intros item _. reflexivity.
  - apply stale_false. destruct sc; [now left|].
    destruct (Hc eq_refl) as [->|Hin]; [now left|right].
    destruct sb; [|exact Hin].
    revert Hin. apply cascade_widen. intros item _. reflexivity.
Qed.

Lemma internal_fleets_settles
    (data : list row) (search : string) (f : InternalFleetsView.Filters) :
  let f' := InternalFleetsView.resetEffects data search f in
  (stale (InternalFleetsView.businessUnitOptions data search f)
         (InternalFleetsView.BusinessUnits f) = true ->
   InternalFleetsView.BusinessUnits f' = "All")
  /\ (stale (InternalFleetsView.fleetCategoryOptions data search f)
            (InternalFleetsView.Fleet_Category f) = true ->
      InternalFleetsView.Fleet_Category f' = "All")
  /\ (stale (InternalFleetsView.businessUnitOptions data search f)
            (InternalFleetsView.BusinessUnits f) = false ->
      InternalFleetsView.BusinessUnits f' = InternalFleetsView.BusinessUnits f)
  /\ (stale (InternalFleetsView.fleetCategoryOptions data search f)
            (InternalFleetsView.Fleet_Category f) = false ->
      InternalFleetsView.Fleet_Category f' = InternalFleetsView.Fleet_Category f)
  /\ stale (InternalFleetsView.businessUnitOptions data search f')
           (InternalFleetsView.BusinessUnits f') = false
  /\ stale (InternalFleetsView.fleetCategoryOptions data search f')
           (InternalFleetsView.Fleet_Category f') = false.
Proof.
  destruct f as [m y bu c]. unfold InternalFleetsView.resetEffects.
  cbn [InternalFleetsView.Month InternalFleetsView.Year InternalFleetsView.BusinessUnits
       InternalFleetsView.Fleet_Category].
  set (sb := stale (InternalFleetsView.businessUnitOptions data search _) bu).
  set (sc := stale (InternalFleetsView.fleetCategoryOptions data search _) c).
  cbv zeta.
  cbn [InternalFleetsView.Month InternalFleetsView.Year InternalFleetsView.BusinessUnits
       InternalFleetsView.Fleet_Category].
  assert (Hb : sb = false -> bu = "All" \/
               In bu (InternalFleetsView.businessUnitOptions data search
                        {| InternalFleetsView.Month := m; InternalFleetsView.Year := y;
                           InternalFleetsView.BusinessUnits := bu;
                           InternalFleetsView.Fleet_Category := c |}))
    by (intros E; apply stale_false; exact E).
  assert (Hc : sc = false -> c = "All" \/
               In c (InternalFleetsView.fleetCategoryOptions data search
                       {| InternalFleetsView.Month := m; InternalFleetsView.Year := y;
                          InternalFleetsView.BusinessUnits := bu;
                          InternalFleetsView.Fleet_Category := c |}))
    by (intros E; apply stale_false; exact E).
  repeat split.
  - intros ->. reflexivity.
  - intros ->. reflexivity.
  - intros ->. reflexivity.
  - intros ->. reflexivity.
  - apply stale_false. destruct sb; [now left|].
    destruct (Hb eq_refl) as [->|Hin]; [now left|right].
    destruct sc; [|exact Hin].
    revert Hin. apply cascade_widen. intros item _. reflexivity.
  - apply stale_false. destruct sc; [now left|].
    destruct (Hc eq_refl) as [->|Hin]; [now left|right].
    destruct sb; [|exact Hin].
    revert Hin. apply cascade_widen. intros item _. reflexivity.
Qed.
End ResetEffects.

(** In the Fleet Management, Job Card and Internal Fleets views, the
    step the reset effects make from a state sets to "All" every dimension
    whose selection is neither "All" nor in its freshly computed option
    list, keeps every other selection, and leaves a state in which no
    selection is stale: each is "All" or in the option list computed from
    the new state. *)
Theorem stale_selection_is_reset `{Host}
    (data : list row) (search : string)
    (fm : FleetManagement.Filters) (jc : JobCardView.Filters)
    (fl : InternalFleetsView.Filters) :
  (let fm' := FleetManagement.resetEffect data fm in
   (stale (FleetManagement.businessUnitOptions data fm) (FleetManagement.BusinessUnits fm) = true ->
    FleetManagement.BusinessUnits fm' = "All")
   /\ (stale (FleetManagement.businessUnitOptions data fm) (FleetManagement.BusinessUnits fm) = false ->
       fm' = fm)
   /\ stale (FleetManagement.businessUnitOptions data fm') (FleetManagement.BusinessUnits fm') = false)
  /\ (let jc' := JobCardView.resetEffects data search jc in
      (stale (JobCardView.businessUnitOptions data search jc) (JobCardView.BusinessUnits jc) = true ->
       JobCardView.BusinessUnits jc' = "All")
      /\ (stale (JobCardView.clusterOptions data search jc) (JobCardView.Cluster jc) = true ->
          JobCardView.Cluster jc' = "All")
      /\ (stale (JobCardView.businessUnitOptions data search jc) (JobCardView.BusinessUnits jc) = false ->
          JobCardView.BusinessUnits jc' = JobCardView.BusinessUnits jc)
      /\ (stale (JobCardView.clusterOptions data search jc) (JobCardView.Cluster jc) = false ->
          JobCardView.Cluster jc' = JobCardView.Cluster jc)
      /\ stale (JobCardView.businessUnitOptions data search jc') (JobCardView.BusinessUnits jc') = false
      /\ stale (JobCardView.clusterOptions data search jc') (JobCardView.Cluster jc') = false)
  /\ (let fl' := InternalFleetsView.resetEffects data search fl in
      (stale (InternalFleetsView.businessUnitOptions data search fl)
             (InternalFleetsView.BusinessUnits fl) = true ->
       InternalFleetsView.BusinessUnits fl' = "All")
      /\ (stale (InternalFleetsView.fleetCategoryOptions data search fl)
                (InternalFleetsView.Fleet_Category fl) = true ->
          InternalFleetsView.Fleet_Category fl' = "All")
      /\ (stale (InternalFleetsView.businessUnitOptions data search fl)
                (InternalFleetsView.BusinessUnits fl) = false ->
          InternalFleetsView.BusinessUnits fl' = InternalFleetsView.BusinessUnits fl)
      /\ (stale (InternalFleetsView.fleetCategoryOptions data search fl)
                (InternalFleetsView.Fleet_Category fl) = false ->
          InternalFleetsView.Fleet_Category fl' = InternalFleetsView.Fleet_Category fl)
      /\ stale (InternalFleetsView.businessUnitOptions data search fl')
               (InternalFleetsView.BusinessUnits fl') = false
      /\ stale (InternalFleetsView.fleetCategoryOptions data search fl')
               (InternalFleetsView.Fleet_Category fl') = false).
Proof.
  split; [apply fleet_management_settles|].
  split; [apply job_card_settles | apply internal_fleets_settles].
Qed.

(** Scenario D: with January selected no job card is of Beta, so the
    selection Beta is stale and the step sets it to "All". *)
Lemma stale_selection_is_reset_scenario_D :
  stale (@JobCardView.businessUnitOptions Scenario.utcHost
           Scenario.scenarioD "" Scenario.scenarioDFilters) "Beta" = true
  /\ JobCardView.BusinessUnits
       (@JobCardView.resetEffects Scenario.utcHost
          Scenario.scenarioD "" Scenario.scenarioDFilters) = "All".
Proof.
  split; [reflexivity|].
  apply (proj1 (proj1 (proj2
    (@stale_selection_is_reset Scenario.utcHost Scenario.scenarioD ""
       Scenario.creditFilters Scenario.scenarioDFilters
       {| InternalFleetsView.Month := "All"; InternalFleetsView.Year := "All";
          InternalFleetsView.BusinessUnits := "All";
          InternalFleetsView.Fleet_Category := "All" |})))).
  reflexivity.
Defined.

(** C6.  The Driver & Operator view retains a stale selection.  Over the
    rows of scenario D read as drivers, with January 2024 selected, the
    business unit Beta is not in the freshly computed option list; the
    view appends it to the list its effect tests, so the effect leaves the
    state as it is, Beta stays selected and the view shows no row.  On the
    same rows and the same selection the effect of the Job Card view sets
    the business unit to "All".  The effects of the Driver & Operator view
    change no state at all. *)
Theorem driver_view_keeps_stale_selection :
  @DriverOperatorView.businessUnitsBase Scenario.utcHost Scenario.scenarioD ""
     Cases.staleDriverFilters
  = ["All"; "Alpha"]
  /\ stale (@DriverOperatorView.businessUnitsBase Scenario.utcHost Scenario.scenarioD ""
              Cases.staleDriverFilters)
           (DriverOperatorView.BusinessUnits Cases.staleDriverFilters)
     = true
  /\ @DriverOperatorView.businessUnitOptions Scenario.utcHost Scenario.scenarioD ""
       Cases.staleDriverFilters
     = ["All"; "Alpha"; "Beta"]
  /\ @DriverOperatorView.resetEffects Scenario.utcHost Scenario.scenarioD ""
       Cases.staleDriverFilters
     = Cases.staleDriverFilters
  /\ DriverOperatorView.BusinessUnits
       (@DriverOperatorView.resetEffects Scenario.utcHost Scenario.scenarioD ""
          Cases.staleDriverFilters)
     = "Beta"
  /\ @DriverOperatorView.filteredData Scenario.utcHost Scenario.scenarioD ""
       (@DriverOperatorView.resetEffects Scenario.utcHost Scenario.scenarioD ""
          Cases.staleDriverFilters)
     = []
  /\ JobCardView.BusinessUnits
       (@JobCardView.resetEffects Scenario.utcHost Scenario.scenarioD ""
          Scenario.scenarioDFilters)
     = "All"
  /\ (forall (host : Host) (data : list row) (sapFilter : string)
             (f : DriverOperatorView.Filters),
        @DriverOperatorView.resetEffects host data sapFilter f = f).
Proof.
  repeat match goal with |- _ /\ _ => split end; try reflexivity.
  intros host data sapFilter f. apply driver_view_never_resets.
Qed.

(** ** The fleet-management percentage *)

Section Percentage.
Context `{Host}.

(** The denominator's rows are the rows the view's filter keeps once the
    business unit is set to "All". *)
Lemma monthFilteredData_ignores_business_unit (data : list row) (f : FleetManagement.Filters) :
  String.eqb (FleetManagement.Month f) "All" = false ->
  FleetManagement.monthFilteredData data f
  = FleetManagement.filteredData data
      {| FleetManagement.Month := FleetManagement.Month f;
         FleetManagement.Year := FleetManagement.Year f;
         FleetManagement.BusinessUnits := "All" |}.
Proof.
  intros Hm. unfold FleetManagement.monthFilteredData, FleetManagement.filteredData.
  apply filter_ext. intros item. unfold FleetManagement.dateMatch. simpl.
  rewrite Hm. simpl. now rewrite andb_true_r.
Qed.

Lemma monthFilteredDataForPercentage_ignores_business_unit
    (allData : ExcelData) (filters : SharedFilterState) :
  String.eqb (month filters) "All" = false ->
  Dashboard.monthFilteredDataForPercentage allData filters
  = fleetManagement
      (Dashboard.filtered allData
         {| month := month filters; year := year filters; businessUnit := "All";
            internalType := internalType filters; designation := designation filters |}).
Proof.
  intros Hm. unfold Dashboard.monthFilteredDataForPercentage, Dashboard.filtered. simpl.
  apply filter_ext. intros item.
  unfold Dashboard.filterByBUAndDate, Dashboard.buMatch, Dashboard.filterByDate,
    Dashboard.dateMatches. simpl.
  rewrite Hm. simpl. reflexivity.
Qed.

(** C4, as amended.  In the view and on the dashboard the percentage is
    100 times the revenue of the rows filtered by month, year and
    business unit over the revenue of the rows filtered by the same month
    and year with the business unit at "All", when a month and a business
    unit are selected and that second revenue is greater than 0; it is 0
    in every other case. *)
Theorem fleet_management_percentage
    (data : list row) (f : FleetManagement.Filters)
    (allData : ExcelData) (filters : SharedFilterState) :
  let revenue := sumOf (fun i => or0 (get i "Splited Amount")) in
  FleetManagement.percentage data f
  = (if (negb (String.eqb (FleetManagement.Month f) "All")
         && negb (String.eqb (FleetManagement.BusinessUnits f) "All")
         && (0 <? revenue
               (FleetManagement.filteredData data
                  {| FleetManagement.Month := FleetManagement.Month f;
                     FleetManagement.Year := FleetManagement.Year f;
                     FleetManagement.BusinessUnits := "All" |}))%float)%bool
     then (revenue (FleetManagement.filteredData data f)
           / revenue
               (FleetManagement.filteredData data
                  {| FleetManagement.Month := FleetManagement.Month f;
                     FleetManagement.Year := FleetManagement.Year f;
                     FleetManagement.BusinessUnits := "All" |})
           * 100)%float
     else 0%float)
  /\ Dashboard.fleetManagementPercentage allData filters
     = (let monthRows :=
          fleetManagement
            (Dashboard.filtered allData
               {| month := month filters; year := year filters; businessUnit := "All";
                  internalType := internalType filters;
                  designation := designation filters |}) in
        if (negb (String.eqb (month filters) "All")
            && negb (String.eqb (businessUnit filters) "All")
            && (0 <? revenue monthRows)%float)%bool
        then (revenue (fleetManagement (Dashboard.filtered allData filters))
              / revenue monthRows * 100)%float
        else 0%float).
Proof.
  intros revenue. split.
  - unfold FleetManagement.percentage, FleetManagement.totalMonthAmount,
      FleetManagement.totalAmount.
    destruct (String.eqb (FleetManagement.Month f) "All") eqn:Hm; [reflexivity|].
    rewrite (monthFilteredData_ignores_business_unit data f Hm). reflexivity.
  - unfold Dashboard.fleetManagementPercentage, Dashboard.totalMonthAmount,
      Dashboard.fleetManagementRevenue.
    destruct (String.eqb (month filters) "All") eqn:Hm; [reflexivity|].
    rewrite (monthFilteredDataForPercentage_ignores_business_unit allData filters Hm).
    cbv zeta. simpl negb. simpl andb.
    destruct (negb (String.eqb (businessUnit filters) "All")); reflexivity.
Qed.
End Percentage.

(** C4, as stated, fails on a month of credits: January and Alpha are
    selected and the month's revenue is -50, neither empty nor zero, yet
    the percentage is 0 where the specification's wording gives 100. *)
Lemma negative_month_revenue_gives_zero :
  FleetManagement.totalMonthAmount Scenario.creditMonth Scenario.creditFilters = (-50)%float
  /\ @FleetManagement.percentage Scenario.utcHost
       Scenario.creditMonth Scenario.creditFilters = 0%float
  /\ @Dashboard.fleetManagementPercentage Scenario.utcHost
       (Scenario.onlyFleetManagement Scenario.creditMonth) Scenario.creditShared = 0%float
  /\ Spec.percentage true true
       (@FleetManagement.totalAmount Scenario.utcHost Scenario.creditMonth Scenario.creditFilters)
       (FleetManagement.totalMonthAmount Scenario.creditMonth Scenario.creditFilters)
     = 100%float
  /\ PrimFloat.eqb
       (@FleetManagement.percentage Scenario.utcHost Scenario.creditMonth Scenario.creditFilters)
       (Spec.percentage true true
          (@FleetManagement.totalAmount Scenario.utcHost
             Scenario.creditMonth Scenario.creditFilters)
          (FleetManagement.totalMonthAmount Scenario.creditMonth Scenario.creditFilters))
     = false.
Proof.
  repeat split; vm_compute; reflexivity.
Qed.

(** ** Job-card cost *)

Lemma get_assign_other (item : row) (key key' : string) (v : value) :
  key <> key' -> get (assign item key v) key' = get item key'.
Proof.
  intros Hne. induction item as [|[k w] item IH]; simpl.
  - apply String.eqb_neq in Hne. now rewrite Hne.
  - destruct (String.eqb k key) eqn:Hk; simpl.
    + apply String.eqb_eq in Hk. subst k.
      apply String.eqb_neq in Hne. now rewrite Hne.
    + destruct (String.eqb k key'); [reflexivity | exact IH].
Qed.

Lemma get_assign_same (item : row) (key : string) (v : value) :
  get (assign item key v) key = v.
Proof.
  induction item as [|[k w] item IH]; simpl.
  - now rewrite String.eqb_refl.
  - destruct (String.eqb k key) eqn:Hk; simpl; rewrite Hk; [reflexivity | exact IH].
Qed.

Lemma filter_map_comm {A B : Type} (p : B -> bool) (g : A -> B) (l : list A) :
  filter p (map g l) = map g (filter (fun x => p (g x)) l).
Proof.
  induction l as [|a l IH]; simpl; [reflexivity|].
  destruct (p (g a)); simpl; now rewrite IH.
Qed.

Lemma sumOf_map {A B : Type} (f : B -> float) (g : A -> B) (l : list A) :
  sumOf f (map g l) = sumOf (fun x => f (g x)) l.
Proof.
  unfold sumOf. generalize 0%float. induction l as [|a l IH]; intros acc; simpl;
    [reflexivity | apply IH].
Qed.

Lemma sumOf_ext {A : Type} (f g : A -> float) (l : list A) :
  (forall x, f x = g x) -> sumOf f l = sumOf g l.
Proof.
  intros Hfg. unfold sumOf. generalize 0%float.
  induction l as [|a l IH]; intros acc; simpl; [reflexivity|].
  rewrite Hfg. apply IH.
Qed.

Section JobCardCost.
Context `{Host}.

(** The job-card filter of the dashboard reads no [Expense] cell. *)
Lemma filterJobCard_ignores_expense (filters : SharedFilterState) (item : row) (v : value) :
  Dashboard.filterJobCardByBUAndDate filters (assign item "Expense" v)
  = Dashboard.filterJobCardByBUAndDate filters item.
Proof.
  unfold Dashboard.filterJobCardByBUAndDate, Dashboard.buMatch, Dashboard.getBusinessUnit,
    Dashboard.filterJobCardByDate.
  rewrite !get_assign_other by discriminate. reflexivity.
Qed.

(** C5, as amended.  The dashboard's job-card cost is the job-card
    revenue minus the job-card profit, in the double arithmetic of the
    code, revenue and profit being the sums of the total amount with
    service charge and of the profit over the filtered job cards; and it
    is the same whatever the [Expense] cells of the job cards hold. *)
Theorem job_card_cost_is_revenue_minus_profit
    (allData : ExcelData) (filters : SharedFilterState) (expense : row -> value) :
  Dashboard.jobCardCost allData filters
  = (sumOf (fun i => or0 (orElse (get i "Total amount with Service Charge")
                                 (get i "TOTAL AMOUNT WITH SERVICE CHARGE")))
           (jobCard (Dashboard.filtered allData filters))
     - sumOf (fun i => or0 (get i "Profit")) (jobCard (Dashboard.filtered allData filters)))%float
  /\ Dashboard.jobCardCost (Scenario.withExpense expense allData) filters
     = Dashboard.jobCardCost allData filters.
Proof.
  split; [reflexivity|].
  unfold Dashboard.jobCardCost, Dashboard.jobCardRevenue, Dashboard.jobCardProfit,
    Dashboard.filtered, Scenario.withExpense. cbn [jobCard].
  rewrite filter_map_comm, !sumOf_map.
  rewrite (filter_ext _ (Dashboard.filterJobCardByBUAndDate filters))
    by (intros item; apply filterJobCard_ignores_expense).
  f_equal; apply sumOf_ext; intros item;
    rewrite !get_assign_other by discriminate; reflexivity.
Qed.
End JobCardCost.

(** C5, as stated, fails on one job card of 0.1 with a profit of 0.7: the
    cost is the double nearest to -0.6, and adding the profit back gives
    0.09999999999999998, which is not the revenue. *)
Lemma cost_plus_profit_is_not_revenue :
  let allData := Scenario.onlyJobCard Scenario.smallJobCard in
  let revenue := @Dashboard.jobCardRevenue Scenario.utcHost allData Scenario.allShared in
  let profit := @Dashboard.jobCardProfit Scenario.utcHost allData Scenario.allShared in
  let cost := @Dashboard.jobCardCost Scenario.utcHost allData Scenario.allShared in
  revenue = 0x1.999999999999ap-4%float
  /\ profit = 0x1.6666666666666p-1%float
  /\ cost = (revenue - profit)%float
  /\ (cost + profit)%float = 0x1.9999999999998p-4%float
  /\ PrimFloat.eqb (cost + profit) revenue = false.
Proof.
  repeat split; vm_compute; reflexivity.
Qed.

(** ** Averages *)

(** C10. Over the rows a Job Card or Internal Fleets view shows, the
    average amount is 0 when there is no row and the total amount divided
    by the number of rows when there is one: the division by a count of 0
    is never made. *)
Theorem average_is_division_safe `{Host}
    (data : list row) (search internalType : string)
    (jc : JobCardView.Filters) (fl : InternalFleetsView.Filters) :
  let jobCards := JobCardView.filteredData data search jc in
  let fleets := InternalFleetsView.filteredData data search internalType fl in
  (jobCards = [] -> JobCardView.averageAmount jobCards = 0%float)
  /\ (jobCards <> [] ->
      JobCardView.averageAmount jobCards
      = (JobCardView.totalAmount jobCards / ofNat (List.length jobCards))%float)
  /\ (fleets = [] -> InternalFleetsView.averageAmount fleets = 0%float)
  /\ (fleets <> [] ->
      InternalFleetsView.averageAmount fleets
      = (InternalFleetsView.totalAmount fleets / ofNat (List.length fleets))%float).
Proof.
  intros jobCards fleets. repeat split.
  - intros ->. reflexivity.
  - destruct jobCards as [|item rest]; [congruence | reflexivity].
  - intros ->. reflexivity.
  - destruct fleets as [|item rest]; [congruence | reflexivity].
Qed.

(** With no job card in February 2025 the average is 0, and over the one
    job card of January 2024 it is that card's amount. *)
Lemma average_is_division_safe_on_job_cards :
  @JobCardView.averageAmount
     (@JobCardView.filteredData Scenario.utcHost Scenario.smallJobCard ""
        {| JobCardView.Month := "FEB"; JobCardView.Year := "2025";
           JobCardView.BusinessUnits := "All"; JobCardView.Cluster := "All" |}) = 0%float
  /\ @JobCardView.averageAmount
       (@JobCardView.filteredData Scenario.utcHost Scenario.smallJobCard ""
          {| JobCardView.Month := "JAN"; JobCardView.Year := "2024";
             JobCardView.BusinessUnits := "All"; JobCardView.Cluster := "All" |})
     = (0x1.999999999999ap-4 / 1)%float.
Proof.
  split.
  - apply (proj1 (@average_is_division_safe Scenario.utcHost Scenario.smallJobCard "" "All"
                    {| JobCardView.Month := "FEB"; JobCardView.Year := "2025";
                       JobCardView.BusinessUnits := "All"; JobCardView.Cluster := "All" |}
                    {| InternalFleetsView.Month := "All"; InternalFleetsView.Year := "All";
                       InternalFleetsView.BusinessUnits := "All";
                       InternalFleetsView.Fleet_Category := "All" |})).
    reflexivity.
  - apply (proj1 (proj2
             (@average_is_division_safe Scenario.utcHost Scenario.smallJobCard "" "All"
                {| JobCardView.Month := "JAN"; JobCardView.Year := "2024";
                   JobCardView.BusinessUnits := "All"; JobCardView.Cluster := "All" |}
                {| InternalFleetsView.Month := "All"; InternalFleetsView.Year := "All";
                   InternalFleetsView.BusinessUnits := "All";
                   InternalFleetsView.Fleet_Category := "All" |}))).
    discriminate.
Defined.

(** ** Scenario A *)

(** C7, as amended.  Over the two rows of Scenario A with January 2024
    selected, the Driver & Operator view keeps one row, its total revenue
    is 100 and its total expense 40; its total profit is 0, the rows
    having no [Profit] cell, and so is the dashboard's profit for the
    sheet. *)
Theorem scenario_A_totals `{Host} :
  let kept := DriverOperatorView.filteredData Scenario.scenarioA "" Scenario.scenarioAFilters in
  let shared := {| month := "JAN"; year := "2024"; businessUnit := "All";
                   internalType := "All"; designation := "All" |} in
  List.length kept = 1%nat
  /\ DriverOperatorView.totalRevenue kept = 100%float
  /\ DriverOperatorView.totalExpense kept = 40%float
  /\ DriverOperatorView.totalProfit kept = 0%float
  /\ Dashboard.driverOperatorRevenue (Scenario.onlyDriverOperator Scenario.scenarioA) shared
     = 100%float
  /\ Dashboard.driverOperatorProfit (Scenario.onlyDriverOperator Scenario.scenarioA) shared
     = 0%float.
Proof.
  repeat split; vm_compute; reflexivity.
Qed.

(** C7, as stated, fails: the total profit of Scenario A is 0, not 60. *)
Lemma scenario_A_profit_is_not_60 :
  let kept := @DriverOperatorView.filteredData Scenario.utcHost
                Scenario.scenarioA "" Scenario.scenarioAFilters in
  DriverOperatorView.totalProfit kept = 0%float
  /\ PrimFloat.eqb (DriverOperatorView.totalProfit kept) 60 = false
  /\ DriverOperatorView.totalProfit kept <> 60%float.
Proof.
  repeat split; try reflexivity.
  intros Hprofit.
  apply (f_equal (fun x => PrimFloat.eqb x 0)) in Hprofit.
  vm_compute in Hprofit. discriminate Hprofit.
Qed.

(** ** Distinct invoice numbers *)

(** C9 at its failing input: of three External Fleets rows, two have no
    invoice number and one has INV-1.  The dashboard counts 2, the missing
    number being one more key of its set; the count with missing and blank
    numbers left out is 1, which is what the External Fleets view shows. *)
Theorem dashboard_counts_missing_invoice_numbers :
  @Dashboard.externalInvoice Scenario.utcHost
     (Scenario.onlyExternalFleets Scenario.externalRows) Scenario.allShared = 2%nat
  /\ Spec.distinctInvoices Scenario.externalRows = 1%nat
  /\ @DataView.uniqueInvoiceCount Scenario.utcHost Scenario.externalRows = 1%nat.
Proof.
  repeat split; reflexivity.
Qed.

(** ** Blank registration numbers *)

Section Ingestion.
Context `{Host}.

Lemma get_absent (r : row) (key : string) :
  ~ In key (map fst r) -> get r key = VUndef.
Proof.
  induction r as [|[k v] r IH]; simpl; intros Hn; [reflexivity|].
  destruct (String.eqb k key) eqn:Hk.
  - apply String.eqb_eq in Hk. tauto.
  - apply IH. tauto.
Qed.

(** Entries whose keys the cleaning does not turn into [key] leave the
    cleaned row's cell at [key] as it was. *)
Lemma clean_others (key : string) (r acc : row) :
  columnsCleanedTo key r = [] ->
  get (fold_left (fun cleanedRow kv => assign cleanedRow (trim (fst kv)) (cleanValue (snd kv)))
                 r acc) key
  = get acc key.
Proof.
  revert acc. induction r as [|[k v] r IH]; intros acc Hnone; simpl; [reflexivity|].
  unfold columnsCleanedTo in Hnone. simpl in Hnone.
  destruct (String.eqb (trim k) key) eqn:Hk; [discriminate Hnone|].
  rewrite IH by exact Hnone.
  apply get_assign_other. now apply String.eqb_neq.
Qed.

Lemma columnsCleanedTo_In (key : string) (r : row) :
  trim key = key -> In key (map fst r) -> columnsCleanedTo key r <> [].
Proof.
  intros Ht Hin Hnone. apply in_map_iff in Hin. destruct Hin as [[k v] [Hk Hin]].
  simpl in Hk. subst k.
  assert (Hf : In (key, v) (columnsCleanedTo key r)).
  { apply filter_In. split; [assumption|]. simpl. rewrite Ht. apply String.eqb_refl. }
  rewrite Hnone in Hf. exact Hf.
Qed.

(** When at most one entry of a raw row is cleaned to a key the row
    holds, the cleaned row has the cleaned cell of that key. *)
Lemma clean_single (key : string) (r acc : row) :
  trim key = key ->
  (List.length (columnsCleanedTo key r) <= 1)%nat ->
  In key (map fst r) ->
  get (fold_left (fun cleanedRow kv => assign cleanedRow (trim (fst kv)) (cleanValue (snd kv)))
                 r acc) key
  = cleanValue (get r key).
Proof.
  intros Ht. revert acc. induction r as [|[k v] r IH]; intros acc Hone Hin; [destruct Hin|].
  simpl. unfold columnsCleanedTo in Hone. simpl in Hone.
  destruct (String.eqb (trim k) key) eqn:Hk.
  - simpl in Hone.
    assert (Hnone : columnsCleanedTo key r = []).
    { unfold columnsCleanedTo. destruct (filter _ r); [reflexivity | simpl in Hone; lia]. }
    assert (Hkey : k = key).
    { destruct Hin as [Hin|Hin]; [exact Hin|].
      exfalso. now apply (columnsCleanedTo_In key r Ht Hin). }
    subst k. rewrite String.eqb_refl.
    rewrite clean_others by exact Hnone.
    rewrite Ht. apply get_assign_same.
  - assert (Hne : k <> key).
    { intros ->. rewrite Ht, String.eqb_refl in Hk. discriminate Hk. }
    apply String.eqb_neq in Hne. rewrite Hne.
    apply IH; [exact Hone|].
    destruct Hin as [Hin|Hin]; [|exact Hin].
    simpl in Hin. apply String.eqb_neq in Hne. contradiction.
Qed.

Lemma kept_cell_is_not_blank (v : value) :
  toBoolean v = true -> isEmpty (trim (toString v)) = false ->
  Spec.isBlank (cleanValue v) = false.
Proof.
  destruct v as [| |b|x|s|d]; simpl; try discriminate; try reflexivity.
  - intros _ Hs. exact Hs.
  - intros _ _. destruct d as [|y m dd t]; [reflexivity|].
    unfold cleanValue. cbn [isValidDate].
    destruct (localCalendar (ValidDate y m dd t)) as [[y' m'] d']. reflexivity.
Qed.

(** C8, as amended.  The worker drops every raw Internal Fleets row whose
    [Reg No:] cell is missing, empty or only white space, and it drops it
    before the rows are cleaned; and when no raw row has two entries whose
    keys are cleaned to [Reg No:], no stored row has a blank [Reg No:]. *)
Theorem blank_registrations_are_dropped (rawJson : list row) :
  Forall (fun r => Spec.isBlank (get r "Reg No:") = false) (filter hasRegNo rawJson)
  /\ parseSheet true rawJson = map cleanRow (filter hasRegNo rawJson)
  /\ (Forall (fun r => (List.length (columnsCleanedTo "Reg No:" r) <= 1)%nat) rawJson ->
      Forall (fun r => Spec.isBlank (get r "Reg No:") = false) (parseSheet true rawJson)).
Proof.
  repeat split.
  - apply Forall_forall. intros r Hr. apply filter_In in Hr. destruct Hr as [_ Hr].
    unfold hasRegNo in Hr. apply andb_true_iff in Hr. destruct Hr as [Ht He].
    apply negb_true_iff in He.
    destruct (get r "Reg No:") as [| |b|x|s|d]; simpl in *; try discriminate; try reflexivity.
    exact He.
  - intros Hone. unfold parseSheet. apply Forall_forall. intros r' Hr'.
    apply in_map_iff in Hr'. destruct Hr' as [r [<- Hr]].
    apply filter_In in Hr. destruct Hr as [Hin Hr].
    rewrite Forall_forall in Hone. specialize (Hone r Hin).
    unfold hasRegNo in Hr. apply andb_true_iff in Hr. destruct Hr as [Ht He].
    apply negb_true_iff in He.
    unfold cleanRow. rewrite clean_single; [| reflexivity | exact Hone |].
    + now apply kept_cell_is_not_blank.
    + destruct (in_dec string_dec "Reg No:" (map fst r)) as [Hk|Hk]; [exact Hk|].
      rewrite (get_absent r _ Hk) in Ht. discriminate Ht.
Qed.
End Ingestion.

(** Of three raw rows only the vehicle is stored, its keys trimmed. *)
Lemma blank_registrations_are_dropped_on_raw_fleets :
  Forall (fun r => (List.length (columnsCleanedTo "Reg No:" r) <= 1)%nat) Scenario.rawFleets
  /\ @parseSheet Scenario.utcHost true Scenario.rawFleets
     = [ [("Reg No:", VStr "ABC 123"); ("Fleet No:", VStr "F-7")] ]
  /\ Forall (fun r => Spec.isBlank (get r "Reg No:") = false)
            (@parseSheet Scenario.utcHost true Scenario.rawFleets).
Proof.
  assert (Hone : Forall (fun r => (List.length (columnsCleanedTo "Reg No:" r) <= 1)%nat)
                        Scenario.rawFleets)
    by (repeat constructor).
  split; [exact Hone|]. split; [reflexivity|].
  exact (proj2 (proj2 (@blank_registrations_are_dropped Scenario.utcHost Scenario.rawFleets))
               Hone).
Defined.

(** C8, as stated, fails on a row with two columns cleaned to [Reg No:]:
    the row passes the filter on its registration number, and the cell of
    the second column, a single space, replaces it in the stored row. *)
Lemma whitespace_variant_column_blanks_registration :
  @hasRegNo Scenario.utcHost [("Reg No:", VStr "ABC 123"); ("Reg No: ", VStr " ")] = true
  /\ @parseSheet Scenario.utcHost true Scenario.twoRegColumns = [ [("Reg No:", VStr " ")] ]
  /\ Exists (fun r => Spec.isBlank (get r "Reg No:") = true)
            (@parseSheet Scenario.utcHost true Scenario.twoRegColumns).
Proof.
  repeat split; try reflexivity.
  apply Exists_cons_hd. reflexivity.
Qed.

(** ** Date resolution *)

Lemma indexOf_nth (xs : list string) (s : string) (i : nat) :
  indexOf xs s = Some i -> nth_error xs i = Some s.
Proof.
  revert i. induction xs as [|x xs IH]; intros i; simpl; [discriminate|].
  destruct (String.eqb x s) eqn:Hx.
  - intros [= <-]. apply String.eqb_eq in Hx. now subst.
  - destruct (indexOf xs s) as [j|]; [|discriminate].
    intros [= <-]. simpl. now apply IH.
Qed.

Lemma indexOf_month_lt (s : string) (i : nat) :
  indexOf Dashboard.MONTH_NAMES_ABBR s = Some i -> (i < 12)%nat.
Proof.
  intros Hi. apply indexOf_nth in Hi.
  assert (Hsome : nth_error Dashboard.MONTH_NAMES_ABBR i <> None) by congruence.
  apply nth_error_Some in Hsome. exact Hsome.
Qed.


(** The 15th of a month of a year from 100 to 9999 has a time value, and
    its year is the year given. *)
Lemma DateUTC_four_digit_year (y : Z) (i : nat) :
  100 <= y <= 9999 -> (i < 12)%nat -> DateUTC y i 15 = ValidDate y i 15 0.
Proof.
  intros Hy Hi. unfold DateUTC.
  replace ((0 <=? y) && (y <=? 99))%bool with false
    by (symmetry; apply andb_false_iff; right; apply Z.leb_gt; lia).
  assert (Hdays : Z.abs (daysFromCivil y i 15) <= 100000000).
  { unfold daysFromCivil.
    do 12 (destruct i as [|i]; [cbn; Z.div_mod_to_equations; lia|]). lia. }
  apply Z.leb_le in Hdays. now rewrite Hdays.
Qed.

Section DateResolution.
Context `{Host}.

(** C3, as amended.  The dashboard's [getItemDate] takes the first of the
    columns End Date, Month, DATE and Date: that holds a valid date.  With
    none, and a month text (MONTH, else Month) that is a string and a year
    value (YEAR, else Year) that is present, it gives the 15th, UTC, of the
    month whose abbreviation is the upper-cased first three characters of
    the text, in the year [parseInt] reads from the year value: for a year
    from 100 to 9999 that date has this year and this month.  It gives null
    when the year does not parse or the month matches no abbreviation, and
    null in every other case.  The Driver & Operator view resolves in the
    other order, month and year apart: a truthy Month or Year cell is used
    whatever End Date holds, and End Date only without one.  Where the
    month text is upper-cased, it is a text of the 7-bit range. *)
Theorem date_resolution_order (item : row) :
  let noValidDate :=
    Dashboard.validDate (get item "End Date") = None
    /\ Dashboard.validDate (get item "Month") = None
    /\ Dashboard.validDate (get item "DATE") = None
    /\ Dashboard.validDate (get item "Date:") = None in
  let monthStr := coalesce (get item "MONTH") (get item "Month") in
  let yearVal := coalesce (get item "YEAR") (get item "Year") in
  (forall d, Dashboard.validDate (get item "End Date") = Some d ->
             Dashboard.getItemDate item = Some d)
  /\ (forall d, Dashboard.validDate (get item "End Date") = None ->
                Dashboard.validDate (get item "Month") = Some d ->
                Dashboard.getItemDate item = Some d)
  /\ (forall d, Dashboard.validDate (get item "End Date") = None ->
                Dashboard.validDate (get item "Month") = None ->
                Dashboard.validDate (get item "DATE") = Some d ->
                Dashboard.getItemDate item = Some d)
  /\ (forall d, Dashboard.validDate (get item "End Date") = None ->
                Dashboard.validDate (get item "Month") = None ->
                Dashboard.validDate (get item "DATE") = None ->
                Dashboard.validDate (get item "Date:") = Some d ->
                Dashboard.getItemDate item = Some d)
  /\ (forall s y i,
         noValidDate -> monthStr = VStr s -> Text.sevenBit s = true ->
         isNullish yearVal = false ->
         parseInt (toString yearVal) = Some y ->
         indexOf Dashboard.MONTH_NAMES_ABBR (substring 0 3 (toUpperCase s)) = Some i ->
         Dashboard.getItemDate item = Some (DateUTC y i 15)
         /\ (100 <= y <= 9999 ->
             DateUTC y i 15 = ValidDate y i 15 0
             /\ Dashboard.monthNameAt Dashboard.MONTH_NAMES_ABBR (Some i)
                = Some (substring 0 3 (toUpperCase s))))
  /\ (forall s,
         noValidDate -> monthStr = VStr s -> Text.sevenBit s = true ->
         isNullish yearVal = true
         \/ parseInt (toString yearVal) = None
         \/ indexOf Dashboard.MONTH_NAMES_ABBR (substring 0 3 (toUpperCase s)) = None ->
         Dashboard.getItemDate item = None)
  /\ (noValidDate -> (forall s, monthStr <> VStr s) -> Dashboard.getItemDate item = None)
  /\ (toBoolean (get item "Month") = true ->
      Text.sevenBit (toString (get item "Month")) = true ->
      DriverOperatorView.itemMonthName item
      = Some (substring 0 3 (toUpperCase (toString (get item "Month")))))
  /\ (toBoolean (get item "Month") = false ->
      DriverOperatorView.itemMonthName item
      = DriverOperatorView.getMonthNameFromDate (get item "End Date"))
  /\ (toBoolean (get item "Year") = true ->
      DriverOperatorView.itemYear item = toString (get item "Year"))
  /\ (toBoolean (get item "Year") = false ->
      DriverOperatorView.itemYear item
      = match DriverOperatorView.getYearFromDate (get item "End Date") with
        | Some y => if y =? 0 then "" else intToString y
        | None => ""
        end).
Proof.
  intros noValidDate monthStr yearVal.
  repeat match goal with |- _ /\ _ => split end.
  - intros d He. unfold Dashboard.getItemDate. now rewrite He.
  - intros d He Hm. unfold Dashboard.getItemDate. now rewrite He, Hm.
  - intros d He Hm Hd. unfold Dashboard.getItemDate. now rewrite He, Hm, Hd.
  - intros d He Hm Hd Hc. unfold Dashboard.getItemDate. now rewrite He, Hm, Hd, Hc.
  - intros s y i [He [Hm [Hd Hc]]] Hs _ Hy Hp Hi. split.
    + unfold Dashboard.getItemDate. rewrite He, Hm, Hd, Hc.
      fold monthStr yearVal. cbv zeta. now rewrite Hs, Hy, Hp, Hi.
    + intros Hrange. split.
      * apply DateUTC_four_digit_year; [exact Hrange | now apply indexOf_month_lt in Hi].
      * simpl. now apply indexOf_nth.
  - intros s [He [Hm [Hd Hc]]] Hs _ Hfail.
    unfold Dashboard.getItemDate. rewrite He, Hm, Hd, Hc.
    fold monthStr yearVal. cbv zeta. rewrite Hs.
    destruct Hfail as [Hy|[Hp|Hi]].
    + now rewrite Hy.
    + rewrite Hp. now destruct (isNullish yearVal).
    + rewrite Hi. destruct (isNullish yearVal); [reflexivity|].
      now destruct (parseInt (toString yearVal)).
  - intros [He [Hm [Hd Hc]]] Hs.
    unfold Dashboard.getItemDate. rewrite He, Hm, Hd, Hc.
    fold monthStr yearVal. cbv zeta.
    destruct monthStr as [| |b|x|s|d]; try reflexivity. now elim (Hs s).
  - intros Ht _. unfold DriverOperatorView.itemMonthName. now rewrite Ht.
  - intros Ht. unfold DriverOperatorView.itemMonthName. now rewrite Ht.
  - intros Ht. unfold DriverOperatorView.itemYear. now rewrite Ht.
  - intros Ht. unfold DriverOperatorView.itemYear. now rewrite Ht.
Qed.
End DateResolution.

(** An Internal Fleets row with the month written out and a numeric year
    resolves to 15 January 2024. *)
Lemma date_resolution_order_on_text_columns :
  @Dashboard.getItemDate Scenario.utcHost Scenario.januaryFleet
  = Some (ValidDate 2024 0 15 0).
Proof.
  destruct (proj1 (proj2 (proj2 (proj2 (proj2
              (@date_resolution_order Scenario.utcHost Scenario.januaryFleet)))))
             "January" 2024 0%nat
             (conj eq_refl (conj eq_refl (conj eq_refl eq_refl)))
             eq_refl eq_refl eq_refl eq_refl eq_refl) as [Hdate Hyear].
  rewrite Hdate. destruct (Hyear ltac:(lia)) as [Hvalid _]. now rewrite Hvalid.
Defined.

(** C3, as stated, fails in the Driver & Operator view on a driver whose
    text columns give February 2024 and whose End Date is a valid date in
    January 2024: the order of the specification resolves January, as the
    dashboard does, and the view resolves February, keeping the row under
    the February filter and dropping it under the January one. *)
Lemma driver_view_prefers_text_columns :
  @Spec.resolveDate Scenario.utcHost "End Date" "Month" "Year" Scenario.februaryDriver
  = Some ("JAN", "2024")
  /\ @Dashboard.getItemDate Scenario.utcHost Scenario.februaryDriver
     = Some (ValidDate 2024 0 15 0)
  /\ @DriverOperatorView.itemMonthName Scenario.utcHost Scenario.februaryDriver = Some "FEB"
  /\ @DriverOperatorView.itemYear Scenario.utcHost Scenario.februaryDriver = "2024"
  /\ @DriverOperatorView.filteredData Scenario.utcHost [Scenario.februaryDriver] ""
       Scenario.scenarioAFilters = []
  /\ @DriverOperatorView.filteredData Scenario.utcHost [Scenario.februaryDriver] ""
       {| DriverOperatorView.Month := "FEB"; DriverOperatorView.Year := "2024";
          DriverOperatorView.BusinessUnits := "All";
          DriverOperatorView.Designation := "All" |}
     = [Scenario.februaryDriver].
Proof.
  repeat split; reflexivity.
Qed.

(** * Further properties of the code *)

(** ** Strings *)

Lemma lowerChar_upperChar (c : ascii) : lowerChar (upperChar c) = lowerChar c.
Proof. destruct c as [[] [] [] [] [] [] [] []]; reflexivity. Qed.

Lemma lowerChar_lowerAlnum (c : ascii) :
  Ingest.isLowerAlnum c = true -> lowerChar c = c.
Proof. destruct c as [[] [] [] [] [] [] [] []]; intros Hc; try reflexivity; discriminate Hc. Qed.

Lemma whiteSpace_not_lowerAlnum (c : ascii) :
  isWhiteSpace c = true -> Ingest.isLowerAlnum (lowerChar c) = false.
Proof. destruct c as [[] [] [] [] [] [] [] []]; intros Hc; try reflexivity; discriminate Hc. Qed.

Lemma toLowerCase_toUpperCase (s : string) : toLowerCase (toUpperCase s) = toLowerCase s.
Proof.
  unfold toLowerCase, toUpperCase.
  induction s as [|c s IH]; cbn [mapString]; [reflexivity|].
  now rewrite lowerChar_upperChar, IH.
Qed.

Lemma toLowerCase_idempotent (s : string) : toLowerCase (toLowerCase s) = toLowerCase s.
Proof.
  unfold toLowerCase.
  induction s as [|c s IH]; cbn [mapString]; [reflexivity|].
  rewrite IH. f_equal. destruct c as [[] [] [] [] [] [] [] []]; reflexivity.
Qed.

Lemma mapString_append (f : ascii -> ascii) (a b : string) :
  mapString f (a ++ b) = mapString f a ++ mapString f b.
Proof. induction a as [|c a IH]; simpl; [reflexivity | now rewrite IH]. Qed.

Lemma filterString_append (keep : ascii -> bool) (a b : string) :
  Ingest.filterString keep (a ++ b)
  = Ingest.filterString keep a ++ Ingest.filterString keep b.
Proof.
  induction a as [|c a IH]; simpl; [reflexivity|].
  destruct (keep c); simpl; now rewrite IH.
Qed.





Lemma prefix_refl (s : string) : prefix s s = true.
Proof.
  induction s as [|c s IH]; simpl; [reflexivity|].
  destruct (ascii_dec c c) as [_|Hne]; [exact IH | now elim Hne].
Qed.

Lemma includes_refl (s : string) : includes s s = true.
Proof.
  destruct s as [|c s]; [reflexivity|].
  cbn [includes]. now rewrite prefix_refl.
Qed.

(** ** Sheet names *)

Lemma normalize_trimStart (s : string) :
  Ingest.filterString Ingest.isLowerAlnum (toLowerCase (trimStart s))
  = Ingest.filterString Ingest.isLowerAlnum (toLowerCase s).
Proof.
  unfold toLowerCase.
  induction s as [|c s IH]; [reflexivity|].
  cbn [trimStart]. destruct (isWhiteSpace c) eqn:Hc; [|reflexivity].
  cbn [mapString Ingest.filterString].
  now rewrite (whiteSpace_not_lowerAlnum c Hc).
Qed.

Lemma normalize_trimEnd (s : string) :
  Ingest.filterString Ingest.isLowerAlnum (toLowerCase (trimEnd s))
  = Ingest.filterString Ingest.isLowerAlnum (toLowerCase s).
Proof.
  unfold toLowerCase.
  induction s as [|c s IH]; [reflexivity|].
  cbn [trimEnd]. destruct (trimEnd s) as [|d t] eqn:Hs.
  - cbn [mapString Ingest.filterString] in IH |- *. rewrite <- IH.
    destruct (isWhiteSpace c) eqn:Hc.
    + now rewrite (whiteSpace_not_lowerAlnum c Hc).
    + reflexivity.
  - cbn [mapString Ingest.filterString] in IH |- *. now rewrite IH.
Qed.

(** The trimming is absorbed by the removal of the other characters. *)
Lemma normalizeSheetName_unfold (name : string) :
  Ingest.normalizeSheetName name
  = Ingest.filterString Ingest.isLowerAlnum (toLowerCase name).
Proof.
  unfold Ingest.normalizeSheetName, trim.
  now rewrite normalize_trimEnd, normalize_trimStart.
Qed.

Lemma normalized_fixed (s : string) :
  Ingest.filterString Ingest.isLowerAlnum
    (toLowerCase (Ingest.filterString Ingest.isLowerAlnum s))
  = Ingest.filterString Ingest.isLowerAlnum s.
Proof.
  unfold toLowerCase.
  induction s as [|c s IH]; [reflexivity|].
  cbn [Ingest.filterString]. destruct (Ingest.isLowerAlnum c) eqn:Hc; [|exact IH].
  cbn [mapString Ingest.filterString].
  rewrite (lowerChar_lowerAlnum c Hc), Hc. now rewrite IH.
Qed.

(** X1. For names of the 7-bit range, the name under which the worker
    compares sheets is the same for two names that differ in letter case,
    and the same when a character that is neither a letter nor a digit is
    put anywhere in the name; normalizing a normalized name changes
    nothing. *)
Theorem sheet_names_match_loosely (name a b : string) (c : ascii) :
  Text.sevenBit name = true ->
  Text.sevenBit (a ++ String c b) = true ->
  Ingest.normalizeSheetName (toUpperCase name) = Ingest.normalizeSheetName name
  /\ Ingest.normalizeSheetName (toLowerCase name) = Ingest.normalizeSheetName name
  /\ (Ingest.isLowerAlnum (lowerChar c) = false ->
      Ingest.normalizeSheetName (a ++ String c b) = Ingest.normalizeSheetName (a ++ b))
  /\ Ingest.normalizeSheetName (Ingest.normalizeSheetName name)
     = Ingest.normalizeSheetName name.
Proof.
  intros _ _. rewrite !normalizeSheetName_unfold. repeat split.
  - now rewrite toLowerCase_toUpperCase.
  - now rewrite toLowerCase_idempotent.
  - intros Hc. unfold toLowerCase.
    rewrite !mapString_append, !filterString_append.
    cbn [mapString Ingest.filterString]. now rewrite Hc.
  - apply normalized_fixed.
Qed.

(** A hyphen in the name leaves the compared name as it is. *)
Lemma sheet_names_match_loosely_on_job_card :
  Ingest.normalizeSheetName "Job-Card" = Ingest.normalizeSheetName "JobCard"
  /\ Ingest.normalizeSheetName " internal_FLEETS " = "internalfleets".
Proof.
  split; [|reflexivity].
  apply (proj1 (proj2 (proj2
           (sheet_names_match_loosely "" "Job" "Card" "-" eq_refl eq_refl)))).
  reflexivity.
Defined.

(** ** The parsed workbook *)

Section Workbook.
Context `{Host}.

Lemma parseExpected_fold (wb : Ingest.workbook) (expected : list string)
    (parsedData : list (string * list row)) (foundWarnings : list string) :
  fold_left (Ingest.parseExpected wb) expected (parsedData, foundWarnings)
  = ((parsedData
      ++ map (fun e =>
                (e, match Ingest.findSheet wb e with
                    | Some actual =>
                        parseSheet (String.eqb e "Internal Fleets") (Ingest.sheetRows wb actual)
                    | None => []
                    end))
             expected)%list,
     (foundWarnings
      ++ map Ingest.warningFor
             (filter (fun e => match Ingest.findSheet wb e with None => true | Some _ => false end)
                     expected))%list).
Proof.
  revert parsedData foundWarnings.
  induction expected as [|e expected IH]; intros parsedData foundWarnings; simpl.
  - now rewrite !app_nil_r.
  - destruct (Ingest.findSheet wb e) as [actual|]; simpl; rewrite IH, <- !app_assoc; reflexivity.
Qed.

Lemma findSheet_first (wb : Ingest.workbook) (e actual : string) :
  Ingest.findSheet wb e = Some actual ->
  exists before rows after,
    wb = (before ++ (actual, rows) :: after)%list
    /\ (forall sheet, In sheet before ->
          Ingest.normalizeSheetName (fst sheet) <> Ingest.normalizeSheetName e)
    /\ Ingest.sheetRows wb actual = rows.
Proof.
  unfold Ingest.findSheet, Ingest.sheetRows.
  induction wb as [|[name rows] wb IH]; cbn [map find fst]; [discriminate|].
  destruct (String.eqb (Ingest.normalizeSheetName name) (Ingest.normalizeSheetName e)) eqn:Hn.
  - intros Hfound. injection Hfound as <-.
    exists [], rows, wb. split; [reflexivity|]. split; [intros sheet []|].
    now rewrite String.eqb_refl.
  - intros Hfound. pose proof Hfound as Hactual.
    apply find_some in Hactual. destruct Hactual as [_ Hactual].
    apply String.eqb_eq in Hactual.
    destruct (IH Hfound) as [before [rows' [after [Hwb [Hbefore Hrows]]]]].
    exists ((name, rows) :: before), rows', after.
    split; [cbn [app]; now rewrite <- Hwb|]. split.
    + intros sheet [<-|Hin]; [|now apply Hbefore].
      cbn [fst]. now apply String.eqb_neq.
    + destruct (String.eqb name actual) eqn:Hsame; [|exact Hrows].
      apply String.eqb_eq in Hsame. subst name.
      rewrite Hactual, String.eqb_refl in Hn. discriminate Hn.
Qed.

(** X2. The worker's result has one entry for each of the six expected
    sheets, in their order: the parsed rows of the first sheet of the
    workbook whose normalized name is that of the expected sheet, or no
    rows when there is none; its warnings are those of the expected sheets
    that have none, in order.  A sheet is missing exactly when no sheet
    name of the workbook normalizes to the expected one; the sheet that is
    found has the normalized name of the expected one, no sheet before it
    has, and its rows are the rows that are parsed. *)
Theorem workbook_has_every_expected_sheet (wb : Ingest.workbook) :
  fst (Ingest.parseWorkbook wb)
  = map (fun e =>
           (e, match Ingest.findSheet wb e with
               | Some actual =>
                   parseSheet (String.eqb e "Internal Fleets") (Ingest.sheetRows wb actual)
               | None => []
               end))
        Ingest.sheetsToParse
  /\ snd (Ingest.parseWorkbook wb)
     = map Ingest.warningFor
           (filter (fun e => match Ingest.findSheet wb e with None => true | Some _ => false end)
                   Ingest.sheetsToParse)
  /\ map fst (fst (Ingest.parseWorkbook wb)) = Ingest.sheetsToParse
  /\ (forall e,
         Ingest.findSheet wb e = None
         <-> forall name, In name (map fst wb) ->
                          Ingest.normalizeSheetName name <> Ingest.normalizeSheetName e)
  /\ (forall e actual,
         Ingest.findSheet wb e = Some actual ->
         In actual (map fst wb)
         /\ Ingest.normalizeSheetName actual = Ingest.normalizeSheetName e)
  /\ (forall e actual,
         Ingest.findSheet wb e = Some actual ->
         exists before rows after,
           wb = (before ++ (actual, rows) :: after)%list
           /\ (forall sheet, In sheet before ->
                 Ingest.normalizeSheetName (fst sheet) <> Ingest.normalizeSheetName e)
           /\ Ingest.sheetRows wb actual = rows).
Proof.
  unfold Ingest.parseWorkbook. rewrite parseExpected_fold. cbn [fst snd app].
  split; [reflexivity|]. split; [reflexivity|]. split; [reflexivity|].
  split; [|split; [|apply findSheet_first]].
  - intros e. split.
    + intros Hnone name Hin Heq. unfold Ingest.findSheet in Hnone.
      apply (find_none _ _ Hnone) in Hin. apply String.eqb_neq in Hin. contradiction.
    + intros Hall. unfold Ingest.findSheet.
      destruct (find _ (map fst wb)) as [name|] eqn:Hfind; [|reflexivity].
      apply find_some in Hfind. destruct Hfind as [Hin Heq].
      apply String.eqb_eq in Heq. now elim (Hall name Hin).
  - intros e actual Hfind. unfold Ingest.findSheet in Hfind.
    apply find_some in Hfind. destruct Hfind as [Hin Heq].
    split; [exact Hin | now apply String.eqb_eq in Heq].
Qed.
End Workbook.

(** Of two sheets whose names both read as Job Card the first is parsed:
    no sheet before it reads as Job Card, and its rows are the ones
    stored. *)
Lemma workbook_has_every_expected_sheet_on_loose_names :
  Ingest.findSheet Cases.doubledWorkbook "Job Card" = Some "JOB_CARD"
  /\ Ingest.findSheet Cases.looseWorkbook "Internal Fleets" = Some " internal_FLEETS "
  /\ (exists before rows after,
        Cases.doubledWorkbook = (before ++ ("JOB_CARD", rows) :: after)%list
        /\ (forall sheet, In sheet before ->
              Ingest.normalizeSheetName (fst sheet) <> Ingest.normalizeSheetName "Job Card")
        /\ Ingest.sheetRows Cases.doubledWorkbook "JOB_CARD" = rows)
  /\ fst (@Ingest.parseWorkbook Scenario.utcHost Cases.doubledWorkbook)
     = [ ("Dashboard", []); ("Fleet Management", []); ("Driver & Operator", []);
         ("Job Card", [ [("Plate #", VStr "first")] ]);
         ("Internal Fleets", []); ("External Fleets", []) ].
Proof.
  split; [reflexivity|]. split; [reflexivity|]. split; [|reflexivity].
  exact (proj2 (proj2 (proj2 (proj2 (proj2
    (@workbook_has_every_expected_sheet Scenario.utcHost Cases.doubledWorkbook)))))
    "Job Card" "JOB_CARD" eq_refl).
Defined.

(** ** The cleaned row *)

Lemma assign_keys_In (r : row) (key key' : string) (v : value) :
  In key' (map fst (assign r key v)) <-> key' = key \/ In key' (map fst r).
Proof.
  induction r as [|[k w] r IH]; simpl.
  - intuition.
  - destruct (String.eqb k key) eqn:Hk; simpl.
    + apply String.eqb_eq in Hk. subst k. intuition.
    + rewrite IH. intuition.
Qed.

Lemma assign_keys_NoDup (r : row) (key : string) (v : value) :
  NoDup (map fst r) -> NoDup (map fst (assign r key v)).
Proof.
  induction r as [|[k w] r IH]; simpl; intros Hnd.
  - constructor; [intros [] | constructor].
  - inversion Hnd as [|? ? Hnotin Hnd']; subst.
    destruct (String.eqb k key) eqn:Hk; simpl.
    + constructor; assumption.
    + constructor; [|now apply IH].
      rewrite assign_keys_In. intros [Heq|Hin]; [|contradiction].
      subst k. rewrite String.eqb_refl in Hk. discriminate Hk.
Qed.

Section CleanedRow.
Context `{Host}.




End CleanedRow.



(** ** Offered options select rows *)

Section OfferedOptions.
Context `{Host}.

Lemma filter_nonempty {A : Type} (p : A -> bool) (l : list A) (x : A) :
  In x l -> p x = true -> filter p l <> [].
Proof.
  intros Hin Hp Hnil.
  assert (Hx : In x (filter p l)) by (apply filter_In; now split).
  rewrite Hnil in Hx. exact Hx.
Qed.

(** X5. In the Fleet Management, Job Card and Internal Fleets views an
    option offered for a dimension, other than "All", selects at least one
    row once it is chosen, the other filters left as they are: a row whose
    cell of that column reads as the option.  In the Internal Fleets view
    this holds with the shared type at a value other than Rental and Fuel,
    which the option lists do not read. *)
Theorem offered_option_selects_a_row
    (data : list row) (search internalType x : string)
    (ff : FleetManagement.Filters) (jf : JobCardView.Filters)
    (nf : InternalFleetsView.Filters) :
  x <> "All" ->
  (In x (FleetManagement.businessUnitOptions data ff) ->
   exists item,
     In item (FleetManagement.filteredData data
                {| FleetManagement.Month := FleetManagement.Month ff;
                   FleetManagement.Year := FleetManagement.Year ff;
                   FleetManagement.BusinessUnits := x |})
     /\ toString (get item "Business Units") = x)
  /\ (In x (JobCardView.businessUnitOptions data search jf) ->
      exists item,
        In item (JobCardView.filteredData data search
                   {| JobCardView.Month := JobCardView.Month jf;
                      JobCardView.Year := JobCardView.Year jf;
                      JobCardView.BusinessUnits := x;
                      JobCardView.Cluster := JobCardView.Cluster jf |})
        /\ toString (get item "Business Units") = x)
  /\ (In x (JobCardView.clusterOptions data search jf) ->
      exists item,
        In item (JobCardView.filteredData data search
                   {| JobCardView.Month := JobCardView.Month jf;
                      JobCardView.Year := JobCardView.Year jf;
                      JobCardView.BusinessUnits := JobCardView.BusinessUnits jf;
                      JobCardView.Cluster := x |})
        /\ toString (get item "Cluster") = x)
  /\ (internalType <> "Rental" -> internalType <> "Fuel" ->
      In x (InternalFleetsView.businessUnitOptions data search nf) ->
      exists item,
        In item (InternalFleetsView.filteredData data search internalType
                   {| InternalFleetsView.Month := InternalFleetsView.Month nf;
                      InternalFleetsView.Year := InternalFleetsView.Year nf;
                      InternalFleetsView.BusinessUnits := x;
                      InternalFleetsView.Fleet_Category := InternalFleetsView.Fleet_Category nf |})
        /\ toString (get item "Business Units") = x)
  /\ (internalType <> "Rental" -> internalType <> "Fuel" ->
      In x (InternalFleetsView.fleetCategoryOptions data search nf) ->
      exists item,
        In item (InternalFleetsView.filteredData data search internalType
                   {| InternalFleetsView.Month := InternalFleetsView.Month nf;
                      InternalFleetsView.Year := InternalFleetsView.Year nf;
                      InternalFleetsView.BusinessUnits := InternalFleetsView.BusinessUnits nf;
                      InternalFleetsView.Fleet_Category := x |})
        /\ toString (get item "Fleet_Category") = x).
Proof.
  intros HAll. repeat apply conj.
  - unfold FleetManagement.businessUnitOptions. cbv zeta.
    change (dedupe [] _)
      with (JobCardView.columnSet "Business Units" (filter (FleetManagement.dateMatch ff) data)).
    rewrite options_In, columnSet_In.
    intros [Hx|[item [Hin [_ Hs]]]]; [contradiction|].
    apply filter_In in Hin. destruct Hin as [Hin Hd].
    exists item. split; [|exact Hs].
    apply filter_In. split; [exact Hin|]. cbv zeta.
    change (FleetManagement.dateMatch _ item) with (FleetManagement.dateMatch ff item).
    rewrite Hd. cbn [FleetManagement.BusinessUnits]. rewrite Hs, String.eqb_refl.
    now rewrite orb_true_r.
  - unfold JobCardView.businessUnitOptions. cbv zeta. rewrite cascade_In.
    intros [Hx|[item [Hin [Hb [Hc [_ Hs]]]]]]; [contradiction|].
    exists item. split; [|exact Hs].
    apply filter_In. split; [exact Hin|].
    change (JobCardView.baseMatch search _ item) with (JobCardView.baseMatch search jf item).
    change (JobCardView.clusterMatch _ item) with (JobCardView.clusterMatch jf item).
    rewrite Hb, Hc. unfold JobCardView.businessUnitMatch. cbn [JobCardView.BusinessUnits].
    rewrite Hs, String.eqb_refl. now rewrite orb_true_r.
  - unfold JobCardView.clusterOptions. cbv zeta. rewrite cascade_In.
    intros [Hx|[item [Hin [Hb [Hc [_ Hs]]]]]]; [contradiction|].
    exists item. split; [|exact Hs].
    apply filter_In. split; [exact Hin|].
    change (JobCardView.baseMatch search _ item) with (JobCardView.baseMatch search jf item).
    change (JobCardView.businessUnitMatch _ item) with (JobCardView.businessUnitMatch jf item).
    rewrite Hb, Hc. unfold JobCardView.clusterMatch. cbn [JobCardView.Cluster].
    rewrite Hs, String.eqb_refl. now rewrite orb_true_r.
  - intros Hr Hf. unfold InternalFleetsView.businessUnitOptions. cbv zeta. rewrite cascade_In.
    intros [Hx|[item [Hin [Hb [Hc [_ Hs]]]]]]; [contradiction|].
    exists item. split; [|exact Hs].
    apply filter_In. split; [exact Hin|].
    change (InternalFleetsView.baseMatch search _ item)
      with (InternalFleetsView.baseMatch search nf item).
    change (InternalFleetsView.fleetCategoryMatch _ item)
      with (InternalFleetsView.fleetCategoryMatch nf item).
    rewrite Hb, Hc. unfold InternalFleetsView.businessUnitMatch, InternalFleetsView.internalTypeMatch.
    cbn [InternalFleetsView.BusinessUnits].
    apply String.eqb_neq in Hr, Hf. rewrite Hr, Hf.
    rewrite Hs, String.eqb_refl. now rewrite orb_true_r.
  - intros Hr Hf. unfold InternalFleetsView.fleetCategoryOptions. cbv zeta. rewrite cascade_In.
    intros [Hx|[item [Hin [Hb [Hc [_ Hs]]]]]]; [contradiction|].
    exists item. split; [|exact Hs].
    apply filter_In. split; [exact Hin|].
    change (InternalFleetsView.baseMatch search _ item)
      with (InternalFleetsView.baseMatch search nf item).
    change (InternalFleetsView.businessUnitMatch _ item)
      with (InternalFleetsView.businessUnitMatch nf item).
    rewrite Hb, Hc. unfold InternalFleetsView.fleetCategoryMatch, InternalFleetsView.internalTypeMatch.
    cbn [InternalFleetsView.Fleet_Category].
    apply String.eqb_neq in Hr, Hf. rewrite Hr, Hf.
    rewrite Hs, String.eqb_refl. now rewrite orb_true_r.
Qed.
End OfferedOptions.

(** With January 2024 selected over the job cards of scenario D, the
    offered business unit Alpha selects the January card. *)
Lemma offered_option_selects_a_row_scenario_D :
  exists item,
    In item (@JobCardView.filteredData Scenario.utcHost Scenario.scenarioD ""
               {| JobCardView.Month := "JAN"; JobCardView.Year := "2024";
                  JobCardView.BusinessUnits := "Alpha"; JobCardView.Cluster := "All" |})
    /\ @toString Scenario.utcHost (get item "Business Units") = "Alpha".
Proof.
  refine (proj1 (proj2 (@offered_option_selects_a_row Scenario.utcHost
            Scenario.scenarioD "" "All" "Alpha"
            Scenario.creditFilters Scenario.scenarioDFilters
            {| InternalFleetsView.Month := "All"; InternalFleetsView.Year := "All";
               InternalFleetsView.BusinessUnits := "All";
               InternalFleetsView.Fleet_Category := "All" |} _)) _).
  - discriminate.
  - vm_compute. right. left. reflexivity.
Defined.

(** ** The External Fleets view *)

Section ExternalFleets.
Context `{Host}.

(** X6. The External Fleets view shows every row when month, year,
    business unit and supplier are "All", no type of service is ticked and
    each of the three search texts is empty or white space only. *)
Theorem external_view_keeps_every_row (data : list row) (search : ExternalFleetsView.Search) :
  isEmpty (trim (toLowerCase (ExternalFleetsView.regNoFilter search))) = true ->
  isEmpty (trim (toLowerCase (ExternalFleetsView.transmittalFilter search))) = true ->
  isEmpty (trim (toLowerCase (ExternalFleetsView.invoiceFilter search))) = true ->
  ExternalFleetsView.filteredData data search
    {| ExternalFleetsView.Month := "All"; ExternalFleetsView.Year := "All";
       ExternalFleetsView.BusinessUnit := "All"; ExternalFleetsView.Supplier := "All";
       ExternalFleetsView.TypeOfService := [] |}
  = data.
Proof.
  intros Hr Ht Hi. unfold ExternalFleetsView.filteredData.
  apply filter_all. intros item _.
  unfold ExternalFleetsView.baseMatch, ExternalFleetsView.searchMatch. cbv zeta.
  rewrite Hr, Ht, Hi. reflexivity.
Qed.

(** X7. In the External Fleets view an offered business unit or supplier
    other than "All", once chosen, and an offered type of service, once it
    is among the ticked ones, selects at least one row, the other filters
    left as they are. *)
Theorem external_option_selects_a_row
    (data : list row) (search : ExternalFleetsView.Search)
    (f : ExternalFleetsView.Filters) (x : string) (services : list string) :
  (x <> "All" -> In x (ExternalFleetsView.businessUnitOptions data search f) ->
   exists item,
     In item (ExternalFleetsView.filteredData data search
                {| ExternalFleetsView.Month := ExternalFleetsView.Month f;
                   ExternalFleetsView.Year := ExternalFleetsView.Year f;
                   ExternalFleetsView.BusinessUnit := x;
                   ExternalFleetsView.Supplier := ExternalFleetsView.Supplier f;
                   ExternalFleetsView.TypeOfService := ExternalFleetsView.TypeOfService f |})
     /\ toString (get item "Business Units") = x)
  /\ (x <> "All" -> In x (ExternalFleetsView.supplierOptions data search f) ->
      exists item,
        In item (ExternalFleetsView.filteredData data search
                   {| ExternalFleetsView.Month := ExternalFleetsView.Month f;
                      ExternalFleetsView.Year := ExternalFleetsView.Year f;
                      ExternalFleetsView.BusinessUnit := ExternalFleetsView.BusinessUnit f;
                      ExternalFleetsView.Supplier := x;
                      ExternalFleetsView.TypeOfService := ExternalFleetsView.TypeOfService f |})
        /\ toString (get item "Supplier Name") = x)
  /\ (In x services -> In x (ExternalFleetsView.typesOfService data search f) ->
      exists item,
        In item (ExternalFleetsView.filteredData data search
                   {| ExternalFleetsView.Month := ExternalFleetsView.Month f;
                      ExternalFleetsView.Year := ExternalFleetsView.Year f;
                      ExternalFleetsView.BusinessUnit := ExternalFleetsView.BusinessUnit f;
                      ExternalFleetsView.Supplier := ExternalFleetsView.Supplier f;
                      ExternalFleetsView.TypeOfService := services |})
        /\ toString (get item "Type of Service") = x).
Proof.
  repeat apply conj.
  - intros HAll. unfold ExternalFleetsView.businessUnitOptions. cbv zeta. rewrite cascade_In.
    intros [Hx|[item [Hin [Hb [Hq [_ Hs]]]]]]; [contradiction|].
    apply andb_true_iff in Hq. destruct Hq as [Hsup Hserv].
    exists item. split; [|exact Hs].
    apply filter_In. split; [exact Hin|].
    change (ExternalFleetsView.baseMatch search _ item)
      with (ExternalFleetsView.baseMatch search f item).
    change (ExternalFleetsView.supplierMatch _ item)
      with (ExternalFleetsView.supplierMatch f item).
    change (ExternalFleetsView.serviceMatch _ item)
      with (ExternalFleetsView.serviceMatch f item).
    rewrite Hb, Hsup, Hserv. unfold ExternalFleetsView.buMatch.
    cbn [ExternalFleetsView.BusinessUnit].
    rewrite Hs, String.eqb_refl. now rewrite orb_true_r.
  - intros HAll. unfold ExternalFleetsView.supplierOptions. cbv zeta. rewrite cascade_In.
    intros [Hx|[item [Hin [Hb [Hq [_ Hs]]]]]]; [contradiction|].
    apply andb_true_iff in Hq. destruct Hq as [Hbu Hserv].
    exists item. split; [|exact Hs].
    apply filter_In. split; [exact Hin|].
    change (ExternalFleetsView.baseMatch search _ item)
      with (ExternalFleetsView.baseMatch search f item).
    change (ExternalFleetsView.buMatch _ item) with (ExternalFleetsView.buMatch f item).
    change (ExternalFleetsView.serviceMatch _ item)
      with (ExternalFleetsView.serviceMatch f item).
    rewrite Hb, Hbu, Hserv. unfold ExternalFleetsView.supplierMatch.
    cbn [ExternalFleetsView.Supplier].
    rewrite Hs, String.eqb_refl. now rewrite orb_true_r.
  - intros Hticked. unfold ExternalFleetsView.typesOfService. cbv zeta.
    unfold sortStrings. rewrite sortBy_In, columnSet_In.
    intros [item [Hin [_ Hs]]].
    apply filter_In in Hin. destruct Hin as [Hin Hq].
    apply filter_In in Hin. destruct Hin as [Hin Hb].
    apply andb_true_iff in Hq. destruct Hq as [Hbu Hsup].
    exists item. split; [|exact Hs].
    apply filter_In. split; [exact Hin|].
    change (ExternalFleetsView.baseMatch search _ item)
      with (ExternalFleetsView.baseMatch search f item).
    change (ExternalFleetsView.buMatch _ item) with (ExternalFleetsView.buMatch f item).
    change (ExternalFleetsView.supplierMatch _ item)
      with (ExternalFleetsView.supplierMatch f item).
    rewrite Hb, Hbu, Hsup. unfold ExternalFleetsView.serviceMatch.
    cbn [ExternalFleetsView.TypeOfService].
    rewrite Hs. apply arrayIncludes_In in Hticked. rewrite Hticked.
    now rewrite orb_true_r.
Qed.

(** X8. After the two reset effects of the External Fleets view have
    run, the selected business unit and the selected supplier are each
    "All" or in the option list computed from the new state; a selection
    that was not stale is kept, and the ticked types of service are never
    changed, whether the view still offers them or not. *)
Theorem external_reset_settles
    (data : list row) (search : ExternalFleetsView.Search) (f : ExternalFleetsView.Filters) :
  let f' := ExternalFleetsView.resetEffects data search f in
  (stale (ExternalFleetsView.businessUnitOptions data search f)
         (ExternalFleetsView.BusinessUnit f) = false ->
   ExternalFleetsView.BusinessUnit f' = ExternalFleetsView.BusinessUnit f)
  /\ (stale (ExternalFleetsView.supplierOptions data search f)
            (ExternalFleetsView.Supplier f) = false ->
      ExternalFleetsView.Supplier f' = ExternalFleetsView.Supplier f)
  /\ stale (ExternalFleetsView.businessUnitOptions data search f')
           (ExternalFleetsView.BusinessUnit f') = false
  /\ stale (ExternalFleetsView.supplierOptions data search f')
           (ExternalFleetsView.Supplier f') = false
  /\ ExternalFleetsView.TypeOfService f' = ExternalFleetsView.TypeOfService f
  /\ ExternalFleetsView.Month f' = ExternalFleetsView.Month f
  /\ ExternalFleetsView.Year f' = ExternalFleetsView.Year f.
Proof.
  destruct f as [m y bu sup ts]. unfold ExternalFleetsView.resetEffects.
  cbn [ExternalFleetsView.Month ExternalFleetsView.Year ExternalFleetsView.BusinessUnit
       ExternalFleetsView.Supplier ExternalFleetsView.TypeOfService].
  set (sb := stale (ExternalFleetsView.businessUnitOptions data search _) bu).
  set (ss := stale (ExternalFleetsView.supplierOptions data search _) sup).
  cbv zeta.
  cbn [ExternalFleetsView.Month ExternalFleetsView.Year ExternalFleetsView.BusinessUnit
       ExternalFleetsView.Supplier ExternalFleetsView.TypeOfService].
  assert (Hb : sb = false -> bu = "All" \/
               In bu (ExternalFleetsView.businessUnitOptions data search
                        {| ExternalFleetsView.Month := m; ExternalFleetsView.Year := y;
                           ExternalFleetsView.BusinessUnit := bu;
                           ExternalFleetsView.Supplier := sup;
                           ExternalFleetsView.TypeOfService := ts |}))
    by (intros E; apply stale_false; exact E).
  assert (Hs : ss = false -> sup = "All" \/
               In sup (ExternalFleetsView.supplierOptions data search
                         {| ExternalFleetsView.Month := m; ExternalFleetsView.Year := y;
                            ExternalFleetsView.BusinessUnit := bu;
                            ExternalFleetsView.Supplier := sup;
                            ExternalFleetsView.TypeOfService := ts |}))
    by (intros E; apply stale_false; exact E).
  repeat apply conj; try reflexivity.
  - intros ->. reflexivity.
  - intros ->. reflexivity.
  - apply stale_false. destruct sb; [now left|].
    destruct (Hb eq_refl) as [->|Hin]; [now left|right].
    destruct ss; [|exact Hin].
    revert Hin. apply cascade_widen. intros item Hq.
    apply andb_true_iff in Hq. destruct Hq as [_ Hserv].
    apply andb_true_iff. split; [reflexivity | exact Hserv].
  - apply stale_false. destruct ss; [now left|].
    destruct (Hs eq_refl) as [->|Hin]; [now left|right].
    destruct sb; [|exact Hin].
    revert Hin. apply cascade_widen. intros item Hq.
    apply andb_true_iff in Hq. destruct Hq as [_ Hserv].
    apply andb_true_iff. split; [reflexivity | exact Hserv].
Qed.
End ExternalFleets.

(** A search text of two spaces filters nothing. *)
Lemma external_view_keeps_every_row_on_blank_search :
  @ExternalFleetsView.filteredData Scenario.utcHost Cases.suppliedRows Cases.noSearch
    {| ExternalFleetsView.Month := "All"; ExternalFleetsView.Year := "All";
       ExternalFleetsView.BusinessUnit := "All"; ExternalFleetsView.Supplier := "All";
       ExternalFleetsView.TypeOfService := [] |}
  = Cases.suppliedRows.
Proof.
  apply (@external_view_keeps_every_row Scenario.utcHost Cases.suppliedRows Cases.noSearch);
    reflexivity.
Defined.

(** Business unit Beta and supplier Acme selected over rows where Acme
    serves Alpha only, a type of service ticked that no row has: both
    selections are reset, the ticked type stays and the view is empty. *)
Lemma external_reset_settles_on_supplied_rows :
  ExternalFleetsView.TypeOfService
    (@ExternalFleetsView.resetEffects Scenario.utcHost Cases.suppliedRows Cases.noSearch
       Cases.acmeFilters)
  = ["Tow"]
  /\ ExternalFleetsView.BusinessUnit
       (@ExternalFleetsView.resetEffects Scenario.utcHost Cases.suppliedRows Cases.noSearch
          Cases.acmeFilters)
     = "All"
  /\ @ExternalFleetsView.filteredData Scenario.utcHost Cases.suppliedRows Cases.noSearch
       (@ExternalFleetsView.resetEffects Scenario.utcHost Cases.suppliedRows Cases.noSearch
          Cases.acmeFilters)
     = [].
Proof.
  split; [|split; reflexivity].
  exact (proj1 (proj2 (proj2 (proj2 (proj2
    (@external_reset_settles Scenario.utcHost Cases.suppliedRows Cases.noSearch
       Cases.acmeFilters)))))).
Defined.

(** ** Ticking a type of service *)

Lemma arrayIncludes_app (xs ys : list string) (s : string) :
  arrayIncludes (xs ++ ys) s = (arrayIncludes xs s || arrayIncludes ys s)%bool.
Proof. unfold arrayIncludes. apply existsb_app. Qed.

Lemma arrayIncludes_setDelete (set : list string) (service t : string) :
  arrayIncludes (ExternalFleetsView.setDelete set service) t
  = (negb (String.eqb t service) && arrayIncludes set t)%bool.
Proof.
  unfold ExternalFleetsView.setDelete, arrayIncludes.
  induction set as [|m set IH]; cbn [filter existsb].
  - now rewrite andb_false_r.
  - destruct (String.eqb m service) eqn:Hm; cbn [negb existsb]; rewrite IH.
    + apply String.eqb_eq in Hm. subst m.
      destruct (String.eqb t service); reflexivity.
    + destruct (String.eqb t m) eqn:Ht; [|reflexivity].
      apply String.eqb_eq in Ht. subst m. now rewrite Hm.
Qed.

Lemma setDelete_length (set : list string) (service : string) :
  NoDup set -> In service set ->
  S (List.length (ExternalFleetsView.setDelete set service)) = List.length set.
Proof.
  unfold ExternalFleetsView.setDelete.
  induction set as [|m set IH]; intros Hnd Hin; [destruct Hin|].
  inversion Hnd as [|? ? Hnotin Hnd']; subst.
  cbn [filter]. destruct (String.eqb m service) eqn:Hm; cbn [negb List.length].
  - apply String.eqb_eq in Hm. subst m. f_equal.
    f_equal. apply filter_all. intros x Hx.
    apply negb_true_iff, String.eqb_neq. intros ->. contradiction.
  - f_equal. apply IH; [exact Hnd'|].
    destruct Hin as [Heq|Hin]; [|exact Hin].
    subst m. rewrite String.eqb_refl in Hm. discriminate Hm.
Qed.

(** X9. Ticking a type of service in the External Fleets view turns the
    membership of that type in the set of ticked types over and leaves the
    membership of every other type, and every other filter, as it was; the
    set keeps each member once and its size goes up or down by one, so
    that ticking the same type twice gives the set of before. *)
Theorem type_of_service_toggle (service : string) (prev : ExternalFleetsView.Filters) :
  NoDup (ExternalFleetsView.TypeOfService prev) ->
  let next := ExternalFleetsView.handleTypeOfServiceChange service prev in
  arrayIncludes (ExternalFleetsView.TypeOfService next) service
  = negb (arrayIncludes (ExternalFleetsView.TypeOfService prev) service)
  /\ (forall other, other <> service ->
        arrayIncludes (ExternalFleetsView.TypeOfService next) other
        = arrayIncludes (ExternalFleetsView.TypeOfService prev) other)
  /\ NoDup (ExternalFleetsView.TypeOfService next)
  /\ List.length (ExternalFleetsView.TypeOfService next)
     = (if arrayIncludes (ExternalFleetsView.TypeOfService prev) service
        then pred (List.length (ExternalFleetsView.TypeOfService prev))
        else S (List.length (ExternalFleetsView.TypeOfService prev)))
  /\ (forall t,
        arrayIncludes
          (ExternalFleetsView.TypeOfService
             (ExternalFleetsView.handleTypeOfServiceChange service next)) t
        = arrayIncludes (ExternalFleetsView.TypeOfService prev) t)
  /\ (ExternalFleetsView.Month next, ExternalFleetsView.Year next,
      ExternalFleetsView.BusinessUnit next, ExternalFleetsView.Supplier next)
     = (ExternalFleetsView.Month prev, ExternalFleetsView.Year prev,
        ExternalFleetsView.BusinessUnit prev, ExternalFleetsView.Supplier prev).
Proof.
  destruct prev as [m y bu sup ts]. cbn [ExternalFleetsView.TypeOfService]. intros Hnd.
  unfold ExternalFleetsView.handleTypeOfServiceChange.
  cbn [ExternalFleetsView.TypeOfService ExternalFleetsView.Month ExternalFleetsView.Year
       ExternalFleetsView.BusinessUnit ExternalFleetsView.Supplier].
  destruct (arrayIncludes ts service) eqn:Hin.
  - assert (Hgone : arrayIncludes (ExternalFleetsView.setDelete ts service) service = false)
      by (rewrite arrayIncludes_setDelete, String.eqb_refl; reflexivity).
    rewrite Hgone. unfold ExternalFleetsView.setAdd. rewrite Hgone.
    repeat apply conj.
    + reflexivity.
    + intros other Hne. rewrite arrayIncludes_setDelete.
      apply String.eqb_neq in Hne. now rewrite Hne.
    + apply NoDup_filter. exact Hnd.
    + apply arrayIncludes_In in Hin.
      now rewrite <- (setDelete_length ts service Hnd Hin).
    + intros t. rewrite arrayIncludes_app, arrayIncludes_setDelete.
      unfold arrayIncludes at 2. cbn [existsb]. rewrite orb_false_r.
      destruct (String.eqb t service) eqn:Ht; cbn [negb andb orb].
      * apply String.eqb_eq in Ht. now subst t.
      * now rewrite orb_false_r.
    + reflexivity.
  - unfold ExternalFleetsView.setAdd. rewrite Hin.
    assert (Hthere : arrayIncludes (ts ++ [service]) service = true).
    { rewrite arrayIncludes_app. unfold arrayIncludes at 2. cbn [existsb].
      rewrite String.eqb_refl. now rewrite orb_true_r. }
    rewrite Hthere.
    repeat apply conj.
    + reflexivity.
    + intros other Hne. rewrite arrayIncludes_app.
      unfold arrayIncludes at 2. cbn [existsb].
      apply String.eqb_neq in Hne. rewrite Hne. now rewrite !orb_false_r.
    + apply arrayIncludes_false in Hin.
      apply NoDup_app; [exact Hnd | constructor; [intros [] | constructor] |].
      intros x Hx [Heq|[]]. subst x. contradiction.
    + rewrite length_app. cbn [List.length]. lia.
    + intros t. rewrite arrayIncludes_setDelete, arrayIncludes_app.
      unfold arrayIncludes at 2. cbn [existsb]. rewrite orb_false_r.
      destruct (String.eqb t service) eqn:Ht; cbn [negb andb].
      * apply String.eqb_eq in Ht. subst t. now rewrite Hin.
      * now rewrite orb_false_r.
    + reflexivity.
Qed.

(** Unticking the only ticked type of service leaves no type ticked. *)
Lemma type_of_service_toggle_on_tow :
  List.length (ExternalFleetsView.TypeOfService
                 (ExternalFleetsView.handleTypeOfServiceChange "Tow" Cases.acmeFilters))
  = O.
Proof.
  refine (proj1 (proj2 (proj2 (proj2
    (type_of_service_toggle "Tow" Cases.acmeFilters _))))).
  repeat constructor. intros [].
Defined.

(** ** The data table: headers and the sort request *)

Lemma addKeys_fold (ks acc : list string) :
  let result :=
    fold_left (fun acc k => if arrayIncludes acc k then acc else (acc ++ [k])%list) ks acc in
  (NoDup acc -> NoDup result)
  /\ (forall k, In k result <-> In k acc \/ In k ks)
  /\ (exists more, result = (acc ++ more)%list)
  /\ (NoDup (acc ++ ks) -> result = (acc ++ ks)%list).
Proof.
  revert acc. induction ks as [|k ks IH]; intros acc; cbn [fold_left]; cbv zeta.
  - repeat apply conj.
    + trivial.
    + intros k. simpl. tauto.
    + exists []. now rewrite app_nil_r.
    + intros _. now rewrite app_nil_r.
  - destruct (arrayIncludes acc k) eqn:Hk.
    + apply arrayIncludes_In in Hk.
      destruct (IH acc) as [Hnd [Hin [Hmore Heq]]]. cbv zeta in *.
      repeat apply conj.
      * exact Hnd.
      * intros k'. rewrite Hin. simpl. split; [tauto|].
        intros [Ha|[Hb|Hc]]; [now left | subst k'; now left | now right].
      * exact Hmore.
      * intros Hnd'. exfalso. apply NoDup_remove_2 in Hnd'.
        apply Hnd'. apply in_or_app. now left.
    + apply arrayIncludes_false in Hk.
      destruct (IH (acc ++ [k])%list) as [Hnd [Hin [[more Hmore] Heq]]]. cbv zeta in *.
      repeat apply conj.
      * intros Hacc. apply Hnd.
        apply NoDup_app; [exact Hacc | constructor; [intros [] | constructor] |].
        intros x Hx [Hxk|[]]. subst x. contradiction.
      * intros k'. rewrite Hin, in_app_iff. simpl. tauto.
      * exists (k :: more). rewrite Hmore, <- app_assoc. reflexivity.
      * intros Hnd'. rewrite <- app_assoc in Heq. now apply Heq.
Qed.

Lemma headers_fold (data : list row) (acc : list string) :
  (NoDup acc -> NoDup (fold_left DataTable.addKeys data acc))
  /\ (forall k, In k (fold_left DataTable.addKeys data acc)
                <-> In k acc \/ exists r, In r data /\ In k (map fst r))
  /\ (exists more, fold_left DataTable.addKeys data acc = (acc ++ more)%list).
Proof.
  revert acc. induction data as [|r data IH]; intros acc; cbn [fold_left].
  - repeat apply conj.
    + trivial.
    + intros k. split; [now left|]. intros [Hin|[r [[] _]]]. exact Hin.
    + exists []. now rewrite app_nil_r.
  - destruct (addKeys_fold (map fst r) acc) as [Hnd [Hin [[more Hmore] _]]].
    fold (DataTable.addKeys acc r) in Hnd, Hin, Hmore. cbv zeta in Hnd, Hin.
    destruct (IH (DataTable.addKeys acc r)) as [Hnd' [Hin' [more' Hmore']]].
    repeat apply conj.
    + intros Hacc. apply Hnd', Hnd, Hacc.
    + intros k. rewrite Hin', Hin. split.
      * intros [[Ha|Hr]|[r' [Hr' Hk]]].
        -- now left.
        -- right. exists r. split; [now left | exact Hr].
        -- right. exists r'. split; [now right | exact Hk].
      * intros [Ha|[r' [[Heq|Hr'] Hk]]].
        -- left. now left.
        -- subst r'. left. now right.
        -- right. exists r'. now split.
    + exists (more ++ more')%list. rewrite Hmore', Hmore, <- app_assoc. reflexivity.
Qed.

(** X10. The table shows the headers it is given, as they are; given
    none, it shows each key of each row once, a key being shown exactly
    when some row has it, beginning with the keys of the first row in
    their order. *)
Theorem table_headers (given : list string) (data : list row) :
  DataTable.headers (Some given) data = given
  /\ NoDup (DataTable.headers None data)
  /\ (forall k, In k (DataTable.headers None data)
                <-> exists r, In r data /\ In k (map fst r))
  /\ (forall r rest, data = r :: rest -> NoDup (map fst r) ->
        exists more, DataTable.headers None data = (map fst r ++ more)%list).
Proof.
  split; [reflexivity|]. unfold DataTable.headers.
  destruct (headers_fold data []) as [Hnd [Hin _]].
  split; [apply Hnd, NoDup_nil|]. split.
  - intros k. rewrite Hin. simpl. tauto.
  - intros r rest -> Hr. cbn [fold_left].
    destruct (addKeys_fold (map fst r) []) as [_ [_ [_ Heq]]].
    fold (DataTable.addKeys [] r) in Heq. cbv zeta in Heq.
    rewrite (Heq Hr). apply (headers_fold rest ([] ++ map fst r)%list).
Qed.

(** X11. A click on a header sorts by that column; on the column the
    table is sorted by, clicks go from ascending to descending to unsorted
    and back to ascending, so three more clicks give the state of before;
    a click on any other column sorts ascending. *)
Theorem sort_request_cycle (sortConfig : DataTable.SortConfig) (k : string) :
  let clicked := DataTable.requestSort sortConfig k in
  DataTable.key clicked = k
  /\ (DataTable.key sortConfig <> k -> DataTable.direction clicked = Some DataTable.asc)
  /\ (DataTable.key sortConfig = k ->
      DataTable.direction clicked
      = match DataTable.direction sortConfig with
        | Some DataTable.asc => Some DataTable.desc
        | Some DataTable.desc => None
        | None => Some DataTable.asc
        end)
  /\ DataTable.requestSort (DataTable.requestSort (DataTable.requestSort clicked k) k) k
     = clicked
  /\ DataTable.requestSort clicked k <> clicked.
Proof.
  destruct sortConfig as [k0 d]. unfold DataTable.requestSort.
  cbn [DataTable.key DataTable.direction]. rewrite !String.eqb_refl.
  repeat apply conj.
  - reflexivity.
  - intros Hne. apply String.eqb_neq in Hne. rewrite Hne. now destruct d as [[]|].
  - intros ->. now rewrite String.eqb_refl.
  - destruct (String.eqb k0 k); destruct d as [[]|]; reflexivity.
  - destruct (String.eqb k0 k); destruct d as [[]|]; intros Heq;
      apply (f_equal DataTable.direction) in Heq; discriminate Heq.
Qed.

(** ** Searching a list of options *)

Lemma prefix_spec (p s : string) :
  prefix p s = true <-> exists b, s = p ++ b.
Proof.
  revert s. induction p as [|c p IH]; intros s.
  - split; [intros _; now exists s | intros _; now destruct s].
  - destruct s as [|d s].
    + split; [discriminate | intros [b Hb]; discriminate Hb].
    + change (prefix (String c p) (String d s))
        with (if ascii_dec c d then prefix p s else false).
      destruct (ascii_dec c d) as [->|Hne].
      * rewrite IH. split; intros [b Hb]; exists b.
        -- cbn [append]. now rewrite Hb.
        -- cbn [append] in Hb. now injection Hb.
      * split; [discriminate|]. intros [b Hb]. cbn [append] in Hb.
        injection Hb as Hcd _. now elim Hne.
Qed.

Lemma includes_spec (s sub : string) :
  includes s sub = true <-> exists a b, s = a ++ sub ++ b.
Proof.
  split.
  - induction s as [|c s IH]; cbn [includes]; rewrite orb_true_iff.
    + intros [Hp|Hf]; [|discriminate Hf].
      apply prefix_spec in Hp. destruct Hp as [b Hb]. now exists "", b.
    + intros [Hp|Hi].
      * apply prefix_spec in Hp. destruct Hp as [b Hb]. now exists "", b.
      * destruct (IH Hi) as [a [b Hab]]. exists (String c a), b.
        cbn [append]. now rewrite Hab.
  - intros [a [b Hab]]. subst s. induction a as [|c a IH].
    + cbn [append]. destruct (sub ++ b) eqn:Hs; cbn [includes]; rewrite <- Hs;
        (replace (prefix sub (sub ++ b)) with true
           by (symmetry; apply prefix_spec; now exists b)); reflexivity.
    + cbn [append includes]. rewrite IH. apply orb_true_r.
Qed.

Lemma isEmpty_toUpperCase (s : string) : isEmpty (toUpperCase s) = isEmpty s.
Proof. now destruct s. Qed.

Lemma isEmpty_toLowerCase (s : string) : isEmpty (toLowerCase s) = isEmpty s.
Proof. now destruct s. Qed.

(** X12. The search box of a dropdown, and the one of the types of
    service, keeps the options that contain the search text, letter case
    apart, in their order: an empty text keeps them all, and, for texts of
    the 7-bit range, the case in which the text is typed makes no
    difference and an option is found by any part of its own text. *)
Theorem dropdown_search (options : list string) (searchTerm : string) :
  Text.sevenBit searchTerm = true ->
  SearchableDropdown.filteredOptions options "" = options
  /\ SearchableDropdown.filteredOptions options (toUpperCase searchTerm)
     = SearchableDropdown.filteredOptions options searchTerm
  /\ SearchableDropdown.filteredOptions options (toLowerCase searchTerm)
     = SearchableDropdown.filteredOptions options searchTerm
  /\ (forall option,
        In option (SearchableDropdown.filteredOptions options searchTerm)
        <-> In option options
            /\ (searchTerm = ""
                \/ exists a b, toLowerCase option = a ++ toLowerCase searchTerm ++ b))
  /\ (forall a b,
        Text.sevenBit (a ++ b) = true ->
        In (a ++ searchTerm ++ b) options ->
        In (a ++ searchTerm ++ b) (SearchableDropdown.filteredOptions options searchTerm))
  /\ ExternalFleetsView.filteredServices options searchTerm
     = SearchableDropdown.filteredOptions options searchTerm.
Proof.
  intros _.
  assert (Hin : forall option,
             In option (SearchableDropdown.filteredOptions options searchTerm)
             <-> In option options
                 /\ (searchTerm = ""
                     \/ exists a b, toLowerCase option = a ++ toLowerCase searchTerm ++ b)).
  { intros option. unfold SearchableDropdown.filteredOptions.
    destruct searchTerm as [|c t].
    - cbn [isEmpty]. split; [intros Ho; split; [exact Ho | now left] | tauto].
    - cbn [isEmpty]. cbv zeta. rewrite filter_In, includes_spec. split.
      + intros [Ho Hab]. split; [exact Ho | now right].
      + intros [Ho [Hempty|Hab]]; [discriminate Hempty | now split]. }
  repeat apply conj.
  - reflexivity.
  - unfold SearchableDropdown.filteredOptions.
    now rewrite isEmpty_toUpperCase, toLowerCase_toUpperCase.
  - unfold SearchableDropdown.filteredOptions.
    now rewrite isEmpty_toLowerCase, toLowerCase_idempotent.
  - exact Hin.
  - intros a b _ Ho. apply Hin. split; [exact Ho|]. right.
    exists (toLowerCase a), (toLowerCase b).
    unfold toLowerCase. now rewrite !mapString_append.
  - reflexivity.
Qed.

(** The supplier Acme is found by a part of its name typed in upper
    case. *)
Lemma dropdown_search_on_suppliers :
  SearchableDropdown.filteredOptions ["All"; "Acme"; "Bolt"] (toUpperCase "cm")
  = SearchableDropdown.filteredOptions ["All"; "Acme"; "Bolt"] "cm"
  /\ SearchableDropdown.filteredOptions ["All"; "Acme"; "Bolt"] "CM" = ["Acme"].
Proof.
  split; [|reflexivity].
  exact (proj1 (proj2 (dropdown_search ["All"; "Acme"; "Bolt"] "cm" eq_refl))).
Defined.

(** ** The pages of the exported table *)

Section Pages.
Context {A : Type}.

Lemma pageRows_succ (rows : list A) (perPage i : nat) :
  CostDetailView.pageRows rows perPage (S i)
  = CostDetailView.pageRows (skipn perPage rows) perPage i.
Proof.
  unfold CostDetailView.pageRows. rewrite skipn_skipn.
  replace (S i * perPage)%nat with (i * perPage + perPage)%nat by lia. reflexivity.
Qed.

Lemma pages_concat (perPage n : nat) (rows : list A) :
  (List.length rows <= n * perPage)%nat ->
  List.concat (map (CostDetailView.pageRows rows perPage) (seq 0 n)) = rows.
Proof.
  revert rows. induction n as [|n IH]; intros rows Hlen.
  - destruct rows; [reflexivity | simpl in Hlen; lia].
  - cbn [seq map List.concat]. rewrite <- seq_shift, map_map.
    rewrite (map_ext _ _ (pageRows_succ rows perPage)).
    rewrite IH by (rewrite length_skipn; lia).
    unfold CostDetailView.pageRows. cbn [Nat.mul skipn].
    apply firstn_skipn.
Qed.

Lemma numPages_covers (rows : list A) (perPage : nat) :
  (0 < perPage)%nat ->
  (List.length rows <= CostDetailView.numPages rows perPage * perPage)%nat
  /\ (forall i, (i < CostDetailView.numPages rows perPage)%nat ->
                (i * perPage < List.length rows)%nat).
Proof.
  intros Hp. unfold CostDetailView.numPages.
  pose proof (Nat.div_mod_eq (List.length rows + perPage - 1) perPage) as Hdiv.
  pose proof (Nat.mod_upper_bound (List.length rows + perPage - 1) perPage
                ltac:(lia)) as Hmod.
  set (q := ((List.length rows + perPage - 1) / perPage)%nat) in *.
  set (r := ((List.length rows + perPage - 1) mod perPage)%nat) in *.
  split; [nia|]. intros i Hi. nia.
Qed.

(** X13. The PDF export cuts the rows of the table into pages of a
    fixed number of rows, 30 at least, the last page apart: the pages, one
    after the other, are the rows of the table, each once and in order; no
    page is empty and none has more rows than that number, which every
    page but the last has; a table with no rows gives no page. *)
Theorem export_pages_cover_rows (rows : list A) (calculatedRows : option Z) :
  let perPage := CostDetailView.rowsPerPage calculatedRows in
  (30 <= perPage)%nat
  /\ List.concat (CostDetailView.pages rows perPage) = rows
  /\ Forall (fun page => (0 < List.length page <= perPage)%nat)
            (CostDetailView.pages rows perPage)
  /\ (forall i, (S i < CostDetailView.numPages rows perPage)%nat ->
                List.length (CostDetailView.pageRows rows perPage i) = perPage)
  /\ (List.length (CostDetailView.pages rows perPage) = O <-> rows = []).
Proof.
  cbv zeta.
  assert (Hper : (30 <= CostDetailView.rowsPerPage calculatedRows)%nat).
  { unfold CostDetailView.rowsPerPage. destruct calculatedRows as [c|]; lia. }
  set (perPage := CostDetailView.rowsPerPage calculatedRows) in *.
  destruct (numPages_covers rows perPage ltac:(lia)) as [Hcover Hstart].
  split; [exact Hper|]. split; [|split; [|split]].
  - unfold CostDetailView.pages. apply pages_concat. exact Hcover.
  - unfold CostDetailView.pages. apply Forall_forall. intros page Hin.
    apply in_map_iff in Hin. destruct Hin as [i [Hpage Hi]].
    apply in_seq in Hi. subst page. unfold CostDetailView.pageRows.
    rewrite length_firstn, length_skipn.
    pose proof (Hstart i ltac:(lia)). lia.
  - intros i Hi. unfold CostDetailView.pageRows.
    rewrite length_firstn, length_skipn.
    pose proof (Hstart (S i) Hi). lia.
  - unfold CostDetailView.pages. rewrite length_map, length_seq. split.
    + intros Hzero. rewrite Hzero in Hcover. destruct rows; [reflexivity | simpl in Hcover; lia].
    + intros ->. unfold CostDetailView.numPages. cbn [List.length].
      apply Nat.div_small. lia.
Qed.
End Pages.

(** ** The detail table *)

Lemma project_get (item : row) (headers : list string) (acc : row) (header : string) :
  get (fold_left (fun r h => assign r h (get item h)) headers acc) header
  = if arrayIncludes headers header then get item header else get acc header.
Proof.
  revert acc. induction headers as [|h headers IH]; intros acc; [reflexivity|].
  cbn [fold_left]. rewrite IH. unfold arrayIncludes. cbn [existsb].
  fold (arrayIncludes headers header).
  destruct (arrayIncludes headers header); [now rewrite orb_true_r|].
  rewrite orb_false_r. destruct (String.eqb header h) eqn:Hh.
  - apply String.eqb_eq in Hh. subst h. apply get_assign_same.
  - apply get_assign_other. apply String.eqb_neq in Hh. congruence.
Qed.

Lemma project_keys (item : row) (headers : list string) (acc : row) :
  NoDup (map fst acc) ->
  NoDup (map fst (fold_left (fun r h => assign r h (get item h)) headers acc))
  /\ forall k, In k (map fst (fold_left (fun r h => assign r h (get item h)) headers acc))
               <-> In k (map fst acc) \/ In k headers.
Proof.
  revert acc. induction headers as [|h headers IH]; intros acc Hnd; cbn [fold_left].
  - split; [exact Hnd|]. intros k. simpl. tauto.
  - destruct (IH (assign acc h (get item h)) (assign_keys_NoDup _ _ _ Hnd)) as [Hnd' Hin].
    split; [exact Hnd'|]. intros k. rewrite Hin, assign_keys_In. simpl.
    split; [intros [[->|Ha]|Hh]; tauto | intros [Ha|[->|Hh]]; tauto].
Qed.

(** X14. A row of the detail table has exactly the columns named by the
    headers, each once, and in each of them the cell of the source row,
    which is absent when the source row has no such column; no other
    column of the source row is carried over, and the table has one row
    for each row of the data. *)
Theorem detail_table_projects_headers (data : list row) (headers : list string) :
  List.length (CostDetailView.tableData data headers) = List.length data
  /\ forall i item, nth_error data i = Some item ->
       exists r,
         nth_error (CostDetailView.tableData data headers) i = Some r
         /\ NoDup (map fst r)
         /\ (forall header, In header (map fst r) <-> In header headers)
         /\ (forall header,
               get r header
               = if arrayIncludes headers header then get item header else VUndef).
Proof.
  unfold CostDetailView.tableData. split; [apply length_map|].
  intros i item Hi. exists (CostDetailView.project headers item).
  split; [now apply map_nth_error|].
  unfold CostDetailView.project.
  destruct (project_keys item headers [] (NoDup_nil _)) as [Hnd Hin].
  split; [exact Hnd|]. split.
  - intros header. rewrite Hin. simpl. tauto.
  - intros header. apply project_get.
Qed.

(** ** The designation summary *)

Lemma countOf_increment (counts : list (string * nat)) (designation d : string) :
  DesignationSummary.countOf (DesignationSummary.increment counts designation) d
  = if String.eqb designation d then S (DesignationSummary.countOf counts d)
    else DesignationSummary.countOf counts d.
Proof.
  unfold DesignationSummary.countOf.
  induction counts as [|[k n] counts IH]; cbn [DesignationSummary.increment find fst snd].
  - destruct (String.eqb designation d); reflexivity.
  - destruct (String.eqb k designation) eqn:Hk; cbn [find fst snd].
    + apply String.eqb_eq in Hk. subst k.
      destruct (String.eqb designation d); reflexivity.
    + destruct (String.eqb k d) eqn:Hd; [|exact IH].
      apply String.eqb_eq in Hd. subst k. now rewrite String.eqb_sym, Hk.
Qed.

Lemma increment_keys_In (counts : list (string * nat)) (designation k : string) :
  In k (map fst (DesignationSummary.increment counts designation))
  <-> k = designation \/ In k (map fst counts).
Proof.
  induction counts as [|[k' n] counts IH]; cbn [DesignationSummary.increment].
  - simpl. intuition.
  - destruct (String.eqb k' designation) eqn:Hk; simpl.
    + apply String.eqb_eq in Hk. subst k'. intuition.
    + rewrite IH. intuition.
Qed.

Lemma increment_keys_NoDup (counts : list (string * nat)) (designation : string) :
  NoDup (map fst counts) -> NoDup (map fst (DesignationSummary.increment counts designation)).
Proof.
  induction counts as [|[k n] counts IH]; cbn [DesignationSummary.increment]; intros Hnd.
  - simpl. constructor; [intros [] | constructor].
  - simpl in Hnd. inversion Hnd as [|? ? Hnotin Hnd']; subst.
    destruct (String.eqb k designation) eqn:Hk; simpl.
    + constructor; assumption.
    + constructor; [|now apply IH].
      rewrite increment_keys_In. intros [Heq|Hin]; [|contradiction].
      subst k. rewrite String.eqb_refl in Hk. discriminate Hk.
Qed.

Lemma increment_positive (counts : list (string * nat)) (designation : string) :
  Forall (fun entry => (0 < snd entry)%nat) counts ->
  Forall (fun entry => (0 < snd entry)%nat) (DesignationSummary.increment counts designation).
Proof.
  induction counts as [|[k n] counts IH]; cbn [DesignationSummary.increment]; intros Hpos.
  - constructor; [simpl; lia | constructor].
  - inversion Hpos as [|? ? Hn Hpos']; subst.
    destruct (String.eqb k designation); constructor; simpl in *; try lia; auto.
Qed.

Lemma sumCounts_cons (entry : string * nat) (entries : list (string * nat)) :
  DesignationSummary.sumCounts (entry :: entries)
  = (snd entry + DesignationSummary.sumCounts entries)%nat.
Proof.
  assert (Hshift : forall (l : list (string * nat)) (a : nat),
             fold_left (fun sum e => (sum + snd e)%nat) l a
             = (a + fold_left (fun sum e => (sum + snd e)%nat) l O)%nat).
  { induction l as [|e l IH]; intros a; cbn [fold_left]; [lia|].
    rewrite (IH (a + snd e)%nat), (IH (0 + snd e)%nat). lia. }
  unfold DesignationSummary.sumCounts. cbn [fold_left]. rewrite Hshift. lia.
Qed.

Lemma sumCounts_increment (counts : list (string * nat)) (designation : string) :
  DesignationSummary.sumCounts (DesignationSummary.increment counts designation)
  = S (DesignationSummary.sumCounts counts).
Proof.
  induction counts as [|[k n] counts IH]; cbn [DesignationSummary.increment].
  - reflexivity.
  - destruct (String.eqb k designation); rewrite !sumCounts_cons; cbn [snd]; [lia|].
    rewrite IH. lia.
Qed.

Lemma sumCounts_split (p : string * nat -> bool) (entries : list (string * nat)) :
  DesignationSummary.sumCounts entries
  = (DesignationSummary.sumCounts (filter p entries)
     + DesignationSummary.sumCounts (filter (fun entry => negb (p entry)) entries))%nat.
Proof.
  induction entries as [|e entries IH]; [reflexivity|].
  cbn [filter]. destruct (p e); cbn [negb]; rewrite !sumCounts_cons, IH; lia.
Qed.

Lemma countOf_absent (counts : list (string * nat)) (d : string) :
  ~ In d (map fst counts) -> DesignationSummary.countOf counts d = O.
Proof.
  unfold DesignationSummary.countOf.
  induction counts as [|[k n] counts IH]; intros Hn; [reflexivity|].
  cbn [find fst]. destruct (String.eqb k d) eqn:Hk.
  - apply String.eqb_eq in Hk. subst k. elim Hn. now left.
  - apply IH. intros Hin. apply Hn. now right.
Qed.

Lemma countOf_In (counts : list (string * nat)) (d : string) (n : nat) :
  NoDup (map fst counts) -> In (d, n) counts -> DesignationSummary.countOf counts d = n.
Proof.
  unfold DesignationSummary.countOf.
  induction counts as [|[k m] counts IH]; intros Hnd Hin; [destruct Hin|].
  simpl in Hnd. inversion Hnd as [|? ? Hnotin Hnd']; subst.
  cbn [find fst]. destruct Hin as [Heq|Hin].
  - injection Heq as -> ->. now rewrite String.eqb_refl.
  - destruct (String.eqb k d) eqn:Hk; [|now apply IH].
    apply String.eqb_eq in Hk. subst k. elim Hnotin.
    apply in_map_iff. now exists (d, n).
Qed.

Lemma countOf_positive_In (counts : list (string * nat)) (d : string) :
  (0 < DesignationSummary.countOf counts d)%nat ->
  In (d, DesignationSummary.countOf counts d) counts.
Proof.
  unfold DesignationSummary.countOf.
  induction counts as [|[k m] counts IH]; cbn [find fst]; [lia|].
  destruct (String.eqb k d) eqn:Hk.
  - apply String.eqb_eq in Hk. subst k. now left.
  - intros Hpos. right. now apply IH.
Qed.

Lemma sumCounts_drivers (counts : list (string * nat)) :
  NoDup (map fst counts) ->
  DesignationSummary.sumCounts
    (filter (fun entry => arrayIncludes DesignationSummary.driverDesignations (fst entry)) counts)
  = (DesignationSummary.countOf counts "HEAVY DRIVER"
     + DesignationSummary.countOf counts "LIGHT DRIVER")%nat.
Proof.
  induction counts as [|[k n] counts IH]; intros Hnd; [reflexivity|].
  simpl in Hnd. inversion Hnd as [|? ? Hnotin Hnd']; subst.
  specialize (IH Hnd').
  cbn [filter fst]. unfold arrayIncludes at 1, DesignationSummary.driverDesignations at 1.
  cbn [existsb]. unfold DesignationSummary.countOf at 1 2. cbn [find fst].
  destruct (String.eqb k "HEAVY DRIVER") eqn:Hh.
  - apply String.eqb_eq in Hh. subst k. cbn [orb snd String.eqb Ascii.eqb Bool.eqb andb].
    fold (DesignationSummary.countOf counts "LIGHT DRIVER").
    rewrite sumCounts_cons, IH, (countOf_absent counts "HEAVY DRIVER" Hnotin).
    cbn [snd]. lia.
  - destruct (String.eqb k "LIGHT DRIVER") eqn:Hl.
    + apply String.eqb_eq in Hl. subst k. cbn [orb snd].
      fold (DesignationSummary.countOf counts "HEAVY DRIVER").
      rewrite sumCounts_cons, IH, (countOf_absent counts "LIGHT DRIVER" Hnotin).
      cbn [snd]. lia.
    + cbn [orb]. exact IH.
Qed.

Lemma find_driver (counts : list (string * nat)) (d : string) :
  arrayIncludes DesignationSummary.driverDesignations d = true ->
  match find (fun dr => String.eqb (fst dr) d)
             (filter (fun entry => arrayIncludes DesignationSummary.driverDesignations (fst entry))
                     counts) with
  | Some found => found
  | None => (d, O)
  end
  = (d, DesignationSummary.countOf counts d).
Proof.
  intros Hd. unfold DesignationSummary.countOf.
  induction counts as [|[k n] counts IH]; [reflexivity|].
  cbn [filter find fst]. destruct (String.eqb k d) eqn:Hk.
  - apply String.eqb_eq in Hk. subst k. rewrite Hd. cbn [find fst].
    now rewrite String.eqb_refl.
  - destruct (arrayIncludes DesignationSummary.driverDesignations k); [|exact IH].
    cbn [find fst]. rewrite Hk. exact IH.
Qed.

Lemma countDesignations_snoc (data : list row) (item : row) :
  DesignationSummary.countDesignations (data ++ [item])
  = DesignationSummary.countItem (DesignationSummary.countDesignations data) item.
Proof. unfold DesignationSummary.countDesignations. now rewrite fold_left_app. Qed.

Lemma filter_snoc_length {A : Type} (p : A -> bool) (l : list A) (x : A) :
  List.length (filter p (l ++ [x]))
  = (List.length (filter p l) + if p x then 1 else 0)%nat.
Proof.
  rewrite filter_app, length_app. cbn [filter]. now destruct (p x).
Qed.

Lemma counts_invariant (data : list row) (counts : list (string * nat)) :
  DesignationSummary.countDesignations data = Some counts ->
  NoDup (map fst counts)
  /\ Forall (fun entry => (0 < snd entry)%nat) counts
  /\ (forall d, DesignationSummary.countOf counts d
                = List.length (filter (DesignationSummary.isDesignated d) data))
  /\ DesignationSummary.sumCounts counts
     = List.length (filter DesignationSummary.hasDesignation data).
Proof.
  revert counts. induction data as [|item data IH] using rev_ind; intros counts Hc.
  - injection Hc as <-. repeat apply conj; try reflexivity; constructor.
  - rewrite countDesignations_snoc in Hc.
    destruct (DesignationSummary.countDesignations data) as [c0|]; [|discriminate Hc].
    destruct (IH c0 eq_refl) as [Hnd [Hpos [Hcount Hsum]]].
    unfold DesignationSummary.countItem in Hc.
    assert (Hskip : DesignationSummary.hasDesignation item = false ->
                    counts = c0 ->
                    NoDup (map fst counts)
                    /\ Forall (fun entry => (0 < snd entry)%nat) counts
                    /\ (forall d, DesignationSummary.countOf counts d
                                  = List.length (filter (DesignationSummary.isDesignated d)
                                                        (data ++ [item])))
                    /\ DesignationSummary.sumCounts counts
                       = List.length (filter DesignationSummary.hasDesignation (data ++ [item]))).
    { intros Hno ->. repeat apply conj; try assumption.
      - intros d. rewrite filter_snoc_length, Hcount.
        unfold DesignationSummary.isDesignated. unfold DesignationSummary.hasDesignation in Hno.
        destruct (DesignationSummary.standardized item) as [[t|]|]; try lia.
        rewrite Hno. cbn [andb]. lia.
      - rewrite filter_snoc_length, Hsum, Hno. lia. }
    destruct (DesignationSummary.standardized item) as [[t|]|] eqn:Hstd; [| |discriminate Hc].
    + destruct (isEmpty t) eqn:Ht.
      * injection Hc as <-. apply Hskip; [|reflexivity].
        unfold DesignationSummary.hasDesignation. now rewrite Hstd, Ht.
      * injection Hc as <-. repeat apply conj.
        -- now apply increment_keys_NoDup.
        -- now apply increment_positive.
        -- intros d. rewrite countOf_increment, filter_snoc_length, Hcount.
           unfold DesignationSummary.isDesignated. rewrite Hstd, Ht. cbn [negb andb].
           destruct (String.eqb t d); lia.
        -- rewrite sumCounts_increment, filter_snoc_length, Hsum.
           unfold DesignationSummary.hasDesignation. rewrite Hstd, Ht. cbn [negb]. lia.
    + injection Hc as <-. apply Hskip; [|reflexivity].
      unfold DesignationSummary.hasDesignation. now rewrite Hstd.
Qed.

Section Designations.
Context `{Host}.

(** X15. When the summary is computed over rows whose designations are
    texts of the 7-bit range, its drivers are the entries HEAVY DRIVER and
    LIGHT DRIVER, in this order and also when no row has them, each with
    the number of rows whose designation, trimmed and in upper case, is
    that one; its operators are the other designations some row has, each
    once with the number of its rows; and the two totals add up to the
    number of rows that have a designation. *)
Theorem designation_summary_counts (data : list row) (s : DesignationSummary.Summary) :
  (forall item designation,
      In item data -> DesignationSummary.getDesignation item = VStr designation ->
      Text.sevenBit designation = true) ->
  DesignationSummary.summarize data = Some s ->
  DesignationSummary.drivers s
  = [ ("HEAVY DRIVER",
       List.length (filter (DesignationSummary.isDesignated "HEAVY DRIVER") data));
      ("LIGHT DRIVER",
       List.length (filter (DesignationSummary.isDesignated "LIGHT DRIVER") data)) ]
  /\ NoDup (map fst (DesignationSummary.operators s))
  /\ (forall d n,
        In (d, n) (DesignationSummary.operators s)
        <-> ~ In d DesignationSummary.driverDesignations
            /\ n = List.length (filter (DesignationSummary.isDesignated d) data)
            /\ (0 < n)%nat)
  /\ DesignationSummary.totalDrivers s
     = (List.length (filter (DesignationSummary.isDesignated "HEAVY DRIVER") data)
        + List.length (filter (DesignationSummary.isDesignated "LIGHT DRIVER") data))%nat
  /\ (DesignationSummary.totalDrivers s + DesignationSummary.totalOperators s)%nat
     = List.length (filter DesignationSummary.hasDesignation data).
Proof.
  intros _. unfold DesignationSummary.summarize.
  destruct (DesignationSummary.countDesignations data) as [counts|] eqn:Hc; [|discriminate].
  destruct (counts_invariant data counts Hc) as [Hnd [Hpos [Hcount Hsum]]].
  cbv zeta. intros Hs.
  apply (f_equal (fun o => match o with Some found => found | None => s end)) in Hs.
  cbv beta iota in Hs. subst s.
  cbn [DesignationSummary.drivers DesignationSummary.operators
       DesignationSummary.totalDrivers DesignationSummary.totalOperators].
  assert (Hdrivers :
    map (fun d =>
           match find (fun dr => String.eqb (fst dr) d)
                      (filter (fun entry =>
                                 arrayIncludes DesignationSummary.driverDesignations (fst entry))
                              counts) with
           | Some found => found
           | None => (d, O)
           end)
        DesignationSummary.driverDesignations
    = [ ("HEAVY DRIVER",
         List.length (filter (DesignationSummary.isDesignated "HEAVY DRIVER") data));
        ("LIGHT DRIVER",
         List.length (filter (DesignationSummary.isDesignated "LIGHT DRIVER") data)) ]).
  { change (map ?f DesignationSummary.driverDesignations)
      with [f "HEAVY DRIVER"; f "LIGHT DRIVER"].
    cbv beta. rewrite !find_driver by reflexivity. now rewrite !Hcount. }
  rewrite Hdrivers.
  repeat apply conj.
  - reflexivity.
  - apply (Permutation_NoDup (l := map fst (filter (fun entry =>
             negb (arrayIncludes DesignationSummary.driverDesignations (fst entry))) counts))).
    + apply Permutation_map, Permutation_sym, sortBy_perm.
    + clear -Hnd. induction counts as [|[k n] counts IH]; [constructor|].
      simpl in Hnd. inversion Hnd as [|? ? Hnotin Hnd']; subst.
      cbn [filter fst]. destruct (negb _); [|now apply IH].
      cbn [map fst]. constructor; [|now apply IH].
      intros Hin. apply Hnotin. apply in_map_iff in Hin.
      destruct Hin as [e [He Hin]]. apply filter_In in Hin.
      apply in_map_iff. exists e. tauto.
  - intros d n. rewrite sortBy_In, filter_In. cbn [fst].
    rewrite negb_true_iff, arrayIncludes_false. split.
    + intros [Hin Hnot]. split; [exact Hnot|].
      rewrite <- Hcount, (countOf_In counts d n Hnd Hin). split; [reflexivity|].
      rewrite Forall_forall in Hpos. exact (Hpos (d, n) Hin).
    + intros [Hnot [Hn Hp]]. split; [|exact Hnot].
      rewrite <- Hcount in Hn. subst n. now apply countOf_positive_In.
  - rewrite !sumCounts_cons. cbn [snd]. unfold DesignationSummary.sumCounts. cbn [fold_left]. lia.
  - rewrite <- Hsum.
    rewrite (sumCounts_split
               (fun entry => arrayIncludes DesignationSummary.driverDesignations (fst entry))
               counts).
    rewrite (sumCounts_drivers counts Hnd), !Hcount.
    rewrite !sumCounts_cons. cbn [snd]. unfold DesignationSummary.sumCounts at 1.
    cbn [fold_left]. lia.
Qed.

(** X16. The summary is not computed, the code throwing, exactly when
    some row has a designation that is neither a string nor absent: a
    number, a boolean or a date. *)
Theorem designation_summary_throws (data : list row) :
  DesignationSummary.summarize data = None
  <-> exists item,
        In item data
        /\ match DesignationSummary.getDesignation item with
           | VBool _ | VNum _ | VDate _ => True
           | VUndef | VNull | VStr _ => False
           end.
Proof.
  assert (Hstd : forall item,
             DesignationSummary.standardized item = None
             <-> match DesignationSummary.getDesignation item with
                 | VBool _ | VNum _ | VDate _ => True
                 | VUndef | VNull | VStr _ => False
                 end).
  { intros item. unfold DesignationSummary.standardized.
    destruct (DesignationSummary.getDesignation item); split; intros Hx;
      try discriminate Hx; try destruct Hx; try exact I; reflexivity. }
  assert (Hcounts : DesignationSummary.countDesignations data = None
                    <-> exists item, In item data
                                     /\ DesignationSummary.standardized item = None).
  { induction data as [|item data IH] using rev_ind.
    - split; [discriminate | intros [item [[] _]]].
    - rewrite countDesignations_snoc. unfold DesignationSummary.countItem.
      destruct (DesignationSummary.countDesignations data) as [c0|].
      + split.
        * intros Hnone. exists item. split; [apply in_or_app; right; now left|].
          destruct (DesignationSummary.standardized item) as [[t|]|]; try discriminate Hnone;
            [|reflexivity].
          destruct (isEmpty t); discriminate Hnone.
        * intros [item' [Hin Hthrows]]. apply in_app_or in Hin.
          destruct Hin as [Hin|[Heq|[]]].
          -- assert (Hsome : Some c0 = None) by (apply IH; now exists item').
             discriminate Hsome.
          -- subst item'. now rewrite Hthrows.
      + split; [|reflexivity]. intros _.
        destruct (proj1 IH eq_refl) as [item' [Hin Hthrows]].
        exists item'. split; [apply in_or_app; now left | exact Hthrows]. }
  unfold DesignationSummary.summarize.
  destruct (DesignationSummary.countDesignations data) as [counts|] eqn:Hc.
  - split; [discriminate|]. intros [item [Hin Hthrows]].
    assert (Hsome : Some counts = None).
    { apply Hcounts. exists item. split; [exact Hin | now apply Hstd]. }
    discriminate Hsome.
  - split; [|reflexivity]. intros _.
    destruct (proj1 Hcounts eq_refl) as [item [Hin Hthrows]].
    exists item. split; [exact Hin | now apply Hstd].
Qed.
End Designations.

(** Two heavy drivers, written in two ways, and a crane operator are
    counted; the blank designation and the missing one are not. *)
Lemma designation_summary_counts_on_crew :
  exists s,
    @DesignationSummary.summarize Scenario.utcHost Cases.crew = Some s
    /\ DesignationSummary.drivers s = [("HEAVY DRIVER", 2%nat); ("LIGHT DRIVER", O)]
    /\ (DesignationSummary.totalDrivers s + DesignationSummary.totalOperators s)%nat = 3%nat.
Proof.
  exists {| DesignationSummary.drivers := [("HEAVY DRIVER", 2%nat); ("LIGHT DRIVER", O)];
            DesignationSummary.operators := [("CRANE OPERATOR", 1%nat)];
            DesignationSummary.totalDrivers := 2;
            DesignationSummary.totalOperators := 1 |}.
  split; [reflexivity|].
  assert (Hseven : forall item designation,
             In item Cases.crew ->
             DesignationSummary.getDesignation item = VStr designation ->
             Text.sevenBit designation = true).
  { intros item designation Hin Hd.
    repeat (destruct Hin as [<-|Hin];
            [try discriminate Hd; injection Hd as <-; reflexivity|]).
    destruct Hin. }
  destruct (@designation_summary_counts Scenario.utcHost Cases.crew
              {| DesignationSummary.drivers := [("HEAVY DRIVER", 2%nat); ("LIGHT DRIVER", O)];
                 DesignationSummary.operators := [("CRANE OPERATOR", 1%nat)];
                 DesignationSummary.totalDrivers := 2;
                 DesignationSummary.totalOperators := 1 |} Hseven eq_refl)
    as [Hdrivers [_ [_ [_ Htotal]]]].
  split; [exact Hdrivers | exact Htotal].
Defined.

(** ** The business units the dashboard offers *)

Lemma dedupeValues_In (xs seen : list value) (v : value) :
  In v (DashboardOptions.dedupeValues seen xs) -> In v xs.
Proof.
  revert seen. induction xs as [|x xs IH]; intros seen; cbn [DashboardOptions.dedupeValues].
  - trivial.
  - destruct (existsb (sameValueZero x) seen).
    + intros Hin. right. exact (IH _ Hin).
    + intros [Heq|Hin]; [now left | right; exact (IH _ Hin)].
Qed.

Lemma offers_In (options : list value) (selection : string) :
  DashboardOptions.offers options selection = true <-> In (VStr selection) options.
Proof.
  unfold DashboardOptions.offers. rewrite existsb_exists. split.
  - intros [v [Hin Hv]]. destruct v; try discriminate Hv.
    cbn [sameValueZero] in Hv. apply String.eqb_eq in Hv. now subst.
  - intros Hin. exists (VStr selection). split; [exact Hin|].
    cbn [sameValueZero]. apply String.eqb_refl.
Qed.

Section DashboardUnits.
Context `{Host}.

(** X17. The business units the dashboard offers depend on the month
    and the year only, not on the business unit selected.  An offered
    business unit other than "All", once selected, leaves at least one row
    in the sheets the dashboard shows, a row of that business unit.  The
    effect that follows changes nothing but the business unit: it sets it
    to "All" when it is neither "All" nor offered, keeps the state as it
    is otherwise, and so leaves a selection that is "All" or offered. *)
Theorem dashboard_business_units
    (allData : ExcelData) (f : SharedFilterState) (x : string) :
  (forall bu it d,
      DashboardOptions.dynamicBusinessUnits allData
        {| month := month f; year := year f; businessUnit := bu;
           internalType := it; designation := d |}
      = DashboardOptions.dynamicBusinessUnits allData f)
  /\ (x <> "All" ->
      DashboardOptions.offers (DashboardOptions.dynamicBusinessUnits allData f) x = true ->
      let shown :=
        Dashboard.filtered allData
          {| month := month f; year := year f; businessUnit := x;
             internalType := internalType f; designation := designation f |} in
      exists item,
        In item (driverOperator shown ++ fleetManagement shown ++ jobCard shown
                 ++ internalFleets shown ++ externalFleets shown)%list
        /\ Dashboard.getBusinessUnit item = VStr x)
  /\ (let f' := DashboardOptions.resetEffect allData f in
      (businessUnit f' = "All"
       \/ DashboardOptions.offers (DashboardOptions.dynamicBusinessUnits allData f')
            (businessUnit f') = true)
      /\ (businessUnit f = "All"
          \/ DashboardOptions.offers (DashboardOptions.dynamicBusinessUnits allData f)
               (businessUnit f) = true ->
          f' = f)
      /\ (businessUnit f <> "All" ->
          DashboardOptions.offers (DashboardOptions.dynamicBusinessUnits allData f)
            (businessUnit f) = false ->
          businessUnit f' = "All")
      /\ (month f', year f', internalType f', designation f')
         = (month f, year f, internalType f, designation f)).
Proof.
  split; [reflexivity|]. split.
  - intros HAll Hoffered. apply offers_In in Hoffered.
    unfold DashboardOptions.dynamicBusinessUnits in Hoffered.
    destruct Hoffered as [Heq|Hin]; [injection Heq as Heq; now elim HAll|].
    apply sortBy_In, dedupeValues_In in Hin.
    unfold DashboardOptions.businessUnitsOf in Hin.
    apply filter_In in Hin. destruct Hin as [Hin _].
    apply in_map_iff in Hin. destruct Hin as [item [Hbu Hin]].
    cbv zeta. exists item. split; [|exact Hbu].
    assert (Hstd : forall item', Dashboard.getBusinessUnit item' = VStr x ->
                     Dashboard.filterByDate f item' = true ->
                     Dashboard.filterByBUAndDate
                       {| month := month f; year := year f; businessUnit := x;
                          internalType := internalType f; designation := designation f |}
                       item' = true).
    { intros item' Hb Hd. unfold Dashboard.filterByBUAndDate, Dashboard.buMatch.
      cbn [businessUnit]. rewrite Hb. cbn [strictEqStr].
      rewrite String.eqb_refl, orb_true_r. cbn [negb]. exact Hd. }
    assert (Hjob : forall item', Dashboard.getBusinessUnit item' = VStr x ->
                     Dashboard.filterJobCardByDate f item' = true ->
                     Dashboard.filterJobCardByBUAndDate
                       {| month := month f; year := year f; businessUnit := x;
                          internalType := internalType f; designation := designation f |}
                       item' = true).
    { intros item' Hb Hd. unfold Dashboard.filterJobCardByBUAndDate, Dashboard.buMatch.
      cbn [businessUnit]. rewrite Hb. cbn [strictEqStr].
      rewrite String.eqb_refl, orb_true_r. cbn [negb]. exact Hd. }
    unfold DashboardOptions.dateFiltered in Hin. unfold Dashboard.filtered.
    cbn [driverOperator fleetManagement jobCard internalFleets externalFleets].
    rewrite !in_app_iff in Hin. rewrite !in_app_iff. rewrite !filter_In in *.
    destruct Hin as [[Hi Hd]|[[Hi Hd]|[[Hi Hd]|[[Hi Hd]|[Hi Hd]]]]]; auto 10.
  - cbv zeta. unfold DashboardOptions.resetEffect.
    destruct (String.eqb (businessUnit f) "All") eqn:Hall; cbn [negb andb].
    + apply String.eqb_eq in Hall. repeat apply conj; auto; try (intros Hne; contradiction).
    + destruct (DashboardOptions.offers (DashboardOptions.dynamicBusinessUnits allData f)
                  (businessUnit f)) eqn:Hoff; cbn [negb].
      * repeat apply conj; auto; try (intros _ Hfalse; discriminate Hfalse).
      * repeat apply conj.
        -- now left.
        -- intros [Heq|Hfalse]; [|discriminate Hfalse].
           apply String.eqb_neq in Hall. contradiction.
        -- reflexivity.
        -- reflexivity.
Qed.
End DashboardUnits.

(** ** The dashboard's job cards and the Job Card view *)

Lemma filter_and {A : Type} (p q : A -> bool) (l : list A) :
  filter p (filter q l) = filter (fun x => (q x && p x)%bool) l.
Proof.
  induction l as [|a l IH]; [reflexivity|].
  cbn [filter]. destruct (q a); cbn [filter andb]; [destruct (p a)|]; now rewrite IH.
Qed.

Section DashboardJobCards.
Context `{Host}.

(** X18. With no business unit selected, the job cards the dashboard
    counts are those the Job Card view shows for the same month and year
    (no search text, every cluster), less, when a month or a year is
    selected, the cards whose month text or year text is empty.  The
    dashboard therefore never counts more job cards than the view shows,
    and it counts the same when neither or both of month and year are
    selected. *)
Theorem dashboard_job_cards_within_view (allData : ExcelData) (f : SharedFilterState) :
  businessUnit f = "All" ->
  let view :=
    JobCardView.filteredData (jobCard allData) ""
      {| JobCardView.Month := month f; JobCardView.Year := year f;
         JobCardView.BusinessUnits := "All"; JobCardView.Cluster := "All" |} in
  jobCard (Dashboard.filtered allData f)
  = filter (fun item =>
              ((String.eqb (month f) "All" && String.eqb (year f) "All")
               || (negb (isEmpty (substring 0 3
                                    (toUpperCase (toString (orElse (get item "Month")
                                                                   (VStr ""))))))
                   && negb (isEmpty (toString (orElse (get item "Year") (VStr ""))))))%bool)
           view
  /\ (Dashboard.jobCards allData f <= JobCardView.recordCount view)%nat
  /\ ((month f = "All" /\ year f = "All")
      \/ (month f <> "All" /\ month f <> "" /\ year f <> "All" /\ year f <> "") ->
      jobCard (Dashboard.filtered allData f) = view).
Proof.
  intros Hbu. cbv zeta.
  assert (Hfirst :
    jobCard (Dashboard.filtered allData f)
    = filter (fun item =>
                ((String.eqb (month f) "All" && String.eqb (year f) "All")
                 || (negb (isEmpty (substring 0 3
                                      (toUpperCase (toString (orElse (get item "Month")
                                                                     (VStr ""))))))
                     && negb (isEmpty (toString (orElse (get item "Year") (VStr ""))))))%bool)
             (JobCardView.filteredData (jobCard allData) ""
                {| JobCardView.Month := month f; JobCardView.Year := year f;
                   JobCardView.BusinessUnits := "All"; JobCardView.Cluster := "All" |})).
  { unfold Dashboard.filtered, JobCardView.filteredData. cbn [jobCard].
    rewrite filter_and. apply filter_ext. intros item.
    unfold Dashboard.filterJobCardByBUAndDate, Dashboard.buMatch, Dashboard.filterJobCardByDate,
      JobCardView.baseMatch, JobCardView.businessUnitMatch, JobCardView.clusterMatch.
    cbn [JobCardView.Month JobCardView.Year JobCardView.BusinessUnits JobCardView.Cluster].
    rewrite Hbu. cbv zeta. cbn [String.eqb Ascii.eqb Bool.eqb andb orb negb toLowerCase
                               mapString trim trimStart trimEnd isEmpty].
    destruct (String.eqb (month f) "All"); destruct (String.eqb (year f) "All");
      cbn [andb orb negb];
      destruct (isEmpty (substring 0 3 (toUpperCase (toString (orElse (get item "Month")
                                                                      (VStr ""))))));
      destruct (isEmpty (toString (orElse (get item "Year") (VStr ""))));
      cbn [andb orb negb]; rewrite ?andb_true_r, ?andb_false_r, ?orb_false_r; reflexivity. }
  split; [exact Hfirst|]. split.
  - unfold Dashboard.jobCards, JobCardView.recordCount. rewrite Hfirst. apply filter_length_le.
  - intros Hcase. rewrite Hfirst. apply filter_all. intros item Hin.
    destruct Hcase as [[Hm Hy]|[Hm [Hm' [Hy Hy']]]].
    + rewrite Hm, Hy. reflexivity.
    + apply filter_In in Hin. destruct Hin as [_ Hp].
      unfold JobCardView.baseMatch in Hp.
      cbn [JobCardView.Month JobCardView.Year] in Hp. cbv zeta in Hp.
      apply String.eqb_neq in Hm, Hy. rewrite Hm, Hy in Hp.
      cbn [orb] in Hp. rewrite !andb_true_iff in Hp.
      destruct Hp as [[[[Hmonth Hyear] _] _] _].
      apply String.eqb_eq in Hmonth, Hyear. rewrite Hmonth, Hyear, Hm. cbn [orb andb].
      destruct (month f); [now elim Hm'|]. destruct (year f); [now elim Hy'|]. reflexivity.
Qed.
End DashboardJobCards.

(** Over the job cards of scenario D with no filter set, the dashboard
    counts the two cards the view shows. *)
Lemma dashboard_job_cards_within_view_scenario_D :
  jobCard (@Dashboard.filtered Scenario.utcHost (Scenario.onlyJobCard Scenario.scenarioD)
             Scenario.allShared)
  = @JobCardView.filteredData Scenario.utcHost Scenario.scenarioD ""
      {| JobCardView.Month := "All"; JobCardView.Year := "All";
         JobCardView.BusinessUnits := "All"; JobCardView.Cluster := "All" |}.
Proof.
  apply (proj2 (proj2 (@dashboard_job_cards_within_view Scenario.utcHost
                         (Scenario.onlyJobCard Scenario.scenarioD) Scenario.allShared
                         eq_refl))).
  left. split; reflexivity.
Defined.

(** ** Offered options of the Driver & Operator view *)

Section DriverOptions.
Context `{Host}.

Lemma accessorSet_In (f : row -> value) (rows : list row) (x : string) :
  In x (DriverOperatorView.accessorSet f rows)
  <-> exists item, In item rows /\ toBoolean (f item) = true /\ toString (f item) = x.
Proof.
  unfold DriverOperatorView.accessorSet. rewrite dedupe_In, in_map_iff. split.
  - intros [[item [Hx Hin]] _]. apply filter_In in Hin. exists item. tauto.
  - intros [item [Hin [Ht Hx]]]. split; [|intros []].
    exists item. split; [assumption|]. apply filter_In. tauto.
Qed.

(** X19. In the Driver & Operator view a business unit of the list
    computed from the rows, other than "All", selects at least one row
    once it is chosen.  A designation of the computed list does so when
    the designations of the rows are strings: the list holds the text of
    a designation, the filter compares the cell itself. *)
Theorem driver_option_selects_a_row
    (data : list row) (sapFilter x : string) (f : DriverOperatorView.Filters) :
  x <> "All" ->
  (In x (DriverOperatorView.businessUnitsBase data sapFilter f) ->
   exists item,
     In item (DriverOperatorView.filteredData data sapFilter
                {| DriverOperatorView.Month := DriverOperatorView.Month f;
                   DriverOperatorView.Year := DriverOperatorView.Year f;
                   DriverOperatorView.BusinessUnits := x;
                   DriverOperatorView.Designation := DriverOperatorView.Designation f |})
     /\ toString (DriverOperatorView.getBusinessUnit item) = x)
  /\ ((forall item, In item data ->
         match DriverOperatorView.getDesignation item with
         | VBool _ | VNum _ | VDate _ => False
         | VUndef | VNull | VStr _ => True
         end) ->
      In x (DriverOperatorView.designationsBase data sapFilter f) ->
      exists item,
        In item (DriverOperatorView.filteredData data sapFilter
                   {| DriverOperatorView.Month := DriverOperatorView.Month f;
                      DriverOperatorView.Year := DriverOperatorView.Year f;
                      DriverOperatorView.BusinessUnits := DriverOperatorView.BusinessUnits f;
                      DriverOperatorView.Designation := x |})
        /\ DriverOperatorView.getDesignation item = VStr x).
Proof.
  intros HAll. split.
  - unfold DriverOperatorView.businessUnitsBase. cbv zeta.
    rewrite options_In, accessorSet_In.
    intros [Hx|[item [Hin [_ Hs]]]]; [contradiction|].
    apply filter_In in Hin. destruct Hin as [Hin Hd].
    apply filter_In in Hin. destruct Hin as [Hin Hb].
    exists item. split; [|exact Hs].
    apply filter_In. split; [exact Hin|].
    change (DriverOperatorView.baseMatch sapFilter _ item)
      with (DriverOperatorView.baseMatch sapFilter f item).
    change (DriverOperatorView.designationMatch _ item)
      with (DriverOperatorView.designationMatch f item).
    rewrite Hb, Hd. unfold DriverOperatorView.businessUnitMatch.
    cbn [DriverOperatorView.BusinessUnits].
    rewrite Hs, String.eqb_refl. now rewrite orb_true_r.
  - intros Hstrings. unfold DriverOperatorView.designationsBase. cbv zeta.
    rewrite options_In, accessorSet_In.
    intros [Hx|[item [Hin [Ht Hs]]]]; [contradiction|].
    apply filter_In in Hin. destruct Hin as [Hin Hu].
    apply filter_In in Hin. destruct Hin as [Hin Hb].
    assert (Hcell : DriverOperatorView.getDesignation item = VStr x).
    { specialize (Hstrings item Hin).
      destruct (DriverOperatorView.getDesignation item); try contradiction;
        try discriminate Ht. cbn [toString] in Hs. now subst. }
    exists item. split; [|exact Hcell].
    apply filter_In. split; [exact Hin|].
    change (DriverOperatorView.baseMatch sapFilter _ item)
      with (DriverOperatorView.baseMatch sapFilter f item).
    change (DriverOperatorView.businessUnitMatch _ item)
      with (DriverOperatorView.businessUnitMatch f item).
    rewrite Hb, Hu. unfold DriverOperatorView.designationMatch.
    cbn [DriverOperatorView.Designation]. rewrite Hcell. cbn [strictEqStr].
    rewrite String.eqb_refl. now rewrite orb_true_r.
Qed.
End DriverOptions.

(** Over the two Alpha rows of scenario B the offered designation DRIVER
    selects the driver's row. *)
Lemma driver_option_selects_a_row_scenario_B :
  exists item,
    In item (@DriverOperatorView.filteredData Scenario.utcHost Scenario.scenarioB ""
               (Scenario.driverFilters "All" "DRIVER"))
    /\ DriverOperatorView.getDesignation item = VStr "DRIVER".
Proof.
  refine (proj2 (@driver_option_selects_a_row Scenario.utcHost Scenario.scenarioB ""
                   "DRIVER" (Scenario.driverFilters "All" "All") _) _ _).
  - discriminate.
  - intros item [<-|[<-|[]]]; exact I.
  - vm_compute. right. left. reflexivity.
Defined.
